(** * SEO analyzer: crawl traversal, sitemap reconciliation, report
      aggregation and the AI optimizer's fallbacks

    A shallow embedding of the two JavaScript classes of the repository:
    [SEOAIOptimizer] (the version that parses JSON answers with
    [cleanAndParseJSON]) and [SEOAnalyzer] (the version whose [crawl] calls
    [analyzePage]).

    Conventions of the embedding.
    - A JS string is the [string] of the bytes of its UTF-8 encoding (as
      the literals of this file are); [str_length] counts its UTF-16 code
      units, which is what [.length] gives.  Searching and slicing work on
      the bytes, which finds the same parts.
    - A JS [Set] is a duplicate-free list in insertion order, a JS [Map]
      keyed by strings is an association list in insertion order
      ([Map.set] on a present key keeps its position).  A plain object is
      given by its properties, as an association list.
    - Code that can throw returns an [Outcome]; [async] functions are run
      to completion in sequence (every call is awaited by the source).
    - Everything the program does not define itself is a field of an
      environment record: the HTTP client, the HTML and XML parsers, URL
      resolution, [JSON.parse], the OpenAI client.  The time read by
      [generateReport] is an argument of its model.
    - Effects that are not state of the analyzer (HTTP requests, file
      writes) are recorded in a trace carried by the state, newest event
      first.  The file system is taken to accept every write.
    - [depth] and [maxDepth] are integers ([NaN] is not represented). *)

From Stdlib Require Import String Ascii List ZArith Bool Lia PeanoNat DecimalString.
Import ListNotations.

Local Open Scope string_scope.
Local Open Scope list_scope.

Set Implicit Arguments.

(* ================================================================= *)
(** ** JavaScript values used by the program *)

Module JS.

(** Result of running code that may throw: the value returned, or the
    message of the error thrown. *)
Inductive Outcome (A : Type) : Type :=
| Returned (a : A)
| Thrown (message : string).

Arguments Returned {A} a.
Arguments Thrown {A} message.

Definition bind {A B : Type} (m : Outcome A) (k : A -> Outcome B) : Outcome B :=
  match m with
  | Returned a => k a
  | Thrown e => Thrown e
  end.

(** [try { body } catch (error) { handler }] *)
Definition try_catch {A : Type} (body : Outcome A) (handler : string -> Outcome A)
  : Outcome A :=
  match body with
  | Returned a => Returned a
  | Thrown e => handler e
  end.

Definition startsWith (s p : string) : bool := String.prefix p s.

Fixpoint str_drop (n : nat) (s : string) : string :=
  match n, s with
  | O, _ => s
  | S n', EmptyString => EmptyString
  | S n', String _ s' => str_drop n' s'
  end.

Fixpoint str_take (n : nat) (s : string) : string :=
  match n, s with
  | O, _ => EmptyString
  | S n', EmptyString => EmptyString
  | S n', String c s' => String c (str_take n' s')
  end.

Definition endsWith (s suffix : string) : bool :=
  (String.length suffix <=? String.length s)%nat
  && String.eqb (str_drop (String.length s - String.length suffix) s) suffix.

(** [toLowerCase] where the program compares with ASCII text (the
    extensions of [shouldCrawl], the resource type of the report): the
    letters A-Z are lower-cased and the other bytes are left as they are.
    No letter outside A-Z lower-cases to the text of an extension.  Where
    the program lower-cases page texts and keywords ([analyzeKeywords])
    the builtin is a collaborator of the environment. *)
Definition lower_ascii (c : ascii) : ascii :=
  let n := nat_of_ascii c in
  if ((65 <=? n) && (n <=? 90))%nat then ascii_of_nat (n + 32) else c.

Fixpoint toLowerCase (s : string) : string :=
  match s with
  | EmptyString => EmptyString
  | String c s' => String (lower_ascii c) (toLowerCase s')
  end.

(** [s.indexOf(c)] for a one-character needle; [None] stands for -1. *)
Fixpoint indexOf (c : ascii) (s : string) : option nat :=
  match s with
  | EmptyString => None
  | String d s' =>
      if Ascii.eqb c d then Some O
      else match indexOf c s' with
           | Some i => Some (S i)
           | None => None
           end
  end.

(** [s.lastIndexOf(c)] for a one-character needle. *)
Fixpoint lastIndexOf (c : ascii) (s : string) : option nat :=
  match s with
  | EmptyString => None
  | String d s' =>
      match lastIndexOf c s' with
      | Some i => Some (S i)
      | None => if Ascii.eqb c d then Some O else None
      end
  end.

(** A string is truthy when it is not empty; [undefined] is falsy. *)
Definition truthy_string (o : option string) : option string :=
  match o with
  | Some EmptyString => None
  | Some s => Some s
  | None => None
  end.

Definition is_empty (s : string) : bool :=
  match s with
  | EmptyString => true
  | String _ _ => false
  end.

(** [s.length].  A byte that starts a character of one to three bytes
    stands for one code unit, a byte that starts a character of four
    bytes for two (a surrogate pair), a continuation byte for none. *)
Definition code_units (c : ascii) : nat :=
  let n := nat_of_ascii c in
  if (n <? 128)%nat then 1
  else if (n <? 192)%nat then 0
  else if (n <? 240)%nat then 1
  else 2.

Fixpoint str_length (s : string) : nat :=
  match s with
  | EmptyString => 0
  | String c s' => code_units c + str_length s'
  end.

(** [text.includes(part)] *)
Fixpoint includes (text part : string) : bool :=
  startsWith text part
  || match text with
     | EmptyString => false
     | String _ rest => includes rest part
     end.

(** *** Set and Map *)

Definition JSSet : Type := list string.

Definition set_has (x : string) (s : JSSet) : bool := existsb (String.eqb x) s.

Definition set_add (x : string) (s : JSSet) : JSSet :=
  if set_has x s then s else s ++ [x].

Definition JSMap (V : Type) : Type := list (string * V).

Fixpoint map_get {V : Type} (k : string) (m : JSMap V) : option V :=
  match m with
  | [] => None
  | (k', v) :: m' => if String.eqb k k' then Some v else map_get k m'
  end.

Definition map_has {V : Type} (k : string) (m : JSMap V) : bool :=
  match map_get k m with
  | Some _ => true
  | None => false
  end.

Fixpoint map_set {V : Type} (k : string) (v : V) (m : JSMap V) : JSMap V :=
  match m with
  | [] => [(k, v)]
  | (k', v') :: m' =>
      if String.eqb k k' then (k, v) :: m' else (k', v') :: map_set k v m'
  end.

(** *** JSON values *)

(** Numbers are kept as integers; a number with a fraction is not
    represented. *)
#[warnings="-register-all"]
Inductive Json : Type :=
| JNull
| JBool (b : bool)
| JNum (z : Z)
| JStr (s : string)
| JArr (items : list Json)
| JObj (fields : list (string * Json)).

Definition truthy (j : Json) : bool :=
  match j with
  | JNull => false
  | JBool b => b
  | JNum z => negb (Z.eqb z 0)
  | JStr s => negb (is_empty s)
  | JArr _ => true
  | JObj _ => true
  end.

(** [value.name]: a [TypeError] on [null], [undefined] ([None]) on a
    value without that property. *)
Definition get_prop (j : Json) (name : string) : Outcome (option Json) :=
  match j with
  | JNull => Thrown "TypeError: Cannot read properties of null"
  | JObj fields => Returned (map_get name fields)
  | _ => Returned None
  end.

(** [a || b] where [a] may be [undefined]. *)
Definition or_else (a : option Json) (b : Json) : Json :=
  match a with
  | Some j => if truthy j then j else b
  | None => b
  end.

(** Whether a value can be converted to a string (in a template literal,
    by [join]).  An object that JSON.parse built is converted by
    [Object.prototype.toString] unless it has a property [toString] of
    its own, which is then not a function: the conversion throws a
    [TypeError].  An array is converted by joining its elements. *)
Fixpoint printable (j : Json) : bool :=
  match j with
  | JObj fields => negb (map_has "toString" fields)
  | JArr items => forallb printable items
  | _ => true
  end.

(** Membership in a [Set] of values: primitive values are compared by
    value; an object or an array that JSON.parse built is a new object,
    which is no member yet. *)
Definition same_value (a b : Json) : bool :=
  match a, b with
  | JNull, JNull => true
  | JBool x, JBool y => Bool.eqb x y
  | JNum x, JNum y => Z.eqb x y
  | JStr x, JStr y => String.eqb x y
  | _, _ => false
  end.

Definition ValueSet : Type := list Json.

Definition value_has (x : Json) (s : ValueSet) : bool := existsb (same_value x) s.

Definition value_add (x : Json) (s : ValueSet) : ValueSet :=
  if value_has x s then s else s ++ [x].

End JS.

Import JS.

Declare Scope outcome_scope.
Delimit Scope outcome_scope with outcome.
Notation "x <- m ;; k" := (bind m (fun x => k))
  (at level 61, m at next level, right associativity) : outcome_scope.

(* ================================================================= *)
(** ** SEOAIOptimizer *)

Module SEOAIOptimizer.

(** What a prompt is built from.  The text around these values, the model
    name, the temperature and the token limit are constants of each
    method. *)
Inductive Prompt : Type :=
| TitlePrompt (keywords : list Json) (maxLength : Z) (currentTitle : string)
| DescriptionPrompt (keywords : list Json) (maxLength : Z)
    (currentDescription : string)
| ContentPrompt (content : string) (keywords : list Json)
| KeywordsPrompt (industry : string) (currentKeywords : list Json)
| PagePrompt (content url : string).

(** The keywords that the prompt joins with [keywords.join(", ")]. *)
Definition prompt_keywords (prompt : Prompt) : list Json :=
  match prompt with
  | TitlePrompt keywords _ _ => keywords
  | DescriptionPrompt keywords _ _ => keywords
  | ContentPrompt _ keywords => keywords
  | KeywordsPrompt _ currentKeywords => currentKeywords
  | PagePrompt _ _ => []
  end.

Record Response : Type := mkResponse { output_text : option string }.

(** The collaborators of the class: [this.openai.responses.create], which
    throws, or returns a response object or [null] / [undefined]; and
    [JSON.parse]. *)
Record Env : Type := mkEnv {
  openai_create : Prompt -> Outcome (option Response);
  JSON_parse : string -> Outcome Json
}.

(** The value [analyzePageContent] returns: an object, or (should
    [JSON.parse] give one) an array that was given properties. *)
Inductive Analysis : Type :=
| AnalysisObject (fields : list (string * Json))
| AnalysisArray (items : list Json) (properties : list (string * Json)).

Definition analysis_prop (a : Analysis) (name : string) : option Json :=
  match a with
  | AnalysisObject fields => map_get name fields
  | AnalysisArray _ properties => map_get name properties
  end.

Definition requiredFields : list string :=
  ["mainKeywords"; "longTailKeywords"; "relatedTopics"; "contentStructure";
   "seoSuggestions"].

(** [Array.isArray(value)] and [!value], on a property that may be
    missing. *)
Definition isArray (o : option Json) : bool :=
  match o with
  | Some (JArr _) => true
  | _ => false
  end.

Definition falsy (o : option Json) : bool :=
  match o with
  | Some j => negb (truthy j)
  | None => true
  end.

(** The two passes over [requiredFields]: the missing fields are set to
    an empty array, then every field that is not an array is. *)
Definition fill_required (properties : list (string * Json)) : list (string * Json) :=
  let missingFields := filter (fun field => falsy (map_get field properties))
                         requiredFields in
  let properties :=
    fold_left (fun p field => map_set field (JArr []) p) missingFields properties in
  fold_left
    (fun p field => if isArray (map_get field p) then p else map_set field (JArr []) p)
    requiredFields properties.

(** The object literal of the three fallbacks of [analyzePageContent]. *)
Definition empty_analysis : Analysis :=
  AnalysisObject (map (fun field => (field, JArr [])) requiredFields).

Section Methods.

Variable env : Env.

Local Open Scope outcome_scope.

Definition cleanAndParseJSON (text : string) : Outcome Json :=
  try_catch
    (match indexOf "{" text with
     | None => Thrown "Nie znaleziono początku obiektu JSON"
     | Some startIndex =>
         let cleanedText := str_drop startIndex text in
         match lastIndexOf "}" cleanedText with
         | None => Thrown "Nie znaleziono końca obiektu JSON"
         | Some endIndex =>
             let finalText := str_take (endIndex + 1) cleanedText in
             JSON_parse env finalText
         end
     end)
    (fun error => Thrown error).

(** [await this.openai.responses.create({...})]: the prompt is built
    first, and joining the keywords throws on a keyword that cannot be
    converted to a string. *)
Definition request (prompt : Prompt) : Outcome (option Response) :=
  if forallb printable (prompt_keywords prompt)
  then openai_create env prompt
  else Thrown "TypeError: Cannot convert object to primitive value".

(** The part the three methods share once the request is built:
    [field] is the property read from the parsed answer and [current] the
    caller's value. *)
Definition answer_or_current (prompt : Prompt) (field : string) (current : Json)
  : Outcome Json :=
  try_catch
    (response <- request prompt ;;
     match response with
     | None => Thrown "TypeError: Cannot read properties of undefined"
     | Some response =>
         match truthy_string (output_text response) with
         | None => Returned current
         | Some text =>
             try_catch
               (parsedResponse <- cleanAndParseJSON text ;;
                value <- get_prop parsedResponse field ;;
                Returned (or_else value current))
               (fun parseError => Returned current)
         end
     end)
    (fun error => Returned current).

Definition optimizeTitle (currentTitle : string) (keywords : list Json)
    (maxLength : Z) : Outcome Json :=
  answer_or_current (TitlePrompt keywords maxLength currentTitle)
    "optimizedTitle" (JStr currentTitle).

Definition optimizeDescription (currentDescription : string)
    (keywords : list Json) (maxLength : Z) : Outcome Json :=
  answer_or_current (DescriptionPrompt keywords maxLength currentDescription)
    "optimizedDescription" (JStr currentDescription).

(** The caller's value is the array [currentKeywords] itself. *)
Definition generateKeywordSuggestions (currentKeywords : list Json)
    (industry : string) : Outcome Json :=
  answer_or_current (KeywordsPrompt industry currentKeywords)
    "suggestions" (JArr currentKeywords).

(** [analyzeContent(content, keywords)]; [None] is [null]. *)
Definition analyzeContent (content : string) (keywords : list Json)
  : Outcome (option Json) :=
  try_catch
    (response <- request (ContentPrompt content keywords) ;;
     match response with
     | None => Thrown "TypeError: Cannot read properties of undefined"
     | Some response =>
         match truthy_string (output_text response) with
         | None => Returned None
         | Some text =>
             try_catch
               (parsedResponse <- cleanAndParseJSON text ;;
                value <- get_prop parsedResponse "suggestions" ;;
                Returned (Some (or_else value (JArr []))))
               (fun parseError => Returned None)
         end
     end)
    (fun error => Returned None).

Record PageData : Type := mkPageData {
  pd_title : string;
  pd_description : string;
  pd_keywords : list Json
}.

(** The object [optimizeMetaTags] returns.  Its [catch] branch returns
    [pageData], which has no [suggestions]. *)
Record OptimizedData : Type := mkOptimizedData {
  od_title : Json;
  od_description : Json;
  od_suggestions : option Json
}.

Definition optimizeMetaTags (pageData : PageData) : Outcome OptimizedData :=
  try_catch
    (title <- optimizeTitle (pd_title pageData) (pd_keywords pageData) 60 ;;
     description <-
       optimizeDescription (pd_description pageData) (pd_keywords pageData) 160 ;;
     suggestions <-
       generateKeywordSuggestions (pd_keywords pageData) "hydraulika" ;;
     Returned (mkOptimizedData title description (Some suggestions)))
    (fun error =>
       Returned (mkOptimizedData (JStr (pd_title pageData))
                   (JStr (pd_description pageData)) None)).

(** [analyzePageContent(content, url)].  The class body is strict code:
    setting a property on a primitive value throws. *)
Definition analyzePageContent (content url : string) : Outcome Analysis :=
  try_catch
    (response <- request (PagePrompt content url) ;;
     match response with
     | None => Thrown "TypeError: Cannot read properties of undefined"
     | Some response =>
         match truthy_string (output_text response) with
         | None => Returned empty_analysis
         | Some text =>
             try_catch
               (parsedResponse <- cleanAndParseJSON text ;;
                match parsedResponse with
                | JObj fields => Returned (AnalysisObject (fill_required fields))
                | JArr items => Returned (AnalysisArray items (fill_required []))
                | JNull => Thrown "TypeError: Cannot read properties of null"
                | _ => Thrown "TypeError: Cannot create property"
                end)
               (fun parseError => Returned empty_analysis)
         end
     end)
    (fun error => Returned empty_analysis).

End Methods.

(** What [cleanAndParseJSON] keeps of a text: the part from its first
    opening brace to the last closing brace after it, if there is one. *)
Definition between_braces (text : string) : option string :=
  match indexOf "{" text with
  | None => None
  | Some first =>
      match lastIndexOf "}" (str_drop first text) with
      | None => None
      | Some last => Some (str_take (last + 1) (str_drop first text))
      end
  end.

(** An answer is unusable when the call throws, when there is no response
    object or no text in it, or when the text holds no part between
    braces that [JSON.parse] accepts. *)
Definition unusable (env : Env) (prompt : Prompt) : Prop :=
  match openai_create env prompt with
  | Thrown _ => True
  | Returned None => True
  | Returned (Some response) =>
      match output_text response with
      | None => True
      | Some text =>
          text = ""
          \/ match between_braces text with
             | None => True
             | Some kept => exists e, JSON_parse env kept = Thrown e
             end
      end
  end.

End SEOAIOptimizer.

(* ================================================================= *)
(** ** SEOAnalyzer: data *)

Module SEOAnalyzer.

Import SEOAIOptimizer.

(** What the queries of the crawler return on a loaded document, after
    [extractContent] has removed the script, style and comment elements
    (in [crawl], [analyzePage] runs before the other two extractions). *)
Record Meta : Type := mkMeta {
  meta_name : option string;
  meta_property : option string;
  meta_content : option string
}.

Record Page : Type := mkPage {
  page_title : string;                (* $("title").text().trim() *)
  page_description : option string;   (* $('meta[name="description"]').attr("content") *)
  page_metas : list Meta;             (* $("meta"), in document order *)
  page_h1 : string;                   (* $("h1").first().text().trim() *)
  page_anchors : list (option string);(* attr("href") of each $("a") *)
  page_content : string               (* JSON.stringify(extractContent($)) *)
}.

(** The three ways [axios.get] ends: it resolves with a response, it
    rejects with [error.response] set, or it rejects without a response
    (DNS, connection, timeout).  [data] is the body of a response that
    axios hands over as text.  A body that axios parses (a JSON content
    type) is not represented: a falsy value behaves as the empty text,
    and on any other value [cheerio.load] throws and [crawl] rejects at
    that page, so that the run of the program is a prefix of the run
    modelled here. *)
Inductive AxiosResult : Type :=
| Resolved (status : Z) (data : string)
| RejectedWithResponse (status : Z)
| RejectedNoResponse (message : string).

(** An entry of a sitemap: [loc[0]], or [None] when the entry has no
    [loc] child (reading [loc[0]] then throws).  The [loc] elements are
    taken to have no attribute, so that [loc[0]] is their text. *)
Definition Entry : Type := option string.

(** The object xml2js hands to the callback, as [parseSitemap] tests it.
    [Sitemapindex] and [Urlset] stand for a truthy [result.sitemapindex]
    and [result.urlset]: xml2js renders a root element of that name as a
    truthy value when the element has an attribute (the [xmlns] of a
    sitemap) or something inside; the list is [None] when that value has
    no [sitemap] (no [url]) property, the element having no child of that
    name.  [OtherRoot] stands for every other result: another root
    element, and also a [sitemapindex] or [urlset] element with no
    attribute and nothing inside, which xml2js renders as the empty
    string and which the tests of [parseSitemap] so take for absent. *)
Inductive XmlRoot : Type :=
| Sitemapindex (sitemap : option (list Entry))
| Urlset (url : option (list Entry))
| OtherRoot.

(** What [analyzePageContent] answers. *)
Definition PageAnalysis : Type := Analysis.

Record AiSuggestions : Type := mkAiSuggestions {
  optimizedTitle : Json;
  optimizedDescription : Json;
  keywordSuggestions : option Json
}.

(** The object stored in [pagesMetaTags] is one plain object: it has a
    property for each meta element of the page, named as the element and
    holding its content, and the two AI steps assign its properties
    [aiSuggestions] and [contentAnalysis].  A meta element of one of
    these two names shares the property.  (The model keeps the properties
    in the order of their first assignment; nothing below reads the
    order.) *)
Inductive MetaValue : Type :=
| MetaText (content : string)
| MetaSuggestions (suggestions : AiSuggestions)
| MetaAnalysis (analysis : PageAnalysis).

Definition MetaTags : Type := JSMap MetaValue.

Definition empty_metaTags : MetaTags := [].

Definition aiSuggestions (metaTags : MetaTags) : option MetaValue :=
  map_get "aiSuggestions" metaTags.

Definition contentAnalysis (metaTags : MetaTags) : option MetaValue :=
  map_get "contentAnalysis" metaTags.

(** [!!value], and [value.name] for the names that the report template
    reads (a string has no property of these names). *)
Definition meta_truthy (value : MetaValue) : bool :=
  match value with
  | MetaText content => negb (is_empty content)
  | _ => true
  end.

Definition meta_prop (value : MetaValue) (name : string) : option Json :=
  match value with
  | MetaText _ => None
  | MetaSuggestions suggestions =>
      if String.eqb name "optimizedTitle" then Some (optimizedTitle suggestions)
      else if String.eqb name "optimizedDescription"
      then Some (optimizedDescription suggestions)
      else if String.eqb name "keywordSuggestions"
      then keywordSuggestions suggestions
      else None
  | MetaAnalysis analysis => analysis_prop analysis name
  end.

Record BrokenLink : Type := mkBrokenLink {
  bl_url : string;
  bl_status : Z;
  bl_error : option string
}.

Inductive Event : Type :=
| EvVisit (url : string)       (* console.log("Crawlowanie: ...") and visitedUrls.add *)
| EvGet (url : string)         (* axios.get(url) *)
| EvWriteFile (path : string)  (* fs.writeFileSync(path, ...) *)
| EvReadFile (path : string)   (* fs.readFileSync(path, ...) *)
| EvBrowser.                   (* puppeteer.launch() *)

(** The collaborators and the constants of one analyzer. *)
Record Env : Type := mkEnv {
  startUrl : string;
  baseUrl : string;   (* getBaseUrl(startUrl): protocol + "//" + hostname *)
  config_keywords : list string;
  URL_href : string -> string -> option string;
    (* new URL(link, base).href; None when the constructor throws *)
  axios_get : string -> AxiosResult;
  cheerio_load : string -> Page;
  parseString : string -> option XmlRoot;   (* None: err is set *)
  analyzePageContent : string -> string -> Outcome (option PageAnalysis);
    (* this.aiOptimizer.analyzePageContent; None: a falsy value *)
  optimizeMetaTags : PageData -> Outcome OptimizedData;
  lowerCase : string -> string;
    (* String.prototype.toLowerCase on page texts and keywords *)
  pdf_rendering_succeeds : bool
}.

Record Analyzer : Type := mkAnalyzer {
  visitedUrls : JSSet;
  staticResources : JSSet;
  brokenLinks : list BrokenLink;
  internalLinks : JSMap (list string);
  externalLinks : JSMap (list string);
  pagesTitles : JSMap string;
  pagesDescriptions : JSMap string;
  pagesH1 : JSMap string;
  sitemapUrls : JSSet;
  urlsNotInSitemap : JSSet;
  urlsInSitemapButNotCrawled : JSSet;
  statusCodes : JSMap Z;
  pagesTitlesWarnings : JSMap nat;
  pagesDescriptionsWarnings : JSMap nat;
  pagesMetaTags : JSMap MetaTags;
  keywords : ValueSet;
  trace : list Event
}.

(** Assignment to one field of [this]. *)

Definition set_visitedUrls (v : JSSet) (st : Analyzer) : Analyzer :=
  mkAnalyzer v (staticResources st) (brokenLinks st) (internalLinks st)
    (externalLinks st) (pagesTitles st) (pagesDescriptions st) (pagesH1 st)
    (sitemapUrls st) (urlsNotInSitemap st) (urlsInSitemapButNotCrawled st)
    (statusCodes st) (pagesTitlesWarnings st) (pagesDescriptionsWarnings st)
    (pagesMetaTags st) (keywords st) (trace st).

Definition set_staticResources (v : JSSet) (st : Analyzer) : Analyzer :=
  mkAnalyzer (visitedUrls st) v (brokenLinks st) (internalLinks st)
    (externalLinks st) (pagesTitles st) (pagesDescriptions st) (pagesH1 st)
    (sitemapUrls st) (urlsNotInSitemap st) (urlsInSitemapButNotCrawled st)
    (statusCodes st) (pagesTitlesWarnings st) (pagesDescriptionsWarnings st)
    (pagesMetaTags st) (keywords st) (trace st).

Definition set_brokenLinks (v : list BrokenLink) (st : Analyzer) : Analyzer :=
  mkAnalyzer (visitedUrls st) (staticResources st) v (internalLinks st)
    (externalLinks st) (pagesTitles st) (pagesDescriptions st) (pagesH1 st)
    (sitemapUrls st) (urlsNotInSitemap st) (urlsInSitemapButNotCrawled st)
    (statusCodes st) (pagesTitlesWarnings st) (pagesDescriptionsWarnings st)
    (pagesMetaTags st) (keywords st) (trace st).

Definition set_internalLinks (v : JSMap (list string)) (st : Analyzer) : Analyzer :=
  mkAnalyzer (visitedUrls st) (staticResources st) (brokenLinks st) v
    (externalLinks st) (pagesTitles st) (pagesDescriptions st) (pagesH1 st)
    (sitemapUrls st) (urlsNotInSitemap st) (urlsInSitemapButNotCrawled st)
    (statusCodes st) (pagesTitlesWarnings st) (pagesDescriptionsWarnings st)
    (pagesMetaTags st) (keywords st) (trace st).

Definition set_externalLinks (v : JSMap (list string)) (st : Analyzer) : Analyzer :=
  mkAnalyzer (visitedUrls st) (staticResources st) (brokenLinks st)
    (internalLinks st) v (pagesTitles st) (pagesDescriptions st) (pagesH1 st)
    (sitemapUrls st) (urlsNotInSitemap st) (urlsInSitemapButNotCrawled st)
    (statusCodes st) (pagesTitlesWarnings st) (pagesDescriptionsWarnings st)
    (pagesMetaTags st) (keywords st) (trace st).

Definition set_pagesTitles (v : JSMap string) (st : Analyzer) : Analyzer :=
  mkAnalyzer (visitedUrls st) (staticResources st) (brokenLinks st)
    (internalLinks st) (externalLinks st) v (pagesDescriptions st) (pagesH1
    st) (sitemapUrls st) (urlsNotInSitemap st) (urlsInSitemapButNotCrawled st)
    (statusCodes st) (pagesTitlesWarnings st) (pagesDescriptionsWarnings st)
    (pagesMetaTags st) (keywords st) (trace st).

Definition set_pagesDescriptions (v : JSMap string) (st : Analyzer) : Analyzer :=
  mkAnalyzer (visitedUrls st) (staticResources st) (brokenLinks st)
    (internalLinks st) (externalLinks st) (pagesTitles st) v (pagesH1 st)
    (sitemapUrls st) (urlsNotInSitemap st) (urlsInSitemapButNotCrawled st)
    (statusCodes st) (pagesTitlesWarnings st) (pagesDescriptionsWarnings st)
    (pagesMetaTags st) (keywords st) (trace st).

Definition set_pagesH1 (v : JSMap string) (st : Analyzer) : Analyzer :=
  mkAnalyzer (visitedUrls st) (staticResources st) (brokenLinks st)
    (internalLinks st) (externalLinks st) (pagesTitles st) (pagesDescriptions
    st) v (sitemapUrls st) (urlsNotInSitemap st) (urlsInSitemapButNotCrawled
    st) (statusCodes st) (pagesTitlesWarnings st) (pagesDescriptionsWarnings
    st) (pagesMetaTags st) (keywords st) (trace st).

Definition set_sitemapUrls (v : JSSet) (st : Analyzer) : Analyzer :=
  mkAnalyzer (visitedUrls st) (staticResources st) (brokenLinks st)
    (internalLinks st) (externalLinks st) (pagesTitles st) (pagesDescriptions
    st) (pagesH1 st) v (urlsNotInSitemap st) (urlsInSitemapButNotCrawled st)
    (statusCodes st) (pagesTitlesWarnings st) (pagesDescriptionsWarnings st)
    (pagesMetaTags st) (keywords st) (trace st).

Definition set_urlsNotInSitemap (v : JSSet) (st : Analyzer) : Analyzer :=
  mkAnalyzer (visitedUrls st) (staticResources st) (brokenLinks st)
    (internalLinks st) (externalLinks st) (pagesTitles st) (pagesDescriptions
    st) (pagesH1 st) (sitemapUrls st) v (urlsInSitemapButNotCrawled st)
    (statusCodes st) (pagesTitlesWarnings st) (pagesDescriptionsWarnings st)
    (pagesMetaTags st) (keywords st) (trace st).

Definition set_urlsInSitemapButNotCrawled (v : JSSet) (st : Analyzer) : Analyzer :=
  mkAnalyzer (visitedUrls st) (staticResources st) (brokenLinks st)
    (internalLinks st) (externalLinks st) (pagesTitles st) (pagesDescriptions
    st) (pagesH1 st) (sitemapUrls st) (urlsNotInSitemap st) v (statusCodes st)
    (pagesTitlesWarnings st) (pagesDescriptionsWarnings st) (pagesMetaTags st)
    (keywords st) (trace st).

Definition set_statusCodes (v : JSMap Z) (st : Analyzer) : Analyzer :=
  mkAnalyzer (visitedUrls st) (staticResources st) (brokenLinks st)
    (internalLinks st) (externalLinks st) (pagesTitles st) (pagesDescriptions
    st) (pagesH1 st) (sitemapUrls st) (urlsNotInSitemap st)
    (urlsInSitemapButNotCrawled st) v (pagesTitlesWarnings st)
    (pagesDescriptionsWarnings st) (pagesMetaTags st) (keywords st) (trace
    st).

Definition set_pagesTitlesWarnings (v : JSMap nat) (st : Analyzer) : Analyzer :=
  mkAnalyzer (visitedUrls st) (staticResources st) (brokenLinks st)
    (internalLinks st) (externalLinks st) (pagesTitles st) (pagesDescriptions
    st) (pagesH1 st) (sitemapUrls st) (urlsNotInSitemap st)
    (urlsInSitemapButNotCrawled st) (statusCodes st) v
    (pagesDescriptionsWarnings st) (pagesMetaTags st) (keywords st) (trace
    st).

Definition set_pagesDescriptionsWarnings (v : JSMap nat) (st : Analyzer) : Analyzer :=
  mkAnalyzer (visitedUrls st) (staticResources st) (brokenLinks st)
    (internalLinks st) (externalLinks st) (pagesTitles st) (pagesDescriptions
    st) (pagesH1 st) (sitemapUrls st) (urlsNotInSitemap st)
    (urlsInSitemapButNotCrawled st) (statusCodes st) (pagesTitlesWarnings st)
    v (pagesMetaTags st) (keywords st) (trace st).

Definition set_pagesMetaTags (v : JSMap MetaTags) (st : Analyzer) : Analyzer :=
  mkAnalyzer (visitedUrls st) (staticResources st) (brokenLinks st)
    (internalLinks st) (externalLinks st) (pagesTitles st) (pagesDescriptions
    st) (pagesH1 st) (sitemapUrls st) (urlsNotInSitemap st)
    (urlsInSitemapButNotCrawled st) (statusCodes st) (pagesTitlesWarnings st)
    (pagesDescriptionsWarnings st) v (keywords st) (trace st).

Definition set_keywords (v : ValueSet) (st : Analyzer) : Analyzer :=
  mkAnalyzer (visitedUrls st) (staticResources st) (brokenLinks st)
    (internalLinks st) (externalLinks st) (pagesTitles st) (pagesDescriptions
    st) (pagesH1 st) (sitemapUrls st) (urlsNotInSitemap st)
    (urlsInSitemapButNotCrawled st) (statusCodes st) (pagesTitlesWarnings st)
    (pagesDescriptionsWarnings st) (pagesMetaTags st) v (trace st).

Definition set_trace (v : list Event) (st : Analyzer) : Analyzer :=
  mkAnalyzer (visitedUrls st) (staticResources st) (brokenLinks st)
    (internalLinks st) (externalLinks st) (pagesTitles st) (pagesDescriptions
    st) (pagesH1 st) (sitemapUrls st) (urlsNotInSitemap st)
    (urlsInSitemapButNotCrawled st) (statusCodes st) (pagesTitlesWarnings st)
    (pagesDescriptionsWarnings st) (pagesMetaTags st) (keywords st) v.
Definition add_all (xs : list string) (s : JSSet) : JSSet :=
  fold_left (fun acc x => set_add x acc) xs s.

(** The constructor. *)
Definition new_analyzer (env : Env) : Analyzer :=
  {| visitedUrls := [];
     staticResources := [];
     brokenLinks := [];
     internalLinks := [];
     externalLinks := [];
     pagesTitles := [];
     pagesDescriptions := [];
     pagesH1 := [];
     sitemapUrls := [];
     urlsNotInSitemap := [];
     urlsInSitemapButNotCrawled := [];
     statusCodes := [];
     pagesTitlesWarnings := [];
     pagesDescriptionsWarnings := [];
     pagesMetaTags := [];
     keywords :=
       fold_left (fun acc k => value_add (JStr k) acc) (config_keywords env) [];
     trace := [] |}.

Definition log (e : Event) (st : Analyzer) : Analyzer :=
  set_trace (e :: trace st) st.

(* ================================================================= *)
(** ** SEOAnalyzer: URL classifier *)

Definition isInternalUrl (env : Env) (link : string) : bool :=
  if startsWith link "/" then true
  else if startsWith link (baseUrl env) then true
  else false.

Definition normalizeUrl (env : Env) (link currentUrl : string) : option string :=
  if startsWith link "/" then URL_href env link (baseUrl env)
  else if negb (startsWith link "http") then URL_href env link currentUrl
  else Some link.

Definition ignoreExtensions : list string :=
  [".jpg"; ".jpeg"; ".png"; ".gif"; ".pdf"; ".doc"; ".zip"; ".css"; ".js";
   ".webp"; ".svg"; ".ico"; ".woff"; ".woff2"; ".ttf"; ".eot"].

Definition isStaticResource (url : string) : bool :=
  existsb (fun ext => endsWith (toLowerCase url) ext) ignoreExtensions.

Definition shouldCrawl (url : string) (st : Analyzer) : bool * Analyzer :=
  if isStaticResource url
  then (false, set_staticResources (set_add url (staticResources st)) st)
  else (true, st).

(* ================================================================= *)
(** ** SEOAnalyzer: fetching and extraction *)

(** Returns [(html, status)]. *)
Definition fetchPage (env : Env) (url : string) (st : Analyzer)
  : (string * Z) * Analyzer :=
  let st := log (EvGet url) st in
  match axios_get env url with
  | Resolved status data =>
      ((data, status), set_statusCodes (map_set url status (statusCodes st)) st)
  | RejectedWithResponse status =>
      let st := set_statusCodes (map_set url status (statusCodes st)) st in
      let st := set_brokenLinks (brokenLinks st ++ [mkBrokenLink url status None]) st in
      (("", status), st)
  | RejectedNoResponse message =>
      let st := set_statusCodes (map_set url 0%Z (statusCodes st)) st in
      let st :=
        set_brokenLinks (brokenLinks st ++ [mkBrokenLink url 0%Z (Some message)]) st in
      (("", 0%Z), st)
  end.

(** [attr("name") || attr("property")] *)
Definition meta_key (m : Meta) : option string :=
  match truthy_string (meta_name m) with
  | Some name => Some name
  | None => meta_property m
  end.

(** [metaTags[name] = content].  Assigning a string to [__proto__]
    calls the setter of [Object.prototype], which ignores it. *)
Definition collect_meta (metaTags : MetaTags) (m : Meta) : MetaTags :=
  match truthy_string (meta_key m), truthy_string (meta_content m) with
  | Some name, Some content =>
      if String.eqb name "__proto__" then metaTags
      else map_set name (MetaText content) metaTags
  | _, _ => metaTags
  end.

Definition extractMetadata (env : Env) (page : Page) (url : string)
    (st : Analyzer) : Analyzer :=
  let title := page_title page in
  let st :=
    if is_empty title then st
    else
      let st := set_pagesTitles (map_set url title (pagesTitles st)) st in
      if ((str_length title <? 30) || (60 <? str_length title))%nat
      then set_pagesTitlesWarnings
             (map_set url (str_length title) (pagesTitlesWarnings st)) st
      else st in
  let description := truthy_string (page_description page) in
  let st :=
    match description with
    | None => st
    | Some d =>
        let st := set_pagesDescriptions (map_set url d (pagesDescriptions st)) st in
        if ((str_length d <? 120) || (160 <? str_length d))%nat
        then set_pagesDescriptionsWarnings
               (map_set url (str_length d) (pagesDescriptionsWarnings st)) st
        else st
    end in
  let metaTags := fold_left collect_meta (page_metas page) [] in
  let st := set_pagesMetaTags (map_set url metaTags (pagesMetaTags st)) st in
  let h1 := page_h1 page in
  let st :=
    if is_empty h1 then st else set_pagesH1 (map_set url h1 (pagesH1 st)) st in
  if negb (is_empty title) || (match description with Some _ => true | None => false end)
  then
    let pageData :=
      mkPageData title
        (match description with Some d => d | None => "" end)
        (keywords st) in
    match optimizeMetaTags env pageData with
    | Returned optimizedData =>
        match map_get url (pagesMetaTags st) with
        | Some stored =>
            let suggestions :=
              mkAiSuggestions (od_title optimizedData)
                (od_description optimizedData) (od_suggestions optimizedData) in
            set_pagesMetaTags
              (map_set url
                 (map_set "aiSuggestions" (MetaSuggestions suggestions) stored)
                 (pagesMetaTags st)) st
        | None => st
        end
    | Thrown _ => st
    end
  else st.

(** One round of the [each] loop of [extractLinks]; the accumulator is
    [(links, currentInternalLinks, currentExternalLinks)]. *)
Definition anchor_step (env : Env) (currentUrl : string)
    (acc : JSSet * list string * list string) (href : option string)
  : JSSet * list string * list string :=
  let '(links, currentInternalLinks, currentExternalLinks) := acc in
  match truthy_string href with
  | None => acc
  | Some href =>
      if startsWith href "#" || startsWith href "javascript:"
         || startsWith href "mailto:" || startsWith href "tel:"
      then acc
      else
        match normalizeUrl env href currentUrl with
        | None => acc
        | Some normalizedUrl =>
            if isInternalUrl env href
            then (set_add normalizedUrl links,
                  currentInternalLinks ++ [normalizedUrl], currentExternalLinks)
            else (set_add normalizedUrl links,
                  currentInternalLinks, currentExternalLinks ++ [normalizedUrl])
        end
  end.

Definition scan_anchors (env : Env) (page : Page) (currentUrl : string)
  : JSSet * list string * list string :=
  fold_left (anchor_step env currentUrl) (page_anchors page) ([], [], []).

Definition extractLinks (env : Env) (page : Page) (currentUrl : string)
    (st : Analyzer) : JSSet * Analyzer :=
  let '(links, currentInternalLinks, currentExternalLinks) :=
    scan_anchors env page currentUrl in
  let st :=
    set_internalLinks (map_set currentUrl currentInternalLinks (internalLinks st)) st in
  let st :=
    set_externalLinks (map_set currentUrl currentExternalLinks (externalLinks st)) st in
  (links, st).

(** [if (list && Array.isArray(list)) list.forEach((keyword) =>
    this.keywords.add(keyword))] *)
Definition add_keywords (found : option Json) (st : Analyzer) : Analyzer :=
  match found with
  | Some (JArr items) =>
      set_keywords (fold_left (fun acc keyword => value_add keyword acc) items
                      (keywords st)) st
  | _ => st
  end.

(** The value [analyzePage] returns is not used by [crawl]; the model
    keeps the state only. *)
Definition analyzePage (env : Env) (url : string) (page : Page) (st : Analyzer)
  : Analyzer :=
  match analyzePageContent env (page_content page) url with
  | Thrown _ => st
  | Returned None => st
  | Returned (Some pageAnalysis) =>
      let st :=
        if map_has url (pagesMetaTags st) then st
        else set_pagesMetaTags (map_set url empty_metaTags (pagesMetaTags st)) st in
      let st :=
        match map_get url (pagesMetaTags st) with
        | Some metaTags =>
            set_pagesMetaTags
              (map_set url
                 (map_set "contentAnalysis" (MetaAnalysis pageAnalysis) metaTags)
                 (pagesMetaTags st)) st
        | None => st
        end in
      let st := add_keywords (analysis_prop pageAnalysis "mainKeywords") st in
      add_keywords (analysis_prop pageAnalysis "longTailKeywords") st
  end.

(* ================================================================= *)
(** ** SEOAnalyzer: crawl *)

(** The loop [for (const link of links) if (isInternalUrl(link)) await
    crawl(link, depth + 1, maxDepth)], over the recursive call [visit]. *)
Fixpoint crawl_links (env : Env) (visit : string -> Analyzer -> option Analyzer)
    (links : list string) (st : Analyzer) : option Analyzer :=
  match links with
  | [] => Some st
  | link :: rest =>
      if isInternalUrl env link
      then match visit link st with
           | Some st' => crawl_links env visit rest st'
           | None => None
           end
      else crawl_links env visit rest st
  end.

(** [crawl(url, depth, maxDepth)].  [fuel] bounds the nesting of the
    recursive calls; [None] means that the bound was reached
    ([crawl_enough_fuel] shows that [maxDepth - depth + 2] is enough). *)
Fixpoint crawl (env : Env) (fuel : nat) (url : string) (depth maxDepth : Z)
    (st : Analyzer) : option Analyzer :=
  match fuel with
  | O => None
  | S fuel' =>
      if (depth >? maxDepth)%Z then Some st
      else if set_has url (visitedUrls st) then Some st
      else
        let (ok, st) := shouldCrawl url st in
        if negb ok then Some st
        else
          let st := log (EvVisit url) st in
          let st := set_visitedUrls (set_add url (visitedUrls st)) st in
          let '((html, status), st) := fetchPage env url st in
          if negb (status =? 200)%Z || is_empty html then Some st
          else
            let page := cheerio_load env html in
            let st := analyzePage env url page st in
            let st := extractMetadata env page url st in
            let (links, st) := extractLinks env page url st in
            crawl_links env
              (fun link st => crawl env fuel' link (depth + 1)%Z maxDepth st)
              links st
  end.

Definition crawl_fuel (depth maxDepth : Z) : nat :=
  S (Z.to_nat (maxDepth - depth + 1)).

(** The URLs requested so far, newest first. *)
Fixpoint fetched (tr : list Event) : list string :=
  match tr with
  | [] => []
  | EvGet url :: tr' => url :: fetched tr'
  | _ :: tr' => fetched tr'
  end.

(** Every request in the trace comes after the visit of its URL was
    recorded (the trace is newest first). *)
Fixpoint visited_before_fetch (tr : list Event) : Prop :=
  match tr with
  | [] => True
  | EvGet url :: older => In (EvVisit url) older /\ visited_before_fetch older
  | _ :: older => visited_before_fetch older
  end.

(** The internal-link graph of the site as [crawl] follows it: [v] is a
    successor of [u] when the request for [u] resolves with status 200
    and a non-empty body whose link set contains the internal link [v]. *)
Definition page_links (env : Env) (u : string) : list string :=
  match axios_get env u with
  | Resolved status data =>
      if negb (status =? 200)%Z || is_empty data then []
      else
        let '(links, _, _) := scan_anchors env (cheerio_load env data) u in
        filter (isInternalUrl env) links
  | _ => []
  end.

(** [link_path env s d v]: a path of [d] links from [s] to [v]. *)
Inductive link_path (env : Env) (s : string) : Z -> string -> Prop :=
| path_start : link_path env s 0 s
| path_step d u v :
    link_path env s d u -> In v (page_links env u) ->
    link_path env s (d + 1) v.

(* ================================================================= *)
(** ** SEOAnalyzer: sitemap *)

(** Returns [response.data], or [None] for the [null] of the [catch]. *)
Definition fetchSitemap (env : Env) (st : Analyzer) : option string * Analyzer :=
  let sitemapUrl := (baseUrl env ++ "/sitemap.xml")%string in
  let st := log (EvGet sitemapUrl) st in
  match axios_get env sitemapUrl with
  | Resolved _ data => (Some data, st)
  | _ => (None, st)
  end.

(** [processSitemap(urlset)]; [false] when reading [item.loc[0]] throws,
    the URLs added before that stay. *)
Fixpoint add_locs (items : list Entry) (st : Analyzer) : bool * Analyzer :=
  match items with
  | [] => (true, st)
  | None :: _ => (false, st)
  | Some url :: rest =>
      add_locs rest (set_sitemapUrls (set_add url (sitemapUrls st)) st)
  end.

Definition processSitemap (urlset : option (list Entry)) (st : Analyzer)
  : bool * Analyzer :=
  match urlset with
  | None => (true, st)
  | Some items => add_locs items st
  end.

(** The loop of [processSitemapIndex] over the recursive call [parse];
    whatever is thrown in one round is caught in that round. *)
Fixpoint each_sitemap (env : Env)
    (parse : string -> Analyzer -> option (bool * Analyzer))
    (sitemaps : list Entry) (st : Analyzer) : option Analyzer :=
  match sitemaps with
  | [] => Some st
  | None :: rest => each_sitemap env parse rest st
  | Some sitemapUrl :: rest =>
      let st := log (EvGet sitemapUrl) st in
      match axios_get env sitemapUrl with
      | Resolved _ data =>
          match parse data st with
          | Some (_, st') => each_sitemap env parse rest st'
          | None => None
          end
      | _ => each_sitemap env parse rest st
      end
  end.

(** [parseSitemap(sitemapXml)]: [Some (true, st)] when the promise
    resolves, [Some (false, st)] when it rejects, [None] when [fuel]
    nested calls were not enough. *)
Fixpoint parseSitemap (env : Env) (fuel : nat) (sitemapXml : string)
    (st : Analyzer) : option (bool * Analyzer) :=
  match fuel with
  | O => None
  | S fuel' =>
      match parseString env sitemapXml with
      | None => Some (false, st)
      | Some (Sitemapindex None) => Some (true, st)
      | Some (Sitemapindex (Some sitemaps)) =>
          match each_sitemap env (parseSitemap env fuel') sitemaps st with
          | Some st' => Some (true, st')
          | None => None
          end
      | Some (Urlset urlset) => Some (processSitemap urlset st)
      | Some OtherRoot => Some (false, st)
      end
  end.

Definition processSitemapIndex (env : Env) (fuel : nat)
    (sitemap : option (list Entry)) (st : Analyzer) : option Analyzer :=
  match sitemap with
  | None => Some st
  | Some sitemaps => each_sitemap env (parseSitemap env fuel) sitemaps st
  end.

(** [nesting env d xml]: the indexes reachable from the document [xml]
    nest at most [d] levels deep. *)
Fixpoint nesting (env : Env) (d : nat) (xml : string) : Prop :=
  match parseString env xml with
  | Some (Sitemapindex (Some sitemaps)) =>
      match d with
      | O => False
      | S d' =>
          forall sitemapUrl status data,
            In (Some sitemapUrl) sitemaps ->
            axios_get env sitemapUrl = Resolved status data ->
            nesting env d' data
      end
  | _ => True
  end.

Definition compareCrawlWithSitemap (st : Analyzer) : Analyzer :=
  let st :=
    set_urlsNotInSitemap
      (fold_left
         (fun acc crawledUrl =>
            if negb (set_has crawledUrl (sitemapUrls st))
            then set_add crawledUrl acc else acc)
         (visitedUrls st) (urlsNotInSitemap st)) st in
  set_urlsInSitemapButNotCrawled
    (fold_left
       (fun acc sitemapUrl =>
          if negb (set_has sitemapUrl (visitedUrls st))
          then set_add sitemapUrl acc else acc)
       (sitemapUrls st) (urlsInSitemapButNotCrawled st)) st.

(* ================================================================= *)
(** ** SEOAnalyzer: report *)

(** [this.statusCodes.get(url) || "unknown"]: a number, or the string. *)
Inductive StatusField : Type :=
| StatusCode (status : Z)
| StatusUnknown.

Definition status_or_unknown (o : option Z) : StatusField :=
  match o with
  | Some status => if (status =? 0)%Z then StatusUnknown else StatusCode status
  | None => StatusUnknown
  end.

Record PageMeta : Type := mkPageMeta {
  pm_url : string;
  pm_status : StatusField;
  pm_title : string;
  pm_titleLength : nat;
  pm_description : string;
  pm_descriptionLength : nat;
  pm_h1 : string;
  pm_internalLinksCount : nat;
  pm_externalLinksCount : nat;
  pm_metaTags : MetaTags
}.

Record StaticResource : Type := mkStaticResource {
  sr_url : string;
  sr_type : string;
  sr_status : StatusField
}.

Record CrawlStats : Type := mkCrawlStats {
  totalUrlsCrawled : nat;
  totalStaticResources : nat;
  cs_brokenLinks : nat;
  totalInternalLinks : nat;
  totalExternalLinks : nat;
  urlsWithoutTitle : list string;
  urlsWithoutDescription : list string;
  urlsWithoutH1 : list string;
  urlsWithInvalidTitleLength : list (string * nat);
  urlsWithInvalidDescriptionLength : list (string * nat)
}.

Record SitemapStats : Type := mkSitemapStats {
  totalUrlsInSitemap : nat;
  ss_urlsNotInSitemap : list string;
  ss_urlsInSitemapButNotCrawled : list string
}.

Record Report : Type := mkReport {
  r_baseUrl : string;
  dateGenerated : string;
  issues : list string;
  crawlStats : CrawlStats;
  sitemapStats : SitemapStats;
  r_brokenLinks : list BrokenLink;
  pageMeta : list PageMeta;
  r_staticResources : list StaticResource
}.

Definition set_issues (v : list string) (r : Report) : Report :=
  mkReport (r_baseUrl r) (dateGenerated r) v (crawlStats r) (sitemapStats r)
    (r_brokenLinks r) (pageMeta r) (r_staticResources r).

(** [x || ""] and [x?.length || 0] on the result of [Map.get]. *)
Definition or_empty (o : option string) : string :=
  match o with
  | Some s => s
  | None => ""
  end.

Definition length_or_0 (o : option string) : nat :=
  match o with
  | Some s => str_length s
  | None => 0
  end.

Definition or_nil (o : option (list string)) : list string :=
  match o with
  | Some l => l
  | None => []
  end.

(** [url.split(".").pop()] *)
Definition after_last_dot (url : string) : string :=
  match lastIndexOf "." url with
  | Some i => str_drop (i + 1) url
  | None => url
  end.

Definition page_record (st : Analyzer) (url : string) : PageMeta :=
  {| pm_url := url;
     pm_status := status_or_unknown (map_get url (statusCodes st));
     pm_title := or_empty (map_get url (pagesTitles st));
     pm_titleLength := length_or_0 (map_get url (pagesTitles st));
     pm_description := or_empty (map_get url (pagesDescriptions st));
     pm_descriptionLength := length_or_0 (map_get url (pagesDescriptions st));
     pm_h1 := or_empty (map_get url (pagesH1 st));
     pm_internalLinksCount := length (or_nil (map_get url (internalLinks st)));
     pm_externalLinksCount := length (or_nil (map_get url (externalLinks st)));
     pm_metaTags :=
       match map_get url (pagesMetaTags st) with
       | Some metaTags => metaTags
       | None => empty_metaTags
       end |}.

(** The object literal built by [generateReport]; [now] is
    [new Date().toISOString()]. *)
Definition build_report (env : Env) (now : string) (st : Analyzer) : Report :=
  {| r_baseUrl := baseUrl env;
     dateGenerated := now;
     issues := [];
     crawlStats :=
       {| totalUrlsCrawled := length (visitedUrls st);
          totalStaticResources := length (staticResources st);
          cs_brokenLinks := length (brokenLinks st);
          totalInternalLinks := length (concat (map snd (internalLinks st)));
          totalExternalLinks := length (concat (map snd (externalLinks st)));
          urlsWithoutTitle :=
            filter (fun url => negb (map_has url (pagesTitles st))) (visitedUrls st);
          urlsWithoutDescription :=
            filter (fun url => negb (map_has url (pagesDescriptions st)))
              (visitedUrls st);
          urlsWithoutH1 :=
            filter (fun url => negb (map_has url (pagesH1 st))) (visitedUrls st);
          urlsWithInvalidTitleLength := pagesTitlesWarnings st;
          urlsWithInvalidDescriptionLength := pagesDescriptionsWarnings st |};
     sitemapStats :=
       {| totalUrlsInSitemap := length (sitemapUrls st);
          ss_urlsNotInSitemap := urlsNotInSitemap st;
          ss_urlsInSitemapButNotCrawled := urlsInSitemapButNotCrawled st |};
     r_brokenLinks := brokenLinks st;
     pageMeta := map (page_record st) (visitedUrls st);
     r_staticResources :=
       map (fun url =>
              mkStaticResource url (toLowerCase (after_last_dot url))
                (status_or_unknown (map_get url (statusCodes st))))
           (staticResources st) |}.

(** [analyzeKeywords(text)]: the pair [(found, missing)].  One round of
    its [forEach]: a keyword that is not a string has no [toLowerCase],
    and calling it throws a [TypeError]. *)
Definition sort_keyword (env : Env) (textLower : string)
    (acc : Outcome (list Json * list Json)) (keyword : Json)
  : Outcome (list Json * list Json) :=
  match acc with
  | Thrown e => Thrown e
  | Returned (found, missing) =>
      match keyword with
      | JStr k =>
          if includes textLower (lowerCase env k)
          then Returned (found ++ [keyword], missing)
          else Returned (found, missing ++ [keyword])
      | _ => Thrown "TypeError: keyword.toLowerCase is not a function"
      end
  end.

Definition analyzeKeywords (env : Env) (text : string) (st : Analyzer)
  : Outcome (list Json * list Json) :=
  if is_empty text then Returned ([], [])
  else
    let textLower := lowerCase env text in
    fold_left (sort_keyword env textLower) (keywords st) (Returned ([], [])).

(** The template of [generateHtmlReport].  The markup is not modelled,
    only whether building it throws: the interpolations that are not
    listed here are of strings and of numbers. *)

(** [${value}] *)
Definition interpolate (value : option Json) : Outcome unit :=
  match value with
  | Some v =>
      if printable v then Returned tt
      else Thrown "TypeError: Cannot convert object to primitive value"
  | None => Returned tt
  end.

(** [${list.map((k) => `<li>${k}</li>`).join("")}] *)
Definition list_items (value : option Json) : Outcome unit :=
  match value with
  | Some (JArr items) =>
      if forallb printable items then Returned tt
      else Thrown "TypeError: Cannot convert object to primitive value"
  | _ => Thrown "TypeError: Cannot read properties of undefined (reading 'map')"
  end.

Local Open Scope outcome_scope.

(** [${contentAnalysis ? `...` : ""}] *)
Definition analysis_section (metaTags : MetaTags) : Outcome unit :=
  match contentAnalysis metaTags with
  | Some value =>
      if meta_truthy value then
        _ <- list_items (meta_prop value "mainKeywords") ;;
        _ <- list_items (meta_prop value "longTailKeywords") ;;
        _ <- list_items (meta_prop value "relatedTopics") ;;
        _ <- list_items (meta_prop value "contentStructure") ;;
        list_items (meta_prop value "seoSuggestions")
      else Returned tt
  | None => Returned tt
  end.

(** [${aiSuggestions ? `... ${aiSuggestions.name} ...` : ""}] *)
Definition suggestion_line (metaTags : MetaTags) (name : string) : Outcome unit :=
  match aiSuggestions metaTags with
  | Some value =>
      if meta_truthy value then interpolate (meta_prop value name)
      else Returned tt
  | None => Returned tt
  end.

(** The callback of [report.pageMeta.map]. *)
Definition page_section (env : Env) (st : Analyzer) (page : PageMeta)
  : Outcome unit :=
  _ <- analyzeKeywords env (pm_title page) st ;;
  _ <- analyzeKeywords env (pm_description page) st ;;
  _ <- analysis_section (pm_metaTags page) ;;
  _ <- suggestion_line (pm_metaTags page) "optimizedTitle" ;;
  suggestion_line (pm_metaTags page) "optimizedDescription".

Definition render (env : Env) (report : Report) (st : Analyzer) : Outcome unit :=
  fold_left (fun acc page => _ <- acc ;; page_section env st page)
    (pageMeta report) (Returned tt).

(** [generateHtmlReport(report)] builds the markup and writes it. *)
Definition generateHtmlReport (env : Env) (report : Report) (st : Analyzer)
  : Outcome unit * Analyzer :=
  match render env report st with
  | Returned _ => (Returned tt, log (EvWriteFile "seo-report.html") st)
  | Thrown e => (Thrown e, st)
  end.

Definition generateReport (env : Env) (now : string) (st : Analyzer)
  : Outcome Report * Analyzer :=
  let report := build_report env now st in
  let st := log (EvWriteFile "seo-report.json") st in
  let (rendered, st) := generateHtmlReport env report st in
  (_ <- rendered ;; Returned report, st).

Local Close Scope outcome_scope.

Definition generatePdfReport (env : Env) (st : Analyzer) : Analyzer :=
  let st := log EvBrowser st in
  if pdf_rendering_succeeds env
  then log (EvWriteFile "seo-report.pdf") (log (EvReadFile "seo-report.html") st)
  else st.

(* ================================================================= *)
(** ** SEOAnalyzer: analyze *)

Definition nat_to_string (n : nat) : string :=
  DecimalString.NilEmpty.string_of_uint (Nat.to_uint n).

Definition title_issue (entry : string * string) : list string :=
  let (url, title) := entry in
  if is_empty title then ["Brak tytułu na stronie: " ++ url]%string
  else if ((str_length title <? 30) || (60 <? str_length title))%nat
  then ["Nieprawidłowa długość tytułu (" ++ nat_to_string (str_length title)
          ++ " znaków) na stronie: " ++ url]%string
  else [].

Definition description_issue (entry : string * string) : list string :=
  let (url, description) := entry in
  if is_empty description then ["Brak meta opisu na stronie: " ++ url]%string
  else if ((str_length description <? 120)
           || (160 <? str_length description))%nat
  then ["Nieprawidłowa długość meta opisu ("
          ++ nat_to_string (str_length description)
          ++ " znaków) na stronie: " ++ url]%string
  else [].

Definition h1_issue (entry : string * string) : list string :=
  let (url, h1) := entry in
  if is_empty h1 then ["Brak nagłówka H1 na stronie: " ++ url]%string else [].

(** The issues collected by [analyze], from the state at the point where
    [analyze] collects them: after the crawl and before the sitemap is
    fetched. *)
Definition collect_issues (st : Analyzer) : list string :=
  flat_map title_issue (pagesTitles st)
  ++ flat_map description_issue (pagesDescriptions st)
  ++ flat_map h1_issue (pagesH1 st)
  ++ (if (0 <? length (brokenLinks st))%nat
      then ["Znaleziono " ++ nat_to_string (length (brokenLinks st))
              ++ " uszkodzonych linków"]%string
      else [])
  ++ (if (0 <? length (urlsNotInSitemap st))%nat
      then [nat_to_string (length (urlsNotInSitemap st))
              ++ " stron nie jest w sitemap"]%string
      else [])
  ++ (if (0 <? length (urlsInSitemapButNotCrawled st))%nat
      then [nat_to_string (length (urlsInSitemapButNotCrawled st))
              ++ " stron z sitemap nie zostało scrawlowanych"]%string
      else []).

(** [analyze(maxDepth)] on the analyzer [st]; [fuel] bounds the nesting
    of sitemap indexes, [now] is the time at which the report is built.
    The promise resolves with the report, or rejects with what
    [generateReport] throws. *)
Definition analyze (env : Env) (fuel : nat) (maxDepth : Z) (now : string)
    (st : Analyzer) : option (Outcome Report * Analyzer) :=
  match crawl env (crawl_fuel 0 maxDepth) (startUrl env) 0 maxDepth st with
  | None => None
  | Some st =>
      let issues := collect_issues st in
      let (sitemapXml, st) := fetchSitemap env st in
      let parsed :=
        match truthy_string sitemapXml with
        | Some xml =>
            match parseSitemap env fuel xml st with
            | Some (_, st') => Some st'
            | None => None
            end
        | None => Some st
        end in
      match parsed with
      | None => None
      | Some st =>
          let st := compareCrawlWithSitemap st in
          match generateReport env now st with
          | (Thrown e, st) => Some (Thrown e, st)
          | (Returned report, st) =>
              let report := set_issues issues report in
              let st := generatePdfReport env st in
              Some (Returned report, st)
          end
      end
  end.

End SEOAnalyzer.

(* ================================================================= *)
(** ** Sample environments

    Small stand-ins for the collaborators, used by the examples below. *)

Module Sample.

Import SEOAnalyzer.

(** A [JSON.parse] for the texts of the examples: objects, arrays,
    strings without escape sequences, integers, [true], [false] and
    [null].  It refuses escape sequences and numbers with a fraction or
    an exponent, which JSON.parse accepts; on the other texts it gives
    what JSON.parse gives. *)
Definition quote : ascii := "034"%char.

Definition is_space (c : ascii) : bool :=
  Ascii.eqb c " " || Ascii.eqb c "009" || Ascii.eqb c "010" || Ascii.eqb c "013".

Definition is_digit (c : ascii) : bool :=
  ((48 <=? nat_of_ascii c) && (nat_of_ascii c <=? 57))%nat.

Fixpoint skip_spaces (s : string) : string :=
  match s with
  | String c rest => if is_space c then skip_spaces rest else s
  | EmptyString => s
  end.

(** The characters of a string literal after its opening quote, and
    what follows the closing quote. *)
Fixpoint read_string (s : string) : option (string * string) :=
  match s with
  | EmptyString => None
  | String c rest =>
      if Ascii.eqb c quote then Some (EmptyString, rest)
      else if Ascii.eqb c "\" || (nat_of_ascii c <? 32)%nat then None
      else match read_string rest with
           | Some (text, rest') => Some (String c text, rest')
           | None => None
           end
  end.

Fixpoint read_digits (s : string) (acc : Z) : Z * string :=
  match s with
  | String c rest =>
      if is_digit c
      then read_digits rest (10 * acc + Z.of_nat (nat_of_ascii c - 48))%Z
      else (acc, s)
  | EmptyString => (acc, s)
  end.

(** An integer: its digits, without a leading zero and with nothing of
    a fraction or an exponent after them. *)
Definition read_integer (s : string) : option (Z * string) :=
  match s with
  | String c rest =>
      if is_digit c then
        let (n, rest') := read_digits s 0 in
        match rest, rest' with
        | String d _, _ =>
            if Ascii.eqb c "0" && is_digit d then None
            else match rest' with
                 | String e _ =>
                     if Ascii.eqb e "." || Ascii.eqb e "e" || Ascii.eqb e "E"
                     then None else Some (n, rest')
                 | EmptyString => Some (n, rest')
                 end
        | EmptyString, _ => Some (n, rest')
        end
      else None
  | EmptyString => None
  end.

(** The elements of an array after the first bracket, and the members of
    an object after the first brace, over the parser [value] of one
    value; [n] bounds the number of rounds. *)
Fixpoint read_items (value : string -> option (Json * string)) (n : nat)
    (s : string) (items : list Json) : option (list Json * string) :=
  match n with
  | O => None
  | S n' =>
      match value s with
      | Some (item, rest) =>
          match skip_spaces rest with
          | String c rest' =>
              if Ascii.eqb c "," then read_items value n' rest' (items ++ [item])
              else if Ascii.eqb c "]" then Some (items ++ [item], rest')
              else None
          | EmptyString => None
          end
      | None => None
      end
  end.

Fixpoint read_members (value : string -> option (Json * string)) (n : nat)
    (s : string) (fields : list (string * Json))
  : option (list (string * Json) * string) :=
  match n with
  | O => None
  | S n' =>
      match skip_spaces s with
      | String q key_on =>
          if Ascii.eqb q quote then
            match read_string key_on with
            | Some (key, rest) =>
                match skip_spaces rest with
                | String colon rest' =>
                    if Ascii.eqb colon ":" then
                      match value rest' with
                      | Some (v, rest'') =>
                          match skip_spaces rest'' with
                          | String c after =>
                              if Ascii.eqb c ","
                              then read_members value n' after (map_set key v fields)
                              else if Ascii.eqb c "}"
                              then Some (map_set key v fields, after)
                              else None
                          | EmptyString => None
                          end
                      | None => None
                      end
                    else None
                | EmptyString => None
                end
            | None => None
            end
          else None
      | EmptyString => None
      end
  end.

(** One value and the text after it; [fuel] bounds the nesting. *)
Fixpoint read_value (fuel : nat) (s : string) : option (Json * string) :=
  match fuel with
  | O => None
  | S fuel' =>
      match skip_spaces s with
      | EmptyString => None
      | String c rest =>
          if Ascii.eqb c quote then
            match read_string rest with
            | Some (text, rest') => Some (JStr text, rest')
            | None => None
            end
          else if Ascii.eqb c "[" then
            match skip_spaces rest with
            | String d rest' =>
                if Ascii.eqb d "]" then Some (JArr [], rest')
                else
                  match read_items (read_value fuel') (String.length rest) rest [] with
                  | Some (items, rest'') => Some (JArr items, rest'')
                  | None => None
                  end
            | EmptyString => None
            end
          else if Ascii.eqb c "{" then
            match skip_spaces rest with
            | String d rest' =>
                if Ascii.eqb d "}" then Some (JObj [], rest')
                else
                  match read_members (read_value fuel') (String.length rest) rest [] with
                  | Some (fields, rest'') => Some (JObj fields, rest'')
                  | None => None
                  end
            | EmptyString => None
            end
          else if startsWith (String c rest) "null" then Some (JNull, str_drop 4 (String c rest))
          else if startsWith (String c rest) "true"
          then Some (JBool true, str_drop 4 (String c rest))
          else if startsWith (String c rest) "false"
          then Some (JBool false, str_drop 5 (String c rest))
          else if Ascii.eqb c "-" then
            match read_integer rest with
            | Some (n, rest') => Some (JNum (- n), rest')
            | None => None
            end
          else
            match read_integer (String c rest) with
            | Some (n, rest') => Some (JNum n, rest')
            | None => None
            end
      end
  end.

Definition parse_json (text : string) : Outcome Json :=
  match read_value (String.length text) text with
  | Some (value, rest) =>
      if is_empty (skip_spaces rest) then Returned value
      else Thrown "SyntaxError: Unexpected non-whitespace character after JSON"
  | None => Thrown "SyntaxError: Unexpected token"
  end.

(** A JSON text is written with [q] for the quotation mark. *)
Definition q : string := String quote EmptyString.

(** An OpenAI client that answers every request with the same text. *)
Definition answering (text : string) : SEOAIOptimizer.Env :=
  SEOAIOptimizer.mkEnv
    (fun _ => Returned (Some (SEOAIOptimizer.mkResponse (Some text))))
    parse_json.

(** An OpenAI client whose calls all fail. *)
Definition offline : SEOAIOptimizer.Env :=
  SEOAIOptimizer.mkEnv (fun _ => Thrown "ECONNREFUSED") parse_json.

(** An answer in which prose stands around the object asked for. *)
Definition chatty_text : string :=
  ("Sure! Here is the title: {" ++ q ++ "optimizedTitle" ++ q ++ ": " ++ q
   ++ "Hydraulik Lublin - naprawa instalacji 24h" ++ q ++ "} Anything else?")%string.

(** URL resolution for absolute links, root-relative links and plain
    relative file names, which is all the samples contain, and for one
    kind of link that the URL constructor refuses: a link that starts
    with two slashes and a bracket names a host that is no IPv6
    address. *)
Definition origin_of (url : string) : string :=
  match indexOf "/" url with
  | Some i =>
      let host := str_drop (i + 2) url in
      match indexOf "/" host with
      | Some j => str_take (i + 2 + j) url
      | None => url
      end
  | None => url
  end.

Definition directory_of (url : string) : string :=
  match lastIndexOf "/" url with
  | Some i => str_take (i + 1) url
  | None => url
  end.

Definition resolve (link base : string) : option string :=
  if is_empty link then Some base
  else if startsWith link "http://" || startsWith link "https://" then Some link
  else if startsWith link "//[" then None
  else if startsWith link "/" then Some (origin_of base ++ link)%string
  else Some (directory_of base ++ link)%string.

Definition lookup {V : Type} (table : JSMap V) (default : V) (key : string) : V :=
  match map_get key table with
  | Some v => v
  | None => default
  end.

Definition blank_page : Page := mkPage "" None [] "" [] "{}".

Definition no_analysis : PageAnalysis := SEOAIOptimizer.empty_analysis.

(** A site given by the table of its responses, the table of the
    documents its bodies parse to and the table of its sitemaps. *)
Definition site (start : string) (responses : JSMap AxiosResult)
    (documents : JSMap Page) (sitemaps : JSMap XmlRoot) : Env :=
  {| startUrl := start;
     baseUrl := origin_of start;
     config_keywords := ["hydraulik"; "lublin"];
     URL_href := resolve;
     axios_get := lookup responses (RejectedNoResponse "ENOTFOUND");
     cheerio_load := lookup documents blank_page;
     parseString := fun xml => map_get xml sitemaps;
     analyzePageContent := fun _ _ => Returned (Some no_analysis);
     optimizeMetaTags := SEOAIOptimizer.optimizeMetaTags offline;
     lowerCase := toLowerCase;
     pdf_rendering_succeeds := true |}.

Definition home : string := "https://example.test/".

Definition home_page : Page :=
  mkPage "Home" None [mkMeta (Some "viewport") None (Some "width=device-width")]
    ""
    [Some "/about"; Some "https://other.test/"; Some "/logo.png";
     Some "team.html"; Some "#top"; None; Some "/about"; Some "/missing";
     Some "/down"; Some "/empty"; Some "/created"]
    "{}".

Definition about_page : Page :=
  mkPage "About the company and the people behind it" (Some "Who we are.") []
    "About" [Some "/"; Some "team.html"] "{}".

Definition team_page : Page :=
  mkPage "" None [] "" [Some "/deep"] "{}".

(** The site of the examples: the home page links to an internal page
    that links back, to an external site, to an image, to a page by a
    relative file name, to a page that answers 404, to a host that is
    down, to a page with an empty body and to a page that answers 201. *)
Definition example_site : Env :=
  site home
    [("https://example.test/", Resolved 200 "<home>");
     ("https://example.test/about", Resolved 200 "<about>");
     ("https://example.test/team.html", Resolved 200 "<team>");
     ("https://example.test/deep", Resolved 200 "<deep>");
     ("https://example.test/missing", RejectedWithResponse 404);
     ("https://example.test/down", RejectedNoResponse "ECONNREFUSED");
     ("https://example.test/empty", Resolved 200 "");
     ("https://example.test/created", Resolved 201 "<created>");
     ("https://example.test/logo.png?v=2", Resolved 200 "<png>");
     ("https://example.test/sitemap.xml", Resolved 200 "<index>");
     ("https://example.test/pages.xml", Resolved 200 "<pages>");
     ("https://example.test/posts.xml", Resolved 200 "<posts>")]
    [("<home>", home_page); ("<about>", about_page); ("<team>", team_page)]
    [("<index>",
      Sitemapindex
        (Some [Some "https://example.test/pages.xml"; None;
               Some "https://example.test/gone.xml";
               Some "https://example.test/posts.xml"]));
     ("<pages>",
      Urlset (Some [Some "https://example.test/";
                    Some "https://example.test/about";
                    Some "https://example.test/contact"]));
     ("<posts>",
      Urlset (Some [Some "https://example.test/about";
                    Some "https://example.test/blog"]))].

(** A site whose sitemap index lists itself. *)
Definition looping_site : Env :=
  site home
    [("https://example.test/", Resolved 200 "<home>");
     ("https://example.test/sitemap.xml", Resolved 200 "<loop>")]
    [("<home>", blank_page)]
    [("<loop>", Sitemapindex (Some [Some "https://example.test/sitemap.xml"]))].

(** A site whose only page cannot be reached. *)
Definition unreachable_site : Env := site home [] [] [].

(** A site whose only page has neither title, description nor heading. *)
Definition bare_site : Env :=
  site home [("https://example.test/", Resolved 200 "<bare>")]
    [("<bare>", blank_page)] [].

End Sample.

Import SEOAnalyzer.


Unset Implicit Arguments.

(* ================================================================= *)
(** ** Sets and maps *)

Section Containers.

Lemma set_has_In (x : string) (s : JSSet) : set_has x s = true <-> In x s.
Proof.
  unfold set_has. rewrite existsb_exists. split.
  - intros [y [Hy Heq]]. apply String.eqb_eq in Heq. now subst.
  - intros H. exists x. split; [assumption | apply String.eqb_refl].
Qed.

Lemma set_has_false (x : string) (s : JSSet) : set_has x s = false <-> ~ In x s.
Proof.
  rewrite <- set_has_In. destruct (set_has x s); split; congruence.
Qed.

Lemma set_add_In (x y : string) (s : JSSet) :
  In y (set_add x s) <-> y = x \/ In y s.
Proof.
  unfold set_add. destruct (set_has x s) eqn:E.
  - apply set_has_In in E. split; [auto | intros [-> | H]; assumption].
  - rewrite in_app_iff. simpl. split; intros H; intuition congruence.
Qed.

Lemma set_add_self (x : string) (s : JSSet) : In x (set_add x s).
Proof. apply set_add_In. now left. Qed.

Lemma set_add_incl (x : string) (s : JSSet) : incl s (set_add x s).
Proof. intros y Hy. apply set_add_In. now right. Qed.

Lemma set_add_NoDup (x : string) (s : JSSet) : NoDup s -> NoDup (set_add x s).
Proof.
  intros H. unfold set_add. destruct (set_has x s) eqn:E; [assumption |].
  apply set_has_false in E. apply NoDup_app; auto.
  - repeat constructor. simpl. tauto.
  - intros a Ha [<- | []]. contradiction.
Qed.

Lemma add_all_NoDup (xs : list string) (s : JSSet) :
  NoDup s -> NoDup (add_all xs s).
Proof.
  revert s. induction xs as [| x xs IH]; intros s H; simpl; [assumption |].
  apply IH. now apply set_add_NoDup.
Qed.

Lemma add_all_In (xs : list string) (s : JSSet) (y : string) :
  In y (add_all xs s) <-> In y xs \/ In y s.
Proof.
  revert s. induction xs as [| x xs IH]; intros s; simpl.
  - tauto.
  - unfold add_all in IH. rewrite IH, set_add_In. intuition congruence.
Qed.

Lemma map_get_set_same {V : Type} (k : string) (v : V) (m : JSMap V) :
  map_get k (map_set k v m) = Some v.
Proof.
  induction m as [| [k' v'] m IH]; simpl.
  - now rewrite String.eqb_refl.
  - destruct (String.eqb k k') eqn:E; simpl; rewrite ?String.eqb_refl, ?E; auto.
Qed.

Lemma map_get_set_other {V : Type} (k k' : string) (v : V) (m : JSMap V) :
  k <> k' -> map_get k (map_set k' v m) = map_get k m.
Proof.
  intros Hne. induction m as [| [k0 v0] m IH]; simpl.
  - apply String.eqb_neq in Hne. now rewrite Hne.
  - destruct (String.eqb k' k0) eqn:E; simpl.
    + apply String.eqb_eq in E. subst k0.
      apply String.eqb_neq in Hne. now rewrite Hne.
    + destruct (String.eqb k k0); auto.
Qed.

(** On ASCII text [str_length] counts the characters; a letter outside
    ASCII counts for one code unit whatever the number of its bytes, and
    a character outside the basic plane for two. *)
Lemma str_length_ascii (s : string) :
  (forall c, In c (list_ascii_of_string s) -> (nat_of_ascii c < 128)%nat) ->
  str_length s = String.length s.
Proof.
  induction s as [| c s IH]; simpl; intros H; [reflexivity |].
  rewrite IH by (intros d Hd; apply H; now right).
  unfold code_units. specialize (H c (or_introl eq_refl)).
  apply Nat.ltb_lt in H. now rewrite H.
Qed.

Example str_length_sample :
  str_length "Hydraulik Łódź" = 14%nat
  /\ String.length "Hydraulik Łódź" = 17%nat
  /\ str_length "🔧" = 2%nat.
Proof. repeat split. Qed.

End Containers.

(* ================================================================= *)
(** ** The AI optimizer falls back to what it was given *)

Section AIFallback.

Import SEOAIOptimizer.

Variable env : SEOAIOptimizer.Env.

(** [cleanAndParseJSON] gives what [JSON.parse] gives on the part between
    the braces, and throws when there is no such part. *)
Lemma cleanAndParseJSON_between (text : string) :
  match between_braces text with
  | Some kept => cleanAndParseJSON env text = JSON_parse env kept
  | None => exists e, cleanAndParseJSON env text = Thrown e
  end.
Proof.
  unfold between_braces, cleanAndParseJSON.
  destruct (indexOf "{" text) as [first |]; [| simpl; eauto].
  destruct (lastIndexOf "}" (str_drop first text)) as [last |]; [| simpl; eauto].
  now destruct (JSON_parse env (str_take (last + 1) (str_drop first text))).
Qed.

Lemma truthy_string_text (o : option string) (text : string) :
  truthy_string o = Some text -> o = Some text /\ text <> "".
Proof.
  destruct o as [[| c t] |]; simpl; intros [= <-]. split; [reflexivity | discriminate].
Qed.

Lemma answer_or_current_unusable (prompt : Prompt) (field : string) (current : Json) :
  unusable env prompt ->
  answer_or_current env prompt field current = Returned current.
Proof.
  unfold unusable, answer_or_current, request.
  destruct (forallb printable (prompt_keywords prompt)); [| reflexivity].
  destruct (openai_create env prompt) as [[response |] | e]; simpl; auto.
  destruct (truthy_string (output_text response)) as [text |] eqn:Ht; auto.
  apply truthy_string_text in Ht. destruct Ht as [-> Hne].
  intros [Hempty | Hkept]; [contradiction |].
  pose proof (cleanAndParseJSON_between text) as Hclean.
  destruct (between_braces text) as [kept |].
  - destruct Hkept as [e He]. rewrite Hclean, He. reflexivity.
  - destruct Hclean as [e He]. rewrite He. reflexivity.
Qed.

(** Whatever the collaborator does, the three methods return a value. *)
Lemma answer_or_current_returns (prompt : Prompt) (field : string) (current : Json) :
  exists value, answer_or_current env prompt field current = Returned value.
Proof.
  unfold answer_or_current, request.
  destruct (forallb printable (prompt_keywords prompt)); [| simpl; eauto].
  destruct (openai_create env prompt) as [[response |] | e]; simpl; eauto.
  destruct (truthy_string (output_text response)) as [text |]; [| simpl; eauto].
  destruct (cleanAndParseJSON env text) as [parsed | e]; [| simpl; eauto].
  unfold bind at 1. destruct (get_prop parsed field) as [value | e]; simpl; eauto.
Qed.

(** A text without an opening brace is rejected before [JSON.parse] is
    reached, and so is a text with no closing brace after it. *)
Lemma cleanAndParseJSON_no_brace (text : string) :
  indexOf "{" text = None -> exists e, cleanAndParseJSON env text = Thrown e.
Proof.
  intros H. unfold cleanAndParseJSON. rewrite H. simpl. eauto.
Qed.

End AIFallback.

(** C9, as the code has it.  When the answer of the AI collaborator is
    unusable (the call throws, there is no response or no text, or the
    text holds no part from its first opening brace to its last closing
    brace that [JSON.parse] accepts), [optimizeTitle] returns the title it
    was given, [optimizeDescription] the description it was given and
    [generateKeywordSuggestions] the keyword list it was given; none of
    them throws.  An answer that is not JSON as a whole is not unusable
    for that alone: the text around the braces is dropped. *)
Theorem ai_fallback_on_malformed_response
    (env : SEOAIOptimizer.Env) (title description industry : string)
    (keywords : list Json) (maxTitle maxDescription : Z) :
  SEOAIOptimizer.unusable env
    (SEOAIOptimizer.TitlePrompt keywords maxTitle title) ->
  SEOAIOptimizer.unusable env
    (SEOAIOptimizer.DescriptionPrompt keywords maxDescription description) ->
  SEOAIOptimizer.unusable env (SEOAIOptimizer.KeywordsPrompt industry keywords) ->
  SEOAIOptimizer.optimizeTitle env title keywords maxTitle
    = Returned (JStr title)
  /\ SEOAIOptimizer.optimizeDescription env description keywords maxDescription
    = Returned (JStr description)
  /\ SEOAIOptimizer.generateKeywordSuggestions env keywords industry
    = Returned (JArr keywords).
Proof.
  intros Ht Hd Hk. unfold SEOAIOptimizer.optimizeTitle,
    SEOAIOptimizer.optimizeDescription, SEOAIOptimizer.generateKeywordSuggestions.
  repeat split; now apply answer_or_current_unusable.
Qed.

Lemma ai_fallback_on_malformed_response_witness :
  SEOAIOptimizer.optimizeTitle (Sample.answering "Sorry, {I cannot help.")
    "Hydraulik Lublin" [JStr "hydraulik"; JStr "lublin"] 60
    = Returned (JStr "Hydraulik Lublin")
  /\ SEOAIOptimizer.optimizeDescription (Sample.answering "Sorry, {I cannot help.")
    "Naprawa instalacji" [JStr "hydraulik"; JStr "lublin"] 160
    = Returned (JStr "Naprawa instalacji")
  /\ SEOAIOptimizer.generateKeywordSuggestions
    (Sample.answering "Sorry, {I cannot help.") [JStr "hydraulik"; JStr "lublin"]
    "hydraulika"
    = Returned (JArr [JStr "hydraulik"; JStr "lublin"]).
Proof.
  apply (ai_fallback_on_malformed_response
           (Sample.answering "Sorry, {I cannot help.")
           "Hydraulik Lublin" "Naprawa instalacji" "hydraulika"
           [JStr "hydraulik"; JStr "lublin"] 60 160);
    simpl; right; exact I.
Defined.

(** The claim as worded fails on an answer that is not JSON as a whole
    but holds an object: [JSON.parse] refuses the answer of the sample
    (it starts with prose), and yet [optimizeTitle] does not return the
    title it was given: it returns the title of the object that stands
    between the braces. *)
Lemma invalid_json_around_an_object_is_used :
  (exists e,
      SEOAIOptimizer.JSON_parse (Sample.answering Sample.chatty_text)
        Sample.chatty_text = Thrown e)
  /\ SEOAIOptimizer.optimizeTitle (Sample.answering Sample.chatty_text)
       "Hydraulik" [JStr "hydraulik"; JStr "lublin"] 60
     = Returned (JStr "Hydraulik Lublin - naprawa instalacji 24h")
  /\ JStr "Hydraulik Lublin - naprawa instalacji 24h" <> JStr "Hydraulik".
Proof.
  split; [eexists; vm_compute; reflexivity |].
  split; [vm_compute; reflexivity | discriminate].
Qed.

(** The same holds when the text has braces around something that is
    not JSON, and when the call itself fails. *)
Example optimizeTitle_not_json :
  SEOAIOptimizer.optimizeTitle (Sample.answering "Here you go: {title: Better}")
    "Hydraulik Lublin" [] 60 = Returned (JStr "Hydraulik Lublin").
Proof. reflexivity. Qed.

(** Text around the object is not an error: [cleanAndParseJSON] keeps
    what stands between the first opening and the last closing brace. *)
Example cleanAndParseJSON_strips_prose :
  SEOAIOptimizer.cleanAndParseJSON (Sample.answering "") "Sure: {} Anything else?"
  = Returned (JObj []).
Proof. reflexivity. Qed.

Example optimizeTitle_offline :
  SEOAIOptimizer.optimizeTitle Sample.offline "Hydraulik Lublin" [] 60
  = Returned (JStr "Hydraulik Lublin").
Proof. reflexivity. Qed.

(* ================================================================= *)
(** ** The shape of one call of crawl *)

(** [console.log] and [this.visitedUrls.add(url)]. *)
Definition mark_visited (url : string) (st : Analyzer) : Analyzer :=
  set_visitedUrls (set_add url (visitedUrls (log (EvVisit url) st)))
    (log (EvVisit url) st).

(** What [crawl] does with a URL that passed its three tests, up to the
    loop over the links: the state reached, and the links to follow
    ([None] when [crawl] returns after the fetch). *)
Definition visit_page (env : Env) (url : string) (st : Analyzer)
  : Analyzer * option (list string) :=
  let '((html, status), st) := fetchPage env url (mark_visited url st) in
  if negb (status =? 200)%Z || is_empty html then (st, None)
  else
    let page := cheerio_load env html in
    let (links, st) :=
      extractLinks env page url
        (extractMetadata env page url (analyzePage env url page st)) in
    (st, Some links).

(** Case analysis on every test of the goal. *)
Ltac split_ifs :=
  repeat match goal with
         | |- context [if ?c then _ else _] => destruct c
         | |- context [match ?x with _ => _ end] => destruct x
         end.

Section Crawl.

Variable env : Env.

Lemma crawl_unfold (fuel : nat) (url : string) (depth maxDepth : Z) (st : Analyzer) :
  crawl env (S fuel) url depth maxDepth st =
  if (depth >? maxDepth)%Z then Some st
  else if set_has url (visitedUrls st) then Some st
  else if isStaticResource url then Some (snd (shouldCrawl url st))
  else match visit_page env url st with
       | (st1, None) => Some st1
       | (st1, Some links) =>
           crawl_links env
             (fun link st => crawl env fuel link (depth + 1)%Z maxDepth st)
             links st1
       end.
Proof.
  simpl. destruct (depth >? maxDepth)%Z; [reflexivity |].
  destruct (set_has url (visitedUrls st)); [reflexivity |].
  unfold shouldCrawl, visit_page, mark_visited.
  destruct (isStaticResource url); simpl; [reflexivity |].
  destruct (fetchPage env url _) as [[html status] st1].
  destruct (negb (status =? 200)%Z || is_empty html); [reflexivity |].
  destruct (extractLinks env _ url _) as [links st2]. reflexivity.
Qed.

(** *** What the extraction steps leave alone *)

(** The fields that decide the traversal. *)
Definition same_traversal (st st' : Analyzer) : Prop :=
  visitedUrls st' = visitedUrls st
  /\ staticResources st' = staticResources st
  /\ brokenLinks st' = brokenLinks st
  /\ statusCodes st' = statusCodes st
  /\ trace st' = trace st.

Lemma same_traversal_refl (st : Analyzer) : same_traversal st st.
Proof. repeat split. Qed.

Lemma same_traversal_trans (st1 st2 st3 : Analyzer) :
  same_traversal st1 st2 -> same_traversal st2 st3 -> same_traversal st1 st3.
Proof.
  unfold same_traversal. intros (A & B & C & D & E) (A' & B' & C' & D' & E').
  repeat split; congruence.
Qed.

Lemma analyzePage_same_traversal (url : string) (page : Page) (st : Analyzer) :
  same_traversal st (analyzePage env url page st).
Proof.
  unfold analyzePage, add_keywords.
  destruct (analyzePageContent env (page_content page) url) as [[pa |] | e];
    try apply same_traversal_refl.
  split_ifs; repeat split.
Qed.

Lemma extractMetadata_same_traversal (page : Page) (url : string) (st : Analyzer) :
  same_traversal st (extractMetadata env page url st).
Proof.
  unfold extractMetadata. split_ifs; repeat split.
Qed.

Lemma extractLinks_same_traversal (page : Page) (url : string) (st : Analyzer) :
  same_traversal st (snd (extractLinks env page url st)).
Proof.
  unfold extractLinks. destruct (scan_anchors env page url) as [[l i] e].
  repeat split.
Qed.

End Crawl.

Lemma gtb_false_le (a b : Z) : (a >? b)%Z = false -> (a <= b)%Z.
Proof. rewrite Z.gtb_ltb. apply Z.ltb_ge. Qed.

Section CrawlSteps.

Variable env : Env.

Lemma fetchPage_traversal (url : string) (st : Analyzer) :
  visitedUrls (snd (fetchPage env url st)) = visitedUrls st
  /\ staticResources (snd (fetchPage env url st)) = staticResources st
  /\ trace (snd (fetchPage env url st)) = EvGet url :: trace st.
Proof.
  unfold fetchPage. destruct (axios_get env url); repeat split.
Qed.

(** One visit adds the URL to the visited set, then requests it once;
    the static resources are not touched. *)
Lemma visit_page_traversal (url : string) (st : Analyzer) :
  visitedUrls (fst (visit_page env url st)) = set_add url (visitedUrls st)
  /\ staticResources (fst (visit_page env url st)) = staticResources st
  /\ trace (fst (visit_page env url st)) = EvGet url :: EvVisit url :: trace st.
Proof.
  unfold visit_page.
  destruct (fetchPage_traversal url (mark_visited url st)) as (Hv & Hs & Ht).
  destruct (fetchPage env url (mark_visited url st)) as [[html status] st1].
  simpl in Hv, Hs, Ht.
  destruct (negb (status =? 200)%Z || is_empty html); simpl.
  - repeat split; assumption.
  - set (page := cheerio_load env html).
    set (st2 := analyzePage env url page st1).
    set (st3 := extractMetadata env page url st2).
    pose proof (analyzePage_same_traversal env url page st1) as (A1 & A2 & _ & _ & A5).
    pose proof (extractMetadata_same_traversal env page url st2) as (B1 & B2 & _ & _ & B5).
    pose proof (extractLinks_same_traversal env page url st3) as (C1 & C2 & _ & _ & C5).
    fold st2 in A1, A2, A5. fold st3 in B1, B2, B5.
    destruct (extractLinks env page url st3) as [links st4]. simpl in *.
    repeat split; congruence.
Qed.

(** The links [crawl] follows from a page are its successors in the
    link graph. *)
Lemma visit_page_links (url : string) (st : Analyzer) (links : list string) :
  snd (visit_page env url st) = Some links ->
  forall v, In v links -> isInternalUrl env v = true -> In v (page_links env url).
Proof.
  unfold visit_page, fetchPage, page_links, extractLinks.
  destruct (axios_get env url) as [status data | status | message]; simpl.
  - destruct (negb (status =? 200)%Z || is_empty data); simpl; [discriminate |].
    destruct (scan_anchors env (cheerio_load env data) url) as [[l i] e]. simpl.
    intros [= <-] v Hv Hint. apply filter_In. auto.
  - destruct (negb (status =? 200)%Z); discriminate.
  - discriminate.
Qed.

Lemma crawl_links_total (visit : string -> Analyzer -> option Analyzer) :
  (forall link st, exists st', visit link st = Some st') ->
  forall links st, exists st', crawl_links env visit links st = Some st'.
Proof.
  intros Hvisit links. induction links as [| link rest IH]; intros st; simpl.
  - eauto.
  - destruct (isInternalUrl env link); [| apply IH].
    destruct (Hvisit link st) as [st1 ->]. apply IH.
Qed.

(** [crawl] returns: the nesting of its calls is bounded by the depths
    left below [maxDepth]. *)
Lemma crawl_enough_fuel (fuel : nat) :
  forall (url : string) (depth maxDepth : Z) (st : Analyzer),
    (crawl_fuel depth maxDepth <= fuel)%nat ->
    exists st', crawl env fuel url depth maxDepth st = Some st'.
Proof.
  unfold crawl_fuel.
  induction fuel as [| fuel IH]; intros url depth maxDepth st Hfuel; [lia |].
  rewrite crawl_unfold.
  destruct (depth >? maxDepth)%Z eqn:Hd; [eauto |].
  destruct (set_has url (visitedUrls st)); [eauto |].
  destruct (isStaticResource url); [eauto |].
  destruct (visit_page env url st) as [st1 [links |]]; [| eauto].
  apply crawl_links_total. intros link st2. apply IH.
  apply gtb_false_le in Hd. lia.
Qed.

(** *** Invariants of a traversal

    [I] is preserved by a call of [crawl] when it is preserved by the
    recording of a static resource and by the visit of a page; [Q] is
    what is known of the URL and the depth of each call. *)
Section Invariant.

Variable I : Analyzer -> Prop.
Variable Q : Z -> string -> Prop.
Variable maxDepth : Z.

Hypothesis I_static :
  forall url st, I st -> I (snd (shouldCrawl url st)).

Hypothesis I_visit :
  forall url depth st,
    I st -> Q depth url -> (depth <= maxDepth)%Z ->
    set_has url (visitedUrls st) = false -> isStaticResource url = false ->
    I (fst (visit_page env url st)).

Hypothesis Q_step :
  forall url depth v,
    Q depth url -> In v (page_links env url) -> Q (depth + 1)%Z v.

Lemma crawl_links_invariant (visit : string -> Analyzer -> option Analyzer)
    (links : list string) :
  (forall link st st',
      In link links -> isInternalUrl env link = true ->
      I st -> visit link st = Some st' -> I st') ->
  forall st st', I st -> crawl_links env visit links st = Some st' -> I st'.
Proof.
  induction links as [| link rest IH]; intros Hvisit st st' HI; simpl.
  - now intros [= <-].
  - assert (Hrest : forall l s s', In l rest -> isInternalUrl env l = true ->
                      I s -> visit l s = Some s' -> I s')
      by (intros l s s' Hl; apply Hvisit; now right).
    destruct (isInternalUrl env link) eqn:Hint; [| now apply IH].
    destruct (visit link st) as [st1 |] eqn:Hv; [| discriminate].
    apply IH; [assumption |]. eapply Hvisit; eauto. now left.
Qed.

Lemma crawl_invariant (fuel : nat) :
  forall (url : string) (depth : Z) (st st' : Analyzer),
    I st -> Q depth url ->
    crawl env fuel url depth maxDepth st = Some st' -> I st'.
Proof.
  induction fuel as [| fuel IH]; intros url depth st st' HI HQ; [discriminate |].
  rewrite crawl_unfold.
  destruct (depth >? maxDepth)%Z eqn:Hd; [now intros [= <-] |].
  destruct (set_has url (visitedUrls st)) eqn:Hvis; [now intros [= <-] |].
  destruct (isStaticResource url) eqn:Hstatic.
  - intros [= <-]. now apply I_static.
  - apply gtb_false_le in Hd.
    pose proof (I_visit url depth st HI HQ Hd Hvis Hstatic) as HI1.
    pose proof (visit_page_links url st) as Hlinks.
    destruct (visit_page env url st) as [st1 [links |]]; simpl in *.
    + apply crawl_links_invariant; [| assumption].
      intros link s s' Hin Hint Hs. apply IH; [assumption |].
      eapply Q_step; eauto.
    + now intros [= <-].
Qed.

End Invariant.

End CrawlSteps.

(* ================================================================= *)
(** ** At most one fetch per URL *)

(** No URL is requested twice, every request comes after the visit of its
    URL was recorded, and every requested URL is in the visited set. *)
Definition fetch_discipline (st : Analyzer) : Prop :=
  NoDup (fetched (trace st))
  /\ visited_before_fetch (trace st)
  /\ (forall u, In u (fetched (trace st)) -> In u (visitedUrls st)).

Lemma fetch_discipline_new (env : Env) : fetch_discipline (new_analyzer env).
Proof. repeat split; simpl; [constructor | contradiction]. Qed.

Lemma fetch_discipline_static (url : string) (st : Analyzer) :
  fetch_discipline st -> fetch_discipline (snd (shouldCrawl url st)).
Proof.
  unfold shouldCrawl. destruct (isStaticResource url); auto.
Qed.

Lemma fetch_discipline_visit (env : Env) (url : string) (st : Analyzer) :
  fetch_discipline st -> set_has url (visitedUrls st) = false ->
  fetch_discipline (fst (visit_page env url st)).
Proof.
  intros (Hnd & Hbefore & Hsub) Hnew. apply set_has_false in Hnew.
  destruct (visit_page_traversal env url st) as (Hv & _ & Ht).
  unfold fetch_discipline. rewrite Hv, Ht. simpl. repeat split.
  - constructor; [| assumption]. intros Hin. apply Hnew. now apply Hsub.
  - now left.
  - assumption.
  - intros u [<- | Hu]; apply set_add_In; [now left | right; now apply Hsub].
Qed.

(** C1.  From a state that satisfies the fetch discipline (the new
    analyzer does), a call of [crawl] returns and the state it leaves
    satisfies it again: each URL has been requested at most once, however
    many pages link to it, and was added to the visited set before its
    request.  A call on a URL that is already in the visited set leaves
    the state as it is. *)
Theorem at_most_once_visitation
    (env : Env) (fuel : nat) (url : string) (depth maxDepth : Z) (st : Analyzer) :
  fetch_discipline st ->
  (crawl_fuel depth maxDepth <= fuel)%nat ->
  exists st',
    crawl env fuel url depth maxDepth st = Some st'
    /\ fetch_discipline st'
    /\ (In url (visitedUrls st) -> st' = st).
Proof.
  intros Hst Hfuel.
  destruct (crawl_enough_fuel env fuel url depth maxDepth st Hfuel) as [st' Hrun].
  exists st'. split; [assumption |]. split.
  - apply (crawl_invariant env fetch_discipline (fun _ _ => True) maxDepth)
      with (fuel := fuel) (url := url) (depth := depth) (st := st); auto.
    + apply fetch_discipline_static.
    + intros u d s Hs _ _ Hnew _. now apply fetch_discipline_visit.
  - intros Hin. apply set_has_In in Hin.
    destruct fuel as [| fuel]; [discriminate |].
    rewrite crawl_unfold, Hin in Hrun.
    destruct (depth >? maxDepth)%Z; congruence.
Qed.

Lemma at_most_once_visitation_witness :
  exists st',
    crawl Sample.example_site 12 Sample.home 0 10
      (new_analyzer Sample.example_site) = Some st'
    /\ fetch_discipline st'
    /\ (In Sample.home (visitedUrls (new_analyzer Sample.example_site)) ->
        st' = new_analyzer Sample.example_site).
Proof.
  apply (at_most_once_visitation Sample.example_site 12 Sample.home 0 10
           (new_analyzer Sample.example_site)).
  - apply fetch_discipline_new.
  - unfold crawl_fuel. simpl. lia.
Defined.

(** The home page of the sample site is linked from two pages and is
    requested once. *)
Example home_fetched_once :
  option_map (fun st => count_occ string_dec (fetched (trace st)) Sample.home)
    (crawl Sample.example_site 12 Sample.home 0 10
       (new_analyzer Sample.example_site))
  = Some 1%nat.
Proof. vm_compute. reflexivity. Qed.

(* ================================================================= *)
(** ** The depth bound *)

(** Every visited URL is at the end of a path of at most [maxDepth]
    links from [start]. *)
Definition within_depth (env : Env) (start : string) (maxDepth : Z)
    (st : Analyzer) : Prop :=
  forall v, In v (visitedUrls st) ->
    exists d, (0 <= d <= maxDepth)%Z /\ link_path env start d v.

Lemma within_depth_visit (env : Env) (start url : string) (depth maxDepth : Z)
    (st : Analyzer) :
  within_depth env start maxDepth st ->
  (0 <= depth)%Z /\ link_path env start depth url ->
  (depth <= maxDepth)%Z ->
  within_depth env start maxDepth (fst (visit_page env url st)).
Proof.
  intros HI [Hpos Hpath] Hle v.
  destruct (visit_page_traversal env url st) as (Hv & _ & _). rewrite Hv.
  intros Hin. apply set_add_In in Hin. destruct Hin as [-> | Hin].
  - exists depth. split; [lia | assumption].
  - now apply HI.
Qed.

Lemma crawl_within_depth (env : Env) (fuel : nat) (url : string)
    (depth maxDepth : Z) (st st' : Analyzer) :
  within_depth env (startUrl env) maxDepth st ->
  (0 <= depth)%Z -> link_path env (startUrl env) depth url ->
  crawl env fuel url depth maxDepth st = Some st' ->
  within_depth env (startUrl env) maxDepth st'.
Proof.
  intros HI Hpos Hpath.
  apply (crawl_invariant env (within_depth env (startUrl env) maxDepth)
           (fun d u => (0 <= d)%Z /\ link_path env (startUrl env) d u) maxDepth);
    auto.
  - intros u s Hs. unfold shouldCrawl. destruct (isStaticResource u); auto.
  - intros u d s Hs HQ Hd _ _. now apply within_depth_visit with (depth := d).
  - intros u d v [Hd Hp] Hv. split; [lia |]. now apply path_step with (u := u).
Qed.

(** C3.  A run of [crawl] from the start URL with bound [maxDepth]
    returns, and no URL whose every link path from the start URL is
    longer than [maxDepth] is in the visited set; a call with
    [depth > maxDepth] returns the state it was given. *)
Theorem depth_bound_respected (env : Env) (maxDepth : Z) :
  exists st',
    crawl env (crawl_fuel 0 maxDepth) (startUrl env) 0 maxDepth (new_analyzer env)
      = Some st'
    /\ (forall v,
          (forall d, link_path env (startUrl env) d v -> (maxDepth < d)%Z) ->
          ~ In v (visitedUrls st'))
    /\ (forall fuel url depth st,
          (depth > maxDepth)%Z ->
          crawl env (S fuel) url depth maxDepth st = Some st).
Proof.
  destruct (crawl_enough_fuel env (crawl_fuel 0 maxDepth) (startUrl env) 0 maxDepth
              (new_analyzer env) (le_n _)) as [st' Hrun].
  exists st'. split; [assumption |]. split.
  - intros v Hfar Hin.
    assert (HI : within_depth env (startUrl env) maxDepth st').
    { apply crawl_within_depth with (fuel := crawl_fuel 0 maxDepth)
        (url := startUrl env) (depth := 0%Z) (st := new_analyzer env);
        [intros u [] | lia | constructor | assumption]. }
    destruct (HI v Hin) as (d & Hd & Hpath). specialize (Hfar d Hpath). lia.
  - intros fuel url depth st Hd. rewrite crawl_unfold.
    apply Z.gt_lt in Hd. apply Z.gtb_lt in Hd. now rewrite Hd.
Qed.

(** With bound 1 the sample crawl stops before the page that is two
    links away from the start. *)
Example depth_one_crawl :
  option_map visitedUrls
    (crawl Sample.example_site (crawl_fuel 0 1) Sample.home 0 1
       (new_analyzer Sample.example_site))
  = Some ["https://example.test/"; "https://example.test/about";
          "https://example.test/team.html"; "https://example.test/missing";
          "https://example.test/down"; "https://example.test/empty";
          "https://example.test/created"].
Proof. vm_compute. reflexivity. Qed.

(* ================================================================= *)
(** ** Static resources *)

(** No static resource has been visited or requested. *)
Definition statics_untouched (st : Analyzer) : Prop :=
  forall u, isStaticResource u = true ->
    ~ In u (visitedUrls st) /\ ~ In u (fetched (trace st)).

Lemma statics_untouched_visit (env : Env) (url : string) (st : Analyzer) :
  statics_untouched st -> isStaticResource url = false ->
  statics_untouched (fst (visit_page env url st)).
Proof.
  intros HI Hurl u Hu.
  destruct (visit_page_traversal env url st) as (Hv & _ & Ht).
  rewrite Hv, Ht. simpl. destruct (HI u Hu) as [Hnv Hnf]. split.
  - intros Hin. apply set_add_In in Hin. destruct Hin as [-> | Hin];
      [congruence | contradiction].
  - intros [<- | Hin]; [congruence | contradiction].
Qed.

Lemma crawl_static (env : Env) (fuel : nat) (url : string) (depth maxDepth : Z)
    (st : Analyzer) :
  isStaticResource url = true ->
  crawl env (S fuel) url depth maxDepth st =
  Some (if (depth >? maxDepth)%Z || set_has url (visitedUrls st) then st
        else set_staticResources (set_add url (staticResources st)) st).
Proof.
  intros Hstatic. rewrite crawl_unfold. unfold shouldCrawl. rewrite Hstatic.
  destruct (depth >? maxDepth)%Z; [reflexivity |].
  destruct (set_has url (visitedUrls st)); reflexivity.
Qed.

(** C4, as the code has it.  For a URL whose string ends, letter case
    aside, with one of the sixteen extensions: a call of [crawl] on it
    never requests it and never adds it to the visited set, and records it
    in [staticResources] when the call is within the depth bound and the
    URL is not in the visited set; after a run from the start URL it is
    neither visited nor requested. *)
Theorem static_resource_exclusion (env : Env) (url : string) :
  isStaticResource url = true ->
  (forall fuel depth maxDepth st,
      exists st',
        crawl env (S fuel) url depth maxDepth st = Some st'
        /\ visitedUrls st' = visitedUrls st
        /\ trace st' = trace st
        /\ ((depth <= maxDepth)%Z -> ~ In url (visitedUrls st) ->
            In url (staticResources st')))
  /\ (forall maxDepth,
        exists st',
          crawl env (crawl_fuel 0 maxDepth) (startUrl env) 0 maxDepth
            (new_analyzer env) = Some st'
          /\ ~ In url (visitedUrls st')
          /\ ~ In url (fetched (trace st'))).
Proof.
  intros Hstatic. split.
  - intros fuel depth maxDepth st. eexists. split; [now apply crawl_static |].
    destruct (depth >? maxDepth)%Z eqn:Hd; simpl.
    + repeat split. intros Hle. apply Z.gtb_lt in Hd. lia.
    + destruct (set_has url (visitedUrls st)) eqn:Hv; simpl; repeat split.
      * intros _ Hn. apply set_has_In in Hv. contradiction.
      * intros _ _. apply set_add_self.
  - intros maxDepth.
    destruct (crawl_enough_fuel env (crawl_fuel 0 maxDepth) (startUrl env) 0
                maxDepth (new_analyzer env) (le_n _)) as [st' Hrun].
    exists st'. split; [assumption |].
    apply (crawl_invariant env statics_untouched (fun _ _ => True) maxDepth)
      with (fuel := crawl_fuel 0 maxDepth) (url := startUrl env) (depth := 0%Z)
           (st := new_analyzer env); auto.
    + intros u s Hs. unfold shouldCrawl.
      destruct (isStaticResource u); [exact Hs | exact Hs].
    + intros u d s Hs _ _ _ Hu. now apply statics_untouched_visit.
    + intros u _. simpl. tauto.
Qed.

Lemma static_resource_exclusion_witness :
  (forall fuel depth maxDepth st,
      exists st',
        crawl Sample.example_site (S fuel) "https://example.test/Logo.PNG"
          depth maxDepth st = Some st'
        /\ visitedUrls st' = visitedUrls st
        /\ trace st' = trace st
        /\ ((depth <= maxDepth)%Z ->
            ~ In "https://example.test/Logo.PNG" (visitedUrls st) ->
            In "https://example.test/Logo.PNG" (staticResources st')))
  /\ (forall maxDepth,
        exists st',
          crawl Sample.example_site (crawl_fuel 0 maxDepth)
            (startUrl Sample.example_site) 0 maxDepth
            (new_analyzer Sample.example_site) = Some st'
          /\ ~ In "https://example.test/Logo.PNG" (visitedUrls st')
          /\ ~ In "https://example.test/Logo.PNG" (fetched (trace st'))).
Proof.
  apply (static_resource_exclusion Sample.example_site
           "https://example.test/Logo.PNG").
  vm_compute. reflexivity.
Defined.

(** A call beyond the depth bound returns before [shouldCrawl] is
    reached: the image is not recorded as a static resource. *)
Lemma static_resource_not_recorded_beyond_depth :
  option_map staticResources
    (crawl Sample.example_site 3 "https://example.test/logo.png" 1 0
       (new_analyzer Sample.example_site))
  = Some [].
Proof. vm_compute. reflexivity. Qed.

(** The test is on the whole URL string: an image URL with a query
    string is crawled like a page. *)
Example static_test_sees_query_string :
  isStaticResource "https://example.test/logo.png?v=2" = false
  /\ option_map (fun st => (visitedUrls st, fetched (trace st)))
       (crawl Sample.example_site 3 "https://example.test/logo.png?v=2" 0 0
          (new_analyzer Sample.example_site))
     = Some (["https://example.test/logo.png?v=2"],
             ["https://example.test/logo.png?v=2"]).
Proof. vm_compute. split; reflexivity. Qed.

(* ================================================================= *)
(** ** Failed fetches *)

(** Nothing was extracted from a page: its title, description, heading,
    meta tags and link lists are as before. *)
Definition no_page_record (st st' : Analyzer) : Prop :=
  pagesTitles st' = pagesTitles st
  /\ pagesDescriptions st' = pagesDescriptions st
  /\ pagesH1 st' = pagesH1 st
  /\ pagesMetaTags st' = pagesMetaTags st
  /\ internalLinks st' = internalLinks st
  /\ externalLinks st' = externalLinks st.

(** What a call of [crawl] that gets past its three tests leaves when
    the fetch does not give a page. *)
Definition failed_fetch (url : string) (status : Z) (entries : list BrokenLink)
    (st st' : Analyzer) : Prop :=
  brokenLinks st' = brokenLinks st ++ entries
  /\ map_get url (statusCodes st') = Some status
  /\ In url (visitedUrls st')
  /\ fetched (trace st') = url :: fetched (trace st)
  /\ no_page_record st st'.

Lemma crawl_passes_tests (env : Env) (fuel : nat) (url : string)
    (depth maxDepth : Z) (st : Analyzer) :
  (depth <= maxDepth)%Z -> ~ In url (visitedUrls st) ->
  isStaticResource url = false ->
  crawl env (S fuel) url depth maxDepth st =
  match visit_page env url st with
  | (st1, None) => Some st1
  | (st1, Some links) =>
      crawl_links env
        (fun link st => crawl env fuel link (depth + 1)%Z maxDepth st) links st1
  end.
Proof.
  intros Hd Hv Hs. rewrite crawl_unfold, Hs.
  apply set_has_false in Hv. rewrite Hv.
  destruct (depth >? maxDepth)%Z eqn:E; [apply Z.gtb_lt in E; lia | reflexivity].
Qed.

(** C5, as the code has it.  For a URL that gets past the tests of
    [crawl]: when the request is rejected with an HTTP response, exactly
    one entry with that status is appended to [brokenLinks]; when it is
    rejected without a response, exactly one entry with status 0 and the
    error message; when it resolves with a status other than 200 or with
    an empty body, no entry is appended.  In the three cases the status is
    recorded in [statusCodes], the URL is in the visited set, it was
    requested once and nothing was extracted from it. *)
Theorem broken_link_recording
    (env : Env) (fuel : nat) (url : string) (depth maxDepth : Z) (st : Analyzer) :
  (depth <= maxDepth)%Z -> ~ In url (visitedUrls st) ->
  isStaticResource url = false ->
  match axios_get env url with
  | RejectedWithResponse status =>
      exists st',
        crawl env (S fuel) url depth maxDepth st = Some st'
        /\ failed_fetch url status [mkBrokenLink url status None] st st'
  | RejectedNoResponse message =>
      exists st',
        crawl env (S fuel) url depth maxDepth st = Some st'
        /\ failed_fetch url 0 [mkBrokenLink url 0 (Some message)] st st'
  | Resolved status data =>
      status <> 200%Z \/ data = "" ->
      exists st',
        crawl env (S fuel) url depth maxDepth st = Some st'
        /\ failed_fetch url status [] st st'
  end.
Proof.
  intros Hd Hv Hs. rewrite (crawl_passes_tests env fuel url depth maxDepth st Hd Hv Hs).
  unfold visit_page, fetchPage, failed_fetch, no_page_record.
  destruct (axios_get env url) as [status data | status | message].
  - intros Hfail.
    assert (Hc : negb (status =? 200)%Z || is_empty data = true).
    { destruct Hfail as [Hne | ->]; [| apply orb_true_r].
      apply Z.eqb_neq in Hne. now rewrite Hne. }
    rewrite Hc. eexists. split; [reflexivity |]. simpl.
    rewrite map_get_set_same, app_nil_r. repeat split. apply set_add_self.
  - rewrite orb_true_r. eexists. split; [reflexivity |]. simpl.
    rewrite map_get_set_same. repeat split. apply set_add_self.
  - rewrite orb_true_r. eexists. split; [reflexivity |]. simpl.
    rewrite map_get_set_same. repeat split. apply set_add_self.
Qed.

Lemma broken_link_recording_witness :
  exists st',
    crawl Sample.example_site 1 "https://example.test/missing" 1 10
      (new_analyzer Sample.example_site) = Some st'
    /\ failed_fetch "https://example.test/missing" 404
         [mkBrokenLink "https://example.test/missing" 404 None]
         (new_analyzer Sample.example_site) st'.
Proof.
  apply (broken_link_recording Sample.example_site 0
           "https://example.test/missing" 1 10 (new_analyzer Sample.example_site)).
  - lia.
  - simpl. tauto.
  - vm_compute. reflexivity.
Defined.

(** A page that answers 200 with an empty body is not a broken link for
    the code: [brokenLinks] stays empty. *)
Lemma empty_body_is_not_recorded_as_broken :
  option_map (fun st => (brokenLinks st, statusCodes st, visitedUrls st))
    (crawl Sample.example_site 1 "https://example.test/empty" 1 10
       (new_analyzer Sample.example_site))
  = Some ([], [("https://example.test/empty", 200%Z)],
          ["https://example.test/empty"]).
Proof. vm_compute. reflexivity. Qed.

(** Neither is a page that answers 201. *)
Example created_is_not_recorded_as_broken :
  option_map brokenLinks
    (crawl Sample.example_site 1 "https://example.test/created" 1 10
       (new_analyzer Sample.example_site))
  = Some [].
Proof. vm_compute. reflexivity. Qed.

(** A transport failure is recorded with status 0 and its message. *)
Example transport_failure_recorded :
  option_map brokenLinks
    (crawl Sample.example_site 1 "https://example.test/down" 1 10
       (new_analyzer Sample.example_site))
  = Some [mkBrokenLink "https://example.test/down" 0 (Some "ECONNREFUSED")].
Proof. vm_compute. reflexivity. Qed.

(* ================================================================= *)
(** ** Sitemap index expansion *)

(** The URLs a urlset contributes: its [loc]s up to the first entry
    without one. *)
Fixpoint locs_until_gap (items : list Entry) : list string :=
  match items with
  | [] => []
  | None :: _ => []
  | Some url :: rest => url :: locs_until_gap rest
  end.

(** The page URLs listed by the document [xml] and by the sitemaps
    under it, in document order, for indexes nested at most [d] deep. *)
Fixpoint listed_urls (env : Env) (d : nat) (xml : string) : list string :=
  match parseString env xml with
  | Some (Urlset (Some items)) => locs_until_gap items
  | Some (Sitemapindex (Some sitemaps)) =>
      match d with
      | O => []
      | S d' =>
          flat_map
            (fun entry : Entry =>
               match entry with
               | Some sitemapUrl =>
                   match axios_get env sitemapUrl with
                   | Resolved _ data => listed_urls env d' data
                   | _ => []
                   end
               | None => []
               end)
            sitemaps
      end
  | _ => []
  end.

Section Sitemap.

Variable env : Env.

Lemma add_all_app (xs ys : list string) (s : JSSet) :
  add_all (xs ++ ys) s = add_all ys (add_all xs s).
Proof. apply fold_left_app. Qed.

Lemma add_locs_urls (items : list Entry) (st : Analyzer) :
  sitemapUrls (snd (add_locs items st))
  = add_all (locs_until_gap items) (sitemapUrls st).
Proof.
  revert st. induction items as [| [url |] rest IH]; intros st; simpl;
    try reflexivity.
  now rewrite IH.
Qed.

(** The sitemap index of the looping site lists itself: no amount of
    fuel lets [parseSitemap] return. *)
Lemma looping_sitemap_never_returns (fuel : nat) :
  forall st, parseSitemap Sample.looping_site fuel "<loop>" st = None.
Proof.
  induction fuel as [| fuel IH]; intros st; [reflexivity |].
  change (match each_sitemap Sample.looping_site
                  (parseSitemap Sample.looping_site fuel)
                  [Some "https://example.test/sitemap.xml"] st with
          | Some st' => Some (true, st')
          | None => None
          end = None).
  change (match
            match parseSitemap Sample.looping_site fuel "<loop>"
                    (log (EvGet "https://example.test/sitemap.xml") st) with
            | Some (_, st') => Some st'
            | None => None
            end
          with
          | Some st' => Some (true, st')
          | None => None
          end = None).
  now rewrite IH.
Qed.

(** The loop over the entries of an index, when each document it
    fetches nests at most [d] deep. *)
Lemma each_sitemap_flat (d : nat) :
  (forall xml st,
      nesting env d xml ->
      exists r st',
        (forall fuel, (d < fuel)%nat -> parseSitemap env fuel xml st = Some (r, st'))
        /\ sitemapUrls st' = add_all (listed_urls env d xml) (sitemapUrls st)) ->
  forall sitemaps st,
    (forall sitemapUrl status data,
        In (Some sitemapUrl) sitemaps ->
        axios_get env sitemapUrl = Resolved status data -> nesting env d data) ->
    exists st',
      (forall fuel, (d < fuel)%nat ->
         each_sitemap env (parseSitemap env fuel) sitemaps st = Some st')
      /\ sitemapUrls st'
         = add_all
             (flat_map
                (fun entry : Entry =>
                   match entry with
                   | Some sitemapUrl =>
                       match axios_get env sitemapUrl with
                       | Resolved _ data => listed_urls env d data
                       | _ => []
                       end
                   | None => []
                   end)
                sitemaps)
             (sitemapUrls st).
Proof.
  intros Hparse sitemaps.
  induction sitemaps as [| [sitemapUrl |] rest IH]; intros st Hnest; simpl.
  - exists st. split; reflexivity.
  - assert (Hrest : forall u s dt, In (Some u) rest ->
                      axios_get env u = Resolved s dt -> nesting env d dt)
      by (intros u s dt Hin; apply Hnest; now right).
    destruct (axios_get env sitemapUrl) as [status data | status | message] eqn:Hget.
    + destruct (Hparse data (log (EvGet sitemapUrl) st)) as (r & st1 & Hrun & Hurls).
      { apply (Hnest sitemapUrl status data); [now left | assumption]. }
      destruct (IH st1 Hrest) as (st2 & Hloop & Hurls2).
      exists st2. split.
      * intros fuel Hfuel. rewrite (Hrun fuel Hfuel). now apply Hloop.
      * rewrite add_all_app, Hurls2, Hurls. reflexivity.
    + destruct (IH (log (EvGet sitemapUrl) st) Hrest) as (st2 & Hloop & Hurls2).
      exists st2. split; assumption.
    + destruct (IH (log (EvGet sitemapUrl) st) Hrest) as (st2 & Hloop & Hurls2).
      exists st2. split; assumption.
  - apply IH. intros u s dt Hin. apply Hnest. now right.
Qed.

Lemma parseSitemap_flat (d : nat) :
  forall xml st,
    nesting env d xml ->
    exists r st',
      (forall fuel, (d < fuel)%nat -> parseSitemap env fuel xml st = Some (r, st'))
      /\ sitemapUrls st' = add_all (listed_urls env d xml) (sitemapUrls st).
Proof.
  induction d as [| d IH]; intros xml st Hnest.
  - simpl in Hnest. simpl listed_urls.
    destruct (parseString env xml) as [[[sitemaps |] | [items |] |] |] eqn:Hxml;
      try contradiction.
    + exists true, st. split; [| reflexivity].
      intros [| fuel] Hfuel; [lia |]. simpl. now rewrite Hxml.
    + exists (fst (add_locs items st)), (snd (add_locs items st)).
      split; [| apply add_locs_urls].
      intros [| fuel] Hfuel; [lia |]. simpl. rewrite Hxml. simpl.
      now destruct (add_locs items st).
    + exists true, st. split; [| reflexivity].
      intros [| fuel] Hfuel; [lia |]. simpl. now rewrite Hxml.
    + exists false, st. split; [| reflexivity].
      intros [| fuel] Hfuel; [lia |]. simpl. now rewrite Hxml.
    + exists false, st. split; [| reflexivity].
      intros [| fuel] Hfuel; [lia |]. simpl. now rewrite Hxml.
  - simpl in Hnest. simpl listed_urls.
    destruct (parseString env xml) as [[[sitemaps |] | [items |] |] |] eqn:Hxml.
    + destruct (each_sitemap_flat d IH sitemaps st Hnest) as (st' & Hloop & Hurls).
      exists true, st'. split; [| assumption].
      intros [| fuel] Hfuel; [lia |]. simpl. rewrite Hxml.
      rewrite (Hloop fuel); [reflexivity | lia].
    + exists true, st. split; [| reflexivity].
      intros [| fuel] Hfuel; [lia |]. simpl. now rewrite Hxml.
    + exists (fst (add_locs items st)), (snd (add_locs items st)).
      split; [| apply add_locs_urls].
      intros [| fuel] Hfuel; [lia |]. simpl. rewrite Hxml. simpl.
      now destruct (add_locs items st).
    + exists true, st. split; [| reflexivity].
      intros [| fuel] Hfuel; [lia |]. simpl. now rewrite Hxml.
    + exists false, st. split; [| reflexivity].
      intros [| fuel] Hfuel; [lia |]. simpl. now rewrite Hxml.
    + exists false, st. split; [| reflexivity].
      intros [| fuel] Hfuel; [lia |]. simpl. now rewrite Hxml.
Qed.

End Sitemap.

(** C2, as the code has it.  When the sitemap indexes under a document
    nest at most [d] levels deep (so no index leads back to itself),
    [parseSitemap] returns, with the same result for every fuel above
    [d]; [sitemapUrls] then holds, without duplicates, the URLs it held
    before followed by the new URLs the leaf sitemaps list. *)
Theorem sitemap_expansion_terminates
    (env : Env) (d : nat) (xml : string) (st : Analyzer) :
  nesting env d xml ->
  NoDup (sitemapUrls st) ->
  exists r st',
    (forall fuel, (d < fuel)%nat -> parseSitemap env fuel xml st = Some (r, st'))
    /\ sitemapUrls st' = add_all (listed_urls env d xml) (sitemapUrls st)
    /\ NoDup (sitemapUrls st')
    /\ (forall u, In u (sitemapUrls st') <->
                  In u (listed_urls env d xml) \/ In u (sitemapUrls st)).
Proof.
  intros Hnest Hnd.
  destruct (parseSitemap_flat env d xml st Hnest) as (r & st' & Hrun & Hurls).
  exists r, st'. rewrite Hurls. repeat split; try assumption.
  - now apply add_all_NoDup.
  - now apply add_all_In.
  - now apply add_all_In.
Qed.

Lemma sample_index_nesting : nesting Sample.example_site 1 "<index>".
Proof.
  simpl. intros sitemapUrl status data Hin Hget.
  destruct Hin as [Hin | [Hin | [Hin | [Hin | []]]]]; try discriminate;
    injection Hin as <-; vm_compute in Hget; try discriminate;
    injection Hget as <- <-; exact I.
Defined.

Lemma sitemap_expansion_terminates_witness :
  exists r st',
    (forall fuel, (1 < fuel)%nat ->
       parseSitemap Sample.example_site fuel "<index>"
         (new_analyzer Sample.example_site) = Some (r, st'))
    /\ sitemapUrls st'
       = add_all (listed_urls Sample.example_site 1 "<index>")
           (sitemapUrls (new_analyzer Sample.example_site))
    /\ NoDup (sitemapUrls st')
    /\ (forall u, In u (sitemapUrls st') <->
                  In u (listed_urls Sample.example_site 1 "<index>")
                  \/ In u (sitemapUrls (new_analyzer Sample.example_site))).
Proof.
  apply (sitemap_expansion_terminates Sample.example_site 1 "<index>"
           (new_analyzer Sample.example_site)).
  - exact sample_index_nesting.
  - simpl. constructor.
Defined.

(** The URL listed by both sitemaps of the sample index is kept once,
    and the entry of the index whose fetch fails is skipped. *)
Example sample_sitemap_urls :
  option_map (fun r => sitemapUrls (snd r))
    (parseSitemap Sample.example_site 2 "<index>"
       (new_analyzer Sample.example_site))
  = Some ["https://example.test/"; "https://example.test/about";
          "https://example.test/contact"; "https://example.test/blog"].
Proof. vm_compute. reflexivity. Qed.

(** On a sitemap index that lists itself [parseSitemap] does not
    return, whatever the fuel. *)
Lemma self_referential_index_diverges :
  ~ (exists fuel result,
       parseSitemap Sample.looping_site fuel "<loop>"
         (new_analyzer Sample.looping_site) = Some result).
Proof.
  intros (fuel & result & Hrun).
  rewrite looping_sitemap_never_returns in Hrun. discriminate.
Qed.

(** Neither does the whole analysis of that site. *)
Example analyze_looping_site_diverges (fuel : nat) (now : string) :
  analyze Sample.looping_site fuel 10 now (new_analyzer Sample.looping_site) = None.
Proof.
  unfold analyze.
  replace (crawl Sample.looping_site (crawl_fuel 0 10)
             (startUrl Sample.looping_site) 0 10
             (new_analyzer Sample.looping_site))
    with (Some (fst (visit_page Sample.looping_site Sample.home
                       (new_analyzer Sample.looping_site))))
    by (vm_compute; reflexivity).
  set (st := fst (visit_page _ _ _)).
  change (fetchSitemap Sample.looping_site st)
    with (Some "<loop>", log (EvGet "https://example.test/sitemap.xml") st).
  cbv beta iota zeta. change (truthy_string (Some "<loop>")) with (Some "<loop>").
  cbv beta iota. now rewrite looping_sitemap_never_returns.
Qed.

(* ================================================================= *)
(** ** Relative links: recorded as external, followed as internal *)

Section RelativeLinks.

Variable env : Env.

Lemma analyzePage_links (url : string) (page : Page) (st : Analyzer) :
  internalLinks (analyzePage env url page st) = internalLinks st
  /\ externalLinks (analyzePage env url page st) = externalLinks st.
Proof.
  unfold analyzePage, add_keywords.
  destruct (analyzePageContent env (page_content page) url) as [[pa |] | e];
    try (split; reflexivity).
  split_ifs; split; reflexivity.
Qed.

Lemma extractMetadata_links (page : Page) (url : string) (st : Analyzer) :
  internalLinks (extractMetadata env page url st) = internalLinks st
  /\ externalLinks (extractMetadata env page url st) = externalLinks st.
Proof.
  unfold extractMetadata. split_ifs; split; reflexivity.
Qed.
















End RelativeLinks.



(** On the sample site the page reached by the relative link is both in
    the external links of the home page and in the visited set. *)
Example team_page_external_and_visited :
  option_map
    (fun st => (map_get Sample.home (externalLinks st),
                set_has "https://example.test/team.html" (visitedUrls st)))
    (crawl Sample.example_site 12 Sample.home 0 10
       (new_analyzer Sample.example_site))
  = Some (Some ["https://other.test/"; "https://example.test/team.html"], true).
Proof. vm_compute. reflexivity. Qed.

(* ================================================================= *)
(** ** What the issues list can hold *)

Definition title_length_issue (entry : string * string) : list string :=
  let (url, title) := entry in
  if ((str_length title <? 30) || (60 <? str_length title))%nat
  then ["Nieprawidłowa długość tytułu (" ++ nat_to_string (str_length title)
          ++ " znaków) na stronie: " ++ url]%string
  else [].

Definition description_length_issue (entry : string * string) : list string :=
  let (url, description) := entry in
  if ((str_length description <? 120)
      || (160 <? str_length description))%nat
  then ["Nieprawidłowa długość meta opisu ("
          ++ nat_to_string (str_length description)
          ++ " znaków) na stronie: " ++ url]%string
  else [].

Definition broken_count_issue (st : Analyzer) : list string :=
  if (0 <? length (brokenLinks st))%nat
  then ["Znaleziono " ++ nat_to_string (length (brokenLinks st))
          ++ " uszkodzonych linków"]%string
  else [].

Definition has_text (entry : string * string) : Prop := snd entry <> "".

(** The three maps hold no empty text, and the sitemap comparison has
    not run yet. *)
Definition before_sitemap (st : Analyzer) : Prop :=
  Forall has_text (pagesTitles st)
  /\ Forall has_text (pagesDescriptions st)
  /\ Forall has_text (pagesH1 st)
  /\ urlsNotInSitemap st = []
  /\ urlsInSitemapButNotCrawled st = [].

Section Issues.

Variable env : Env.

Lemma map_set_Forall {V : Type} (P : string * V -> Prop) (k : string) (v : V)
    (m : JSMap V) :
  Forall P m -> P (k, v) -> Forall P (map_set k v m).
Proof.
  intros Hm Hkv. induction Hm as [| [k' v'] m' Hhd Htl IH]; simpl.
  - constructor; [assumption | constructor].
  - destruct (String.eqb k k'); constructor; assumption.
Qed.

Lemma truthy_string_has_text (o : option string) (s : string) :
  truthy_string o = Some s -> s <> "".
Proof.
  destruct o as [[| c t] |]; simpl; intros [= <-]. discriminate.
Qed.

Lemma is_empty_false (s : string) : is_empty s = false -> s <> "".
Proof. destruct s; [discriminate | intros _; discriminate]. Qed.

Lemma fetchPage_before_sitemap (url : string) (st : Analyzer) :
  before_sitemap st -> before_sitemap (snd (fetchPage env url st)).
Proof.
  unfold fetchPage. destruct (axios_get env url); exact (fun H => H).
Qed.

Lemma analyzePage_before_sitemap (url : string) (page : Page) (st : Analyzer) :
  before_sitemap st -> before_sitemap (analyzePage env url page st).
Proof.
  unfold analyzePage, add_keywords.
  destruct (analyzePageContent env (page_content page) url) as [[pa |] | e];
    try exact (fun H => H).
  split_ifs; exact (fun H => H).
Qed.

Lemma extractMetadata_texts (page : Page) (url : string) (st : Analyzer) :
  pagesTitles (extractMetadata env page url st)
    = (if is_empty (page_title page) then pagesTitles st
       else map_set url (page_title page) (pagesTitles st))
  /\ pagesDescriptions (extractMetadata env page url st)
    = match truthy_string (page_description page) with
      | Some d => map_set url d (pagesDescriptions st)
      | None => pagesDescriptions st
      end
  /\ pagesH1 (extractMetadata env page url st)
    = (if is_empty (page_h1 page) then pagesH1 st
       else map_set url (page_h1 page) (pagesH1 st))
  /\ urlsNotInSitemap (extractMetadata env page url st) = urlsNotInSitemap st
  /\ urlsInSitemapButNotCrawled (extractMetadata env page url st)
    = urlsInSitemapButNotCrawled st.
Proof.
  unfold extractMetadata. split_ifs; repeat split.
Qed.

Lemma extractMetadata_before_sitemap (page : Page) (url : string) (st : Analyzer) :
  before_sitemap st -> before_sitemap (extractMetadata env page url st).
Proof.
  intros (Ht & Hd & Hh & Hn & Hc).
  destruct (extractMetadata_texts page url st) as (Et & Ed & Eh & En & Ec).
  unfold before_sitemap. rewrite Et, Ed, Eh, En, Ec. repeat split; try assumption.
  - destruct (is_empty (page_title page)) eqn:E; [assumption |].
    apply map_set_Forall; [assumption | now apply is_empty_false].
  - destruct (truthy_string (page_description page)) as [d |] eqn:E; [| assumption].
    apply map_set_Forall; [assumption |]. exact (truthy_string_has_text _ _ E).
  - destruct (is_empty (page_h1 page)) eqn:E; [assumption |].
    apply map_set_Forall; [assumption | now apply is_empty_false].
Qed.

Lemma extractLinks_before_sitemap (page : Page) (url : string) (st : Analyzer) :
  before_sitemap st -> before_sitemap (snd (extractLinks env page url st)).
Proof.
  unfold extractLinks. destruct (scan_anchors env page url) as [[l i] e].
  exact (fun H => H).
Qed.

Lemma visit_page_before_sitemap (url : string) (st : Analyzer) :
  before_sitemap st -> before_sitemap (fst (visit_page env url st)).
Proof.
  intros H. unfold visit_page.
  pose proof (fetchPage_before_sitemap url (mark_visited url st) H) as Hf.
  destruct (fetchPage env url (mark_visited url st)) as [[html status] st1].
  simpl in Hf. destruct (negb (status =? 200)%Z || is_empty html); [exact Hf |].
  pose proof (extractLinks_before_sitemap (cheerio_load env html) url _
                (extractMetadata_before_sitemap (cheerio_load env html) url _
                   (analyzePage_before_sitemap url (cheerio_load env html) st1 Hf)))
    as He.
  destruct (extractLinks env (cheerio_load env html) url _) as [links st4].
  exact He.
Qed.

Lemma crawl_before_sitemap (fuel : nat) (url : string) (depth maxDepth : Z)
    (st st' : Analyzer) :
  before_sitemap st -> crawl env fuel url depth maxDepth st = Some st' ->
  before_sitemap st'.
Proof.
  intros H.
  apply (crawl_invariant env before_sitemap (fun _ _ => True) maxDepth); auto.
  - intros u s Hs. unfold shouldCrawl. destruct (isStaticResource u); exact Hs.
  - intros u d s Hs _ _ _ _. now apply visit_page_before_sitemap.
Qed.

Lemma flat_map_ext_Forall {A B : Type} (P : A -> Prop) (f g : A -> list B)
    (l : list A) :
  (forall a, P a -> f a = g a) -> Forall P l -> flat_map f l = flat_map g l.
Proof.
  intros Hfg Hl. induction Hl as [| a l' Ha Hl' IH]; simpl; [reflexivity |].
  now rewrite Hfg, IH.
Qed.

Lemma flat_map_none {A B : Type} (l : list A) :
  flat_map (fun _ : A => @nil B) l = [].
Proof. induction l as [| a l' IH]; simpl; auto. Qed.

(** At the point where [analyze] collects them, the issues are the
    length warnings and the broken-link count: the tests for a missing
    title, description or heading look at pages that have one, and the
    two sitemap sets are still empty. *)
Lemma collect_issues_before_sitemap (st : Analyzer) :
  before_sitemap st ->
  collect_issues st
  = flat_map title_length_issue (pagesTitles st)
    ++ flat_map description_length_issue (pagesDescriptions st)
    ++ broken_count_issue st.
Proof.
  intros (Ht & Hd & Hh & Hn & Hc). unfold collect_issues, broken_count_issue.
  rewrite Hn, Hc. simpl. rewrite !app_nil_r.
  rewrite (flat_map_ext_Forall has_text title_issue title_length_issue _) ;
    [| | assumption].
  2:{ intros [u t] Hut. unfold has_text in Hut. simpl in *.
      destruct t; [contradiction | reflexivity]. }
  rewrite (flat_map_ext_Forall has_text description_issue description_length_issue _);
    [| | assumption].
  2:{ intros [u t] Hut. unfold has_text in Hut. simpl in *.
      destruct t; [contradiction | reflexivity]. }
  rewrite (flat_map_ext_Forall has_text h1_issue (fun _ => []) _); [| | assumption].
  2:{ intros [u t] Hut. unfold has_text in Hut. simpl in *.
      destruct t; [contradiction | reflexivity]. }
  now rewrite flat_map_none.
Qed.

(** So it is for every site: the issues of a report never mention a
    missing title, description or heading, nor the sitemap. *)
Lemma analyze_issues (fuel : nat) (maxDepth : Z) (now : string)
    (report : Report) (st' : Analyzer) :
  analyze env fuel maxDepth now (new_analyzer env) = Some (Returned report, st') ->
  exists st,
    crawl env (crawl_fuel 0 maxDepth) (startUrl env) 0 maxDepth (new_analyzer env)
      = Some st
    /\ issues report
       = flat_map title_length_issue (pagesTitles st)
         ++ flat_map description_length_issue (pagesDescriptions st)
         ++ broken_count_issue st.
Proof.
  unfold analyze.
  destruct (crawl env (crawl_fuel 0 maxDepth) (startUrl env) 0 maxDepth
              (new_analyzer env)) as [st |] eqn:Hrun; [| discriminate].
  intros H. exists st. split; [reflexivity |].
  assert (Hst : before_sitemap st).
  { eapply crawl_before_sitemap; [| exact Hrun]. repeat split; constructor. }
  rewrite <- (collect_issues_before_sitemap st Hst).
  destruct (fetchSitemap env st) as [sitemapXml st1].
  destruct (match truthy_string sitemapXml with
            | Some xml =>
                match parseSitemap env fuel xml st1 with
                | Some (_, st'0) => Some st'0
                | None => None
                end
            | None => Some st1
            end) as [st2 |]; [| discriminate].
  destruct (generateReport env now (compareCrawlWithSitemap st2)) as [[r | e] st3];
    [| discriminate].
  injection H as <- _. reflexivity.
Qed.

End Issues.

(* ================================================================= *)
(** ** Every visited URL has one record and a recorded status *)

Definition visits_recorded (st : Analyzer) : Prop :=
  NoDup (visitedUrls st)
  /\ (forall u, In u (visitedUrls st) -> map_has u (statusCodes st) = true).

Section Records.

Variable env : Env.

Lemma map_has_set {V : Type} (u k : string) (v : V) (m : JSMap V) :
  u = k \/ map_has u m = true -> map_has u (map_set k v m) = true.
Proof.
  unfold map_has. destruct (String.eqb_spec u k) as [-> | Hne]; intros H.
  - now rewrite map_get_set_same.
  - rewrite map_get_set_other by assumption. destruct H; [contradiction | assumption].
Qed.

Lemma fetchPage_statusCodes (url : string) (st : Analyzer) :
  exists status,
    statusCodes (snd (fetchPage env url st)) = map_set url status (statusCodes st).
Proof.
  unfold fetchPage.
  destruct (axios_get env url) as [status data | status | message]; simpl; eauto.
Qed.

Lemma visit_page_statusCodes (url : string) (st : Analyzer) :
  exists status,
    statusCodes (fst (visit_page env url st)) = map_set url status (statusCodes st).
Proof.
  unfold visit_page.
  destruct (fetchPage_statusCodes url (mark_visited url st)) as [status Hf].
  exists status.
  destruct (fetchPage env url (mark_visited url st)) as [[html code] st1].
  simpl in Hf. destruct (negb (code =? 200)%Z || is_empty html); [exact Hf |].
  set (page := cheerio_load env html).
  pose proof (analyzePage_same_traversal env url page st1) as (_ & _ & _ & A & _).
  pose proof (extractMetadata_same_traversal env page url
                (analyzePage env url page st1)) as (_ & _ & _ & B & _).
  pose proof (extractLinks_same_traversal env page url
                (extractMetadata env page url (analyzePage env url page st1)))
    as (_ & _ & _ & C & _).
  destruct (extractLinks env page url _) as [links st4]. simpl in *. congruence.
Qed.

Lemma visits_recorded_visit (url : string) (st : Analyzer) :
  visits_recorded st -> visits_recorded (fst (visit_page env url st)).
Proof.
  intros [Hnd Hst].
  destruct (visit_page_traversal env url st) as (Hv & _ & _).
  destruct (visit_page_statusCodes url st) as [status Hs].
  unfold visits_recorded. rewrite Hv, Hs. split.
  - now apply set_add_NoDup.
  - intros u Hu. apply map_has_set. apply set_add_In in Hu.
    destruct Hu as [-> | Hu]; [now left | right; now apply Hst].
Qed.

(** After a crawl the visited URLs are distinct and each has a status
    in [statusCodes]: the report has one record for each, and the
    default of the status field is only reached through a recorded 0. *)
Lemma crawl_visits_recorded (fuel : nat) (url : string) (depth maxDepth : Z)
    (st' : Analyzer) :
  crawl env fuel url depth maxDepth (new_analyzer env) = Some st' ->
  visits_recorded st'
  /\ NoDup (map pm_url (map (page_record st') (visitedUrls st'))).
Proof.
  intros Hrun.
  assert (H : visits_recorded st').
  { apply (crawl_invariant env visits_recorded (fun _ _ => True) maxDepth)
      with (fuel := fuel) (url := url) (depth := depth) (st := new_analyzer env);
      auto.
    - intros u s Hs. unfold shouldCrawl. destruct (isStaticResource u); exact Hs.
    - intros u d s Hs _ _ _ _. now apply visits_recorded_visit.
    - split; [constructor | intros u []]. }
  split; [assumption |].
  rewrite map_map. simpl. rewrite map_id. apply H.
Qed.

End Records.

(* ================================================================= *)
(** ** The report *)

(** The state [generateReport] was given, apart from the trace. *)
Definition same_state (st st' : Analyzer) : Prop :=
  set_trace (trace st) st' = st.

Definition set_dateGenerated (now : string) (r : Report) : Report :=
  mkReport (r_baseUrl r) now (issues r) (crawlStats r) (sitemapStats r)
    (r_brokenLinks r) (pageMeta r) (r_staticResources r).

Definition is_string (value : Json) : bool :=
  match value with
  | JStr _ => true
  | _ => false
  end.

(** The page records that the template of the HTML report cannot
    render.  The page has a title or a description and one of the
    keywords of the analyzer is not a string (so that [analyzeKeywords]
    throws); or the [contentAnalysis] of its meta tags is truthy and one
    of the five lists is not an array of values that convert to strings;
    or its [aiSuggestions] are truthy and hold a title or a description
    that does not convert to a string. *)
Definition keyword_breaks (st : Analyzer) (page : PageMeta) : Prop :=
  (pm_title page <> "" \/ pm_description page <> "")
  /\ exists keyword, In keyword (keywords st) /\ is_string keyword = false.

Definition is_list (value : option Json) : Prop :=
  exists items, value = Some (JArr items) /\ forallb printable items = true.

Definition analysis_breaks (metaTags : MetaTags) : Prop :=
  exists value field,
    map_get "contentAnalysis" metaTags = Some value
    /\ meta_truthy value = true
    /\ In field SEOAIOptimizer.requiredFields
    /\ ~ is_list (meta_prop value field).

Definition suggestions_break (metaTags : MetaTags) : Prop :=
  exists value field text,
    map_get "aiSuggestions" metaTags = Some value
    /\ meta_truthy value = true
    /\ In field ["optimizedTitle"; "optimizedDescription"]
    /\ meta_prop value field = Some text
    /\ printable text = false.

Definition breaks_template (st : Analyzer) (page : PageMeta) : Prop :=
  keyword_breaks st page
  \/ analysis_breaks (pm_metaTags page)
  \/ suggestions_break (pm_metaTags page).

Section Template.

Variable env : Env.

Lemma forallb_false {A : Type} (f : A -> bool) (l : list A) :
  forallb f l = false <-> exists x, In x l /\ f x = false.
Proof.
  induction l as [| a l IH]; simpl.
  - split; [discriminate | intros (x & [] & _)].
  - destruct (f a) eqn:E; simpl.
    + rewrite IH. split.
      * intros (x & Hin & Hx). eauto.
      * intros (x & [<- | Hin] & Hx); [congruence | eauto].
    + split; [eauto | reflexivity].
Qed.

Lemma sort_keyword_thrown (textLower e : string) (l : list Json) :
  fold_left (sort_keyword env textLower) l (Thrown e) = Thrown e.
Proof. induction l as [| k l IH]; simpl; auto. Qed.

Lemma sort_keywords_strings (textLower : string) (l : list Json) :
  forallb is_string l = true ->
  forall acc, exists result,
    fold_left (sort_keyword env textLower) l (Returned acc) = Returned result.
Proof.
  induction l as [| k l IH]; simpl; intros Hall acc; [eauto |].
  apply andb_true_iff in Hall. destruct Hall as [Hk Hl].
  destruct acc as [found missing]. destruct k; try discriminate. simpl.
  destruct (includes textLower (lowerCase env s)); apply (IH Hl).
Qed.

Lemma sort_keywords_other (textLower : string) (l : list Json) :
  forallb is_string l = false ->
  forall acc, exists e, fold_left (sort_keyword env textLower) l acc = Thrown e.
Proof.
  induction l as [| k l IH]; simpl; intros Hall acc; [discriminate |].
  destruct (is_string k) eqn:Hk; simpl in Hall; [apply (IH Hall) |].
  destruct acc as [[found missing] | e]; simpl.
  - destruct k; try discriminate; rewrite sort_keyword_thrown; eauto.
  - rewrite sort_keyword_thrown. eauto.
Qed.

(** [analyzeKeywords] throws exactly when the text is not empty and some
    keyword is not a string. *)
Lemma analyzeKeywords_outcome (text : string) (st : Analyzer) :
  ((exists result, analyzeKeywords env text st = Returned result)
   /\ (text = "" \/ forall keyword, In keyword (keywords st) -> is_string keyword = true))
  \/ ((exists e, analyzeKeywords env text st = Thrown e)
      /\ text <> ""
      /\ exists keyword, In keyword (keywords st) /\ is_string keyword = false).
Proof.
  unfold analyzeKeywords. destruct text as [| c t]; simpl; [left; eauto |].
  destruct (forallb is_string (keywords st)) eqn:Hall.
  - left. split; [apply (sort_keywords_strings _ _ Hall) |].
    right. now apply forallb_forall.
  - right. split; [apply (sort_keywords_other _ _ Hall) |].
    split; [discriminate | now apply forallb_false].
Qed.

Lemma list_items_outcome (value : option Json) :
  (list_items value = Returned tt /\ is_list value)
  \/ ((exists e, list_items value = Thrown e) /\ ~ is_list value).
Proof.
  unfold list_items, is_list.
  destruct value as [[| b | z | s | items | fields] |];
    try solve [right; split; [eauto | intros (items' & [=] & _)]].
  destruct (forallb printable items) eqn:E.
  - left. eauto.
  - right. split; [eauto |]. intros (items' & [= <-] & H). congruence.
Qed.

Lemma analysis_section_outcome (metaTags : MetaTags) :
  (analysis_section metaTags = Returned tt /\ ~ analysis_breaks metaTags)
  \/ ((exists e, analysis_section metaTags = Thrown e) /\ analysis_breaks metaTags).
Proof.
  unfold analysis_section, analysis_breaks, contentAnalysis.
  destruct (map_get "contentAnalysis" metaTags) as [value |];
    [| left; split; [reflexivity | intros (v & f & [=] & _)]].
  destruct (meta_truthy value) eqn:Ht;
    [| left; split; [reflexivity | intros (v & f & [= <-] & H & _); congruence]].
  assert (Hbreak : forall field, In field SEOAIOptimizer.requiredFields ->
                     ~ is_list (meta_prop value field) ->
                     exists v f, Some value = Some v /\ meta_truthy v = true
                                 /\ In f SEOAIOptimizer.requiredFields /\ ~ is_list (meta_prop v f))
    by (intros field Hin Hno; exists value, field; auto).
  destruct (list_items_outcome (meta_prop value "mainKeywords")) as [[-> H1] | [[e ->] H1]];
    [| right; split; [simpl; eauto | apply (Hbreak "mainKeywords"); simpl; auto]].
  destruct (list_items_outcome (meta_prop value "longTailKeywords"))
    as [[-> H2] | [[e ->] H2]];
    [| right; split; [simpl; eauto | apply (Hbreak "longTailKeywords"); simpl; auto]].
  destruct (list_items_outcome (meta_prop value "relatedTopics"))
    as [[-> H3] | [[e ->] H3]];
    [| right; split; [simpl; eauto | apply (Hbreak "relatedTopics"); simpl; auto]].
  destruct (list_items_outcome (meta_prop value "contentStructure"))
    as [[-> H4] | [[e ->] H4]];
    [| right; split; [simpl; eauto | apply (Hbreak "contentStructure"); simpl; auto]].
  destruct (list_items_outcome (meta_prop value "seoSuggestions"))
    as [[-> H5] | [[e ->] H5]];
    [| right; split; [simpl; eauto | apply (Hbreak "seoSuggestions"); simpl; tauto]].
  left. split; [reflexivity |].
  intros (v & field & [= <-] & _ & Hin & Hno). simpl in Hin.
  repeat (destruct Hin as [<- | Hin]; [contradiction |]). contradiction.
Qed.

Lemma suggestion_line_outcome (metaTags : MetaTags) (name : string) :
  (suggestion_line metaTags name = Returned tt
   /\ forall value text,
        map_get "aiSuggestions" metaTags = Some value -> meta_truthy value = true ->
        meta_prop value name = Some text -> printable text = true)
  \/ ((exists e, suggestion_line metaTags name = Thrown e)
      /\ exists value text,
           map_get "aiSuggestions" metaTags = Some value /\ meta_truthy value = true
           /\ meta_prop value name = Some text /\ printable text = false).
Proof.
  unfold suggestion_line, aiSuggestions, interpolate.
  destruct (map_get "aiSuggestions" metaTags) as [value |];
    [| left; split; [reflexivity | discriminate]].
  destruct (meta_truthy value) eqn:Ht;
    [| left; split; [reflexivity | intros v t [= <-]; congruence]].
  destruct (meta_prop value name) as [text |] eqn:Hp;
    [| left; split; [reflexivity | intros v t [= <-] _; congruence]].
  destruct (printable text) eqn:Hc.
  - left. split; [reflexivity |]. intros v t [= <-] _. congruence.
  - right. split; [eauto |]. exists value, text. auto.
Qed.

(** The template renders a page record or throws on it, and it throws
    exactly on the records described by [breaks_template]. *)
Lemma page_section_outcome (st : Analyzer) (page : PageMeta) :
  (page_section env st page = Returned tt /\ ~ breaks_template st page)
  \/ ((exists e, page_section env st page = Thrown e) /\ breaks_template st page).
Proof.
  unfold page_section, breaks_template, keyword_breaks.
  destruct (analyzeKeywords_outcome (pm_title page) st)
    as [[[r1 ->] K1] | [[e ->] [Hne Hk]]];
    [| right; split; [simpl; eauto | left; auto]].
  destruct (analyzeKeywords_outcome (pm_description page) st)
    as [[[r2 ->] K2] | [[e ->] [Hne Hk]]];
    [| right; split; [simpl; eauto | left; auto]].
  assert (Hkeys : ~ ((pm_title page <> "" \/ pm_description page <> "")
                     /\ exists keyword, In keyword (keywords st)
                                        /\ is_string keyword = false)).
  { intros [Htext (k & Hin & Hk)].
    destruct K1 as [E1 | A1]; [| rewrite (A1 k Hin) in Hk; discriminate].
    destruct K2 as [E2 | A2]; [| rewrite (A2 k Hin) in Hk; discriminate].
    tauto. }
  destruct (analysis_section_outcome (pm_metaTags page)) as [[-> HA] | [[e ->] HA]];
    [| right; split; [simpl; eauto | auto]].
  destruct (suggestion_line_outcome (pm_metaTags page) "optimizedTitle")
    as [[-> HT] | [[e ->] (v & t & Hv & Ht & Hp & Hc)]];
    [| right; split; [simpl; eauto |];
       right; right; exists v, "optimizedTitle", t; simpl; repeat split; auto].
  destruct (suggestion_line_outcome (pm_metaTags page) "optimizedDescription")
    as [[-> HD] | [[e ->] (v & t & Hv & Ht & Hp & Hc)]];
    [| right; split; [simpl; eauto |];
       right; right; exists v, "optimizedDescription", t; simpl; repeat split; auto].
  left. split; [reflexivity |].
  intros [Hk | [Ha | (v & field & t & Hv & Ht & Hin & Hp & Hc)]];
    [contradiction | contradiction |].
  simpl in Hin. destruct Hin as [<- | [<- | []]].
  - rewrite (HT v t Hv Ht Hp) in Hc. discriminate.
  - rewrite (HD v t Hv Ht Hp) in Hc. discriminate.
Qed.

Lemma render_thrown (st : Analyzer) (e : string) (pages : list PageMeta) :
  fold_left (fun acc page => bind acc (fun _ => page_section env st page))
    pages (Thrown e) = Thrown e.
Proof. induction pages as [| page pages IH]; simpl; auto. Qed.

Lemma render_pages (st : Analyzer) (pages : list PageMeta) :
  (fold_left (fun acc page => bind acc (fun _ => page_section env st page))
     pages (Returned tt) = Returned tt
   /\ forall page, In page pages -> ~ breaks_template st page)
  \/ ((exists e,
         fold_left (fun acc page => bind acc (fun _ => page_section env st page))
           pages (Returned tt) = Thrown e)
      /\ exists page, In page pages /\ breaks_template st page).
Proof.
  induction pages as [| page pages IH]; simpl.
  - left. split; [reflexivity | intros page []].
  - destruct (page_section_outcome st page) as [[-> Hok] | [[e ->] Hbad]].
    + destruct IH as [[-> Hall] | [He (p & Hin & Hp)]].
      * left. split; [reflexivity |]. intros p [<- | Hin]; auto.
      * right. split; [exact He | eauto].
    + right. rewrite render_thrown. split; eauto.
Qed.

(** [generateReport] returns the report and writes both files, or it
    throws after writing the first. *)
Lemma generateReport_outcome (now : string) (st : Analyzer) :
  (generateReport env now st
   = (Returned (build_report env now st),
      log (EvWriteFile "seo-report.html") (log (EvWriteFile "seo-report.json") st))
   /\ forall page, In page (pageMeta (build_report env now st)) ->
                   ~ breaks_template st page)
  \/ ((exists e,
         generateReport env now st = (Thrown e, log (EvWriteFile "seo-report.json") st))
      /\ exists page, In page (pageMeta (build_report env now st))
                      /\ breaks_template st page).
Proof.
  unfold generateReport, generateHtmlReport, render.
  change (keywords (log (EvWriteFile "seo-report.json") st)) with (keywords st).
  destruct (render_pages (log (EvWriteFile "seo-report.json") st)
              (pageMeta (build_report env now st))) as [[-> Hall] | [[e ->] Hbad]].
  - left. split; [reflexivity | exact Hall].
  - right. split; [exists e; reflexivity | exact Hbad].
Qed.

End Template.

(** C6, as the code has it.  [generateReport] sends no HTTP request and
    changes nothing of the analyzer, but it is not free of file-system
    effects and not a function of the state alone.  It builds the report
    from the state and from the current time, which it stores in
    [dateGenerated] and which nothing else depends on, and writes it to
    [seo-report.json].  Then it builds the HTML report: when the template
    can render every page record, it writes [seo-report.html] and returns
    the report; when there is a page record that the template cannot
    render ([breaks_template]), it throws, with the first file written
    and the second not. *)
Theorem generateReport_effects (env : Env) (now : string) (st : Analyzer) :
  same_state st (snd (generateReport env now st))
  /\ fetched (trace (snd (generateReport env now st))) = fetched (trace st)
  /\ ((forall page, In page (pageMeta (build_report env now st)) ->
                    ~ breaks_template st page) ->
      generateReport env now st
      = (Returned (build_report env now st),
         log (EvWriteFile "seo-report.html")
           (log (EvWriteFile "seo-report.json") st)))
  /\ ((exists page, In page (pageMeta (build_report env now st))
                    /\ breaks_template st page) ->
      exists e,
        generateReport env now st
        = (Thrown e, log (EvWriteFile "seo-report.json") st))
  /\ ((forall page, In page (pageMeta (build_report env now st)) ->
                    ~ breaks_template st page)
      \/ (exists page, In page (pageMeta (build_report env now st))
                       /\ breaks_template st page))
  /\ (forall now',
        snd (generateReport env now' st) = snd (generateReport env now st)
        /\ fst (generateReport env now' st)
           = bind (fst (generateReport env now st))
               (fun report => Returned (set_dateGenerated now' report)))
  /\ (forall report,
        fst (generateReport env now st) = Returned report ->
        dateGenerated report = now).
Proof.
  assert (Hpages : forall now', pageMeta (build_report env now' st)
                                = pageMeta (build_report env now st)) by reflexivity.
  destruct (generateReport_outcome env now st) as [[Hrun Hall] | [[e Hrun] Hbad]].
  - rewrite Hrun. simpl. split; [now destruct st |]. split; [reflexivity |].
    split; [reflexivity |]. split.
    + intros (page & Hin & Hpage). now apply Hall in Hin.
    + split; [now left |]. split.
      * intros now'.
        destruct (generateReport_outcome env now' st) as [[Hrun' _] | [_ Hbad']].
        -- rewrite Hrun'. simpl. split; reflexivity.
        -- destruct Hbad' as (page & Hin & Hpage). rewrite Hpages in Hin.
           now apply Hall in Hin.
      * intros report [= <-]. reflexivity.
  - rewrite Hrun. simpl. split; [now destruct st |]. split; [reflexivity |].
    split.
    + intros Hall. destruct Hbad as (page & Hin & Hpage). now apply Hall in Hin.
    + split; [eauto |]. split; [now right |]. split; [| discriminate].
      intros now'. unfold generateReport, generateHtmlReport, render in *.
      rewrite Hpages.
      destruct (fold_left _ (pageMeta (build_report env now st)) (Returned tt))
        as [[] | e']; [discriminate |].
      injection Hrun as ->. split; reflexivity.
Qed.

(** [generateReport] writes to the file system, and the report it
    returns changes with the time at which it is called. *)
Lemma generateReport_writes_files_and_reads_clock :
  trace (snd (generateReport Sample.bare_site "2025-01-01T00:00:00.000Z"
                (new_analyzer Sample.bare_site)))
  = [EvWriteFile "seo-report.html"; EvWriteFile "seo-report.json"]
  /\ fst (generateReport Sample.bare_site "2025-01-01T00:00:00.000Z"
            (new_analyzer Sample.bare_site))
     <> fst (generateReport Sample.bare_site "2025-01-02T00:00:00.000Z"
               (new_analyzer Sample.bare_site)).
Proof.
  split; [reflexivity |]. intros H. vm_compute in H. discriminate.
Qed.

(** *** Page records *)

Lemma pageMeta_urls (env : Env) (now : string) (st : Analyzer) :
  map pm_url (pageMeta (build_report env now st)) = visitedUrls st.
Proof.
  simpl. rewrite map_map. simpl. apply map_id.
Qed.

(** One record per visited URL, in the order of the visits; each field
    is the recorded value or its default.  The status is the recorded
    code when that code is not 0. *)
Lemma pageMeta_records (env : Env) (now : string) (st : Analyzer) :
  length (pageMeta (build_report env now st)) = length (visitedUrls st)
  /\ (forall record, In record (pageMeta (build_report env now st)) ->
        In (pm_url record) (visitedUrls st)
        /\ record = page_record st (pm_url record))
  /\ (forall url status,
        map_get url (statusCodes st) = Some status -> status <> 0%Z ->
        pm_status (page_record st url) = StatusCode status).
Proof.
  simpl. split; [apply length_map |]. split.
  - intros record Hin. apply in_map_iff in Hin. destruct Hin as (url & <- & Hin).
    simpl. auto.
  - intros url status Hget Hne. unfold status_or_unknown. rewrite Hget.
    apply Z.eqb_neq in Hne. now rewrite Hne.
Qed.

(** C8 at the failing input.  The start page of the unreachable site
    cannot be fetched: [statusCodes] records the sentinel 0 for it, and
    its record in the report carries the string "unknown" instead. *)
Theorem transport_failure_reported_as_unknown :
  exists report st,
    analyze Sample.unreachable_site 1 10 "2025-01-01T00:00:00.000Z"
      (new_analyzer Sample.unreachable_site) = Some (Returned report, st)
    /\ visitedUrls st = [Sample.home]
    /\ map_get Sample.home (statusCodes st) = Some 0%Z
    /\ map pm_status (pageMeta report) = [StatusUnknown]
    /\ map bl_status (r_brokenLinks report) = [0%Z].
Proof.
  eexists. eexists. split; [vm_compute; reflexivity |].
  repeat split.
Qed.

(** The same holds in every state: a recorded status 0 is reported as
    "unknown". *)
Lemma status_zero_reported_as_unknown (st : Analyzer) (url : string) :
  map_get url (statusCodes st) = Some 0%Z ->
  pm_status (page_record st url) = StatusUnknown.
Proof.
  intros H. simpl. now rewrite H.
Qed.

(** *** Issues *)

(** C7 at the failing input.  The only page of the bare site has no
    title, no description and no heading, and the site has no sitemap:
    the report lists the page under the three headings and as missing
    from the sitemap, and its issues list is empty. *)
Theorem issues_miss_missing_fields_and_sitemap :
  exists report st,
    analyze Sample.bare_site 1 10 "2025-01-01T00:00:00.000Z"
      (new_analyzer Sample.bare_site) = Some (Returned report, st)
    /\ urlsWithoutTitle (crawlStats report) = [Sample.home]
    /\ urlsWithoutDescription (crawlStats report) = [Sample.home]
    /\ urlsWithoutH1 (crawlStats report) = [Sample.home]
    /\ ss_urlsNotInSitemap (sitemapStats report) = [Sample.home]
    /\ issues report = [].
Proof.
  eexists. eexists. split; [vm_compute; reflexivity |].
  repeat split.
Qed.

(* ================================================================= *)
(** ** Further properties of the traversal *)

(** The entry [fetchPage] pushes to [brokenLinks] for a URL, if any, and
    the status it records for it. *)
Definition broken_entry (env : Env) (url : string) : list BrokenLink :=
  match axios_get env url with
  | Resolved _ _ => []
  | RejectedWithResponse status => [mkBrokenLink url status None]
  | RejectedNoResponse message => [mkBrokenLink url 0 (Some message)]
  end.

Definition recorded_status (env : Env) (url : string) : Z :=
  match axios_get env url with
  | Resolved status _ => status
  | RejectedWithResponse status => status
  | RejectedNoResponse _ => 0%Z
  end.

(** The request for the URL gives a page to extract from. *)
Definition gives_page (env : Env) (url : string) : bool :=
  match axios_get env url with
  | Resolved status data => (status =? 200)%Z && negb (is_empty data)
  | _ => false
  end.

Section Runs.

Variable env : Env.

(** A run from a new analyzer returns and establishes every property
    that the new analyzer has and that the two steps of [crawl] keep. *)
Lemma crawl_from_new (I : Analyzer -> Prop) :
  I (new_analyzer env) ->
  (forall url st, I st -> I (snd (shouldCrawl url st))) ->
  (forall url st,
      I st -> set_has url (visitedUrls st) = false ->
      isStaticResource url = false -> I (fst (visit_page env url st))) ->
  forall url depth maxDepth,
  exists st',
    crawl env (crawl_fuel depth maxDepth) url depth maxDepth (new_analyzer env)
      = Some st'
    /\ I st'.
Proof.
  intros Hnew Hstatic Hvisit url depth maxDepth.
  destruct (crawl_enough_fuel env (crawl_fuel depth maxDepth) url depth maxDepth
              (new_analyzer env) (le_n _)) as [st' Hrun].
  exists st'. split; [assumption |].
  apply (crawl_invariant env I (fun _ _ => True) maxDepth)
    with (fuel := crawl_fuel depth maxDepth) (url := url) (depth := depth)
         (st := new_analyzer env); auto.
Qed.

Lemma set_add_fresh (x : string) (s : JSSet) :
  set_has x s = false -> set_add x s = s ++ [x].
Proof. intros H. unfold set_add. now rewrite H. Qed.

Lemma map_get_absent {V : Type} (f : string -> V) (k : string) (l : list string) :
  ~ In k l -> map_get k (map (fun u => (u, f u)) l) = None.
Proof.
  induction l as [| u l IH]; simpl; [reflexivity |]. intros Hn.
  destruct (String.eqb_spec k u) as [-> | Hne]; [tauto |]. apply IH. tauto.
Qed.

Lemma map_set_fresh {V : Type} (k : string) (v : V) (m : JSMap V) :
  map_get k m = None -> map_set k v m = m ++ [(k, v)].
Proof.
  induction m as [| [k' v'] m IH]; simpl; [reflexivity |].
  destruct (String.eqb k k'); [discriminate |]. intros H. now rewrite IH.
Qed.

(** What one visit appends to [brokenLinks] and sets in [statusCodes]. *)
Lemma visit_page_records (url : string) (st : Analyzer) :
  brokenLinks (fst (visit_page env url st)) = brokenLinks st ++ broken_entry env url
  /\ statusCodes (fst (visit_page env url st))
     = map_set url (recorded_status env url) (statusCodes st).
Proof.
  unfold visit_page.
  assert (Hf : brokenLinks (snd (fetchPage env url (mark_visited url st)))
               = brokenLinks st ++ broken_entry env url
               /\ statusCodes (snd (fetchPage env url (mark_visited url st)))
                  = map_set url (recorded_status env url) (statusCodes st)).
  { unfold fetchPage, broken_entry, recorded_status.
    destruct (axios_get env url); simpl; rewrite ?app_nil_r; split; reflexivity. }
  destruct (fetchPage env url (mark_visited url st)) as [[html code] st1].
  simpl in Hf. destruct (negb (code =? 200)%Z || is_empty html); [exact Hf |].
  set (page := cheerio_load env html).
  pose proof (analyzePage_same_traversal env url page st1) as (_ & _ & A3 & A4 & _).
  pose proof (extractMetadata_same_traversal env page url
                (analyzePage env url page st1)) as (_ & _ & B3 & B4 & _).
  pose proof (extractLinks_same_traversal env page url
                (extractMetadata env page url (analyzePage env url page st1)))
    as (_ & _ & C3 & C4 & _).
  destruct (extractLinks env page url _) as [links st4]. simpl in *.
  destruct Hf as [Hb Hs]. split; congruence.
Qed.

(** The request log, the broken links and the status codes are
    functions of the visited set. *)
Definition ledger (st : Analyzer) : Prop :=
  rev (fetched (trace st)) = visitedUrls st
  /\ NoDup (visitedUrls st)
  /\ brokenLinks st = flat_map (broken_entry env) (visitedUrls st)
  /\ statusCodes st = map (fun u => (u, recorded_status env u)) (visitedUrls st).

Lemma ledger_visit (url : string) (st : Analyzer) :
  ledger st -> set_has url (visitedUrls st) = false ->
  ledger (fst (visit_page env url st)).
Proof.
  intros (Hf & Hnd & Hb & Hs) Hnew.
  destruct (visit_page_traversal env url st) as (Hv & _ & Ht).
  destruct (visit_page_records url st) as (Hb' & Hs').
  unfold ledger. rewrite Hv, Ht, Hb', Hs', (set_add_fresh _ _ Hnew).
  simpl. rewrite Hf, flat_map_app, map_app, Hb, Hs. simpl. rewrite app_nil_r.
  repeat split.
  - apply NoDup_app; auto.
    + repeat constructor. simpl. tauto.
    + intros a Ha [<- | []]. now apply set_has_false in Hnew.
  - apply map_set_fresh. apply map_get_absent. now apply set_has_false.
Qed.

Lemma crawl_ledger (url : string) (depth maxDepth : Z) :
  exists st',
    crawl env (crawl_fuel depth maxDepth) url depth maxDepth (new_analyzer env)
      = Some st'
    /\ ledger st'.
Proof.
  apply (crawl_from_new ledger).
  - repeat split. constructor.
  - intros u s Hs. unfold shouldCrawl. destruct (isStaticResource u); exact Hs.
  - intros u s Hs Hnew _. now apply ledger_visit.
Qed.

End Runs.

(** X1.  In a run from a new analyzer every visited URL is requested
    exactly once, and the requests are made in the order in which the
    URLs enter the visited set. *)
Theorem every_visit_is_one_request (env : Env) (url : string) (depth maxDepth : Z) :
  exists st',
    crawl env (crawl_fuel depth maxDepth) url depth maxDepth (new_analyzer env)
      = Some st'
    /\ rev (fetched (trace st')) = visitedUrls st'
    /\ NoDup (visitedUrls st').
Proof.
  destruct (crawl_ledger env url depth maxDepth) as (st' & Hrun & Hf & Hnd & _).
  exists st'. auto.
Qed.

(** X2.  After a run from a new analyzer [brokenLinks] holds, in visit
    order, one entry for each visited URL whose request was rejected
    (with the HTTP status, or with 0 and the error message) and nothing
    else; [statusCodes] holds one status for each visited URL and nothing
    else. *)
Theorem broken_links_ledger (env : Env) (url : string) (depth maxDepth : Z) :
  exists st',
    crawl env (crawl_fuel depth maxDepth) url depth maxDepth (new_analyzer env)
      = Some st'
    /\ brokenLinks st' = flat_map (broken_entry env) (visitedUrls st')
    /\ statusCodes st'
       = map (fun u => (u, recorded_status env u)) (visitedUrls st').
Proof.
  destruct (crawl_ledger env url depth maxDepth) as (st' & Hrun & _ & _ & Hb & Hs).
  exists st'. auto.
Qed.

Example sample_broken_links_ledger :
  option_map (fun st => map bl_url (brokenLinks st))
    (crawl Sample.example_site 12 Sample.home 0 10
       (new_analyzer Sample.example_site))
  = Some ["https://example.test/missing"; "https://example.test/down"].
Proof. vm_compute. reflexivity. Qed.

(* ================================================================= *)
(** ** Where the traversal goes *)

Section Reach.

Variable env : Env.
Variable maxDepth : Z.

(** The rule of [crawl_invariant], with the depth and the URL of the
    call also known where a static resource is recorded. *)
Lemma crawl_invariant_at_depth (I : Analyzer -> Prop) (Q : Z -> string -> Prop) :
  (forall url depth st,
      I st -> Q depth url -> (depth <= maxDepth)%Z ->
      set_has url (visitedUrls st) = false -> isStaticResource url = true ->
      I (snd (shouldCrawl url st))) ->
  (forall url depth st,
      I st -> Q depth url -> (depth <= maxDepth)%Z ->
      set_has url (visitedUrls st) = false -> isStaticResource url = false ->
      I (fst (visit_page env url st))) ->
  (forall url depth v,
      Q depth url -> In v (page_links env url) -> Q (depth + 1)%Z v) ->
  forall fuel url depth st st',
    I st -> Q depth url ->
    crawl env fuel url depth maxDepth st = Some st' -> I st'.
Proof.
  intros Hstatic Hvisit Hstep fuel.
  induction fuel as [| fuel IH]; intros url depth st st' HI HQ; [discriminate |].
  rewrite crawl_unfold.
  destruct (depth >? maxDepth)%Z eqn:Hd; [now intros [= <-] |].
  apply gtb_false_le in Hd.
  destruct (set_has url (visitedUrls st)) eqn:Hvis; [now intros [= <-] |].
  destruct (isStaticResource url) eqn:Hs.
  - intros [= <-]. now apply Hstatic with (depth := depth).
  - pose proof (Hvisit url depth st HI HQ Hd Hvis Hs) as HI1.
    pose proof (visit_page_links env url st) as Hlinks.
    destruct (visit_page env url st) as [st1 [links |]]; simpl in *.
    + apply crawl_links_invariant; [| assumption].
      intros link s s' Hin Hint Hs'. apply IH; [assumption |].
      eapply Hstep; eauto.
    + now intros [= <-].
Qed.

Lemma link_path_internal (s v : string) (d : Z) :
  link_path env s d v -> v = s \/ isInternalUrl env v = true.
Proof.
  intros H. destruct H as [| d u v _ Hv]; [now left | right].
  unfold page_links in Hv.
  destruct (axios_get env u) as [status data | |]; try contradiction.
  destruct (negb (status =? 200)%Z || is_empty data); [contradiction |].
  destruct (scan_anchors env (cheerio_load env data) u) as [[l i] e].
  apply filter_In in Hv. tauto.
Qed.

(** [near v]: [v] ends a path of at most [maxDepth] links from the
    start URL. *)
Definition near (v : string) : Prop :=
  exists d, (0 <= d <= maxDepth)%Z /\ link_path env (startUrl env) d v.

(** The visited URLs and the recorded static resources are near the
    start URL; the former have no static extension, the latter have one
    and are listed once. *)
Definition charted (st : Analyzer) : Prop :=
  (forall v, In v (visitedUrls st) -> near v /\ isStaticResource v = false)
  /\ (forall v, In v (staticResources st) -> near v /\ isStaticResource v = true)
  /\ NoDup (staticResources st).

Lemma crawl_charted (fuel : nat) (st' : Analyzer) :
  crawl env fuel (startUrl env) 0 maxDepth (new_analyzer env) = Some st' ->
  charted st'.
Proof.
  apply (crawl_invariant_at_depth charted
           (fun d u => (0 <= d)%Z /\ link_path env (startUrl env) d u)).
  - intros url depth st (Hv & Hs & Hnd) [Hpos Hpath] Hd _ Hstatic.
    unfold shouldCrawl. rewrite Hstatic. simpl. repeat split; auto.
    + now apply Hv.
    + now apply Hv.
    + apply set_add_In in H. destruct H as [-> | H]; [| now apply Hs].
      exists depth. split; [lia | assumption].
    + apply set_add_In in H. destruct H as [-> | H]; [assumption | now apply Hs].
    + now apply set_add_NoDup.
  - intros url depth st (Hv & Hs & Hnd) [Hpos Hpath] Hd _ Hstatic.
    destruct (visit_page_traversal env url st) as (Ev & Es & _).
    unfold charted. rewrite Ev, Es. repeat split; auto.
    + apply set_add_In in H. destruct H as [-> | H]; [| now apply Hv].
      exists depth. split; [lia | assumption].
    + apply set_add_In in H. destruct H as [-> | H]; [assumption | now apply Hv].
    + now apply Hs.
    + now apply Hs.
  - intros u d v [Hd Hp] Hv. split; [lia |]. now apply path_step with (u := u).
  - repeat split; try contradiction. constructor.
  - split; [lia | constructor].
Qed.

End Reach.

(** X3.  In a run from the start URL, only the start URL and links that
    pass the internal test are ever requested: a URL recorded as an
    external link is not fetched unless it starts with the base URL. *)
Theorem only_internal_urls_are_fetched (env : Env) (maxDepth : Z) :
  exists st',
    crawl env (crawl_fuel 0 maxDepth) (startUrl env) 0 maxDepth (new_analyzer env)
      = Some st'
    /\ (forall v, In v (fetched (trace st')) ->
          v = startUrl env \/ isInternalUrl env v = true).
Proof.
  destruct (crawl_ledger env (startUrl env) 0 maxDepth) as (st' & Hrun & Hf & _).
  exists st'. split; [assumption |]. intros v Hv.
  apply in_rev in Hv. rewrite Hf in Hv.
  destruct (crawl_charted env maxDepth _ _ Hrun) as (Hvis & _).
  destruct (Hvis v Hv) as [(d & _ & Hpath) _].
  exact (link_path_internal env _ _ _ Hpath).
Qed.

(** X4.  After a run from the start URL, every entry of
    [staticResources] has one of the static extensions, is listed once,
    was found within [maxDepth] links of the start URL, is not in the
    visited set and has no status code, so that the report gives its
    status as "unknown". *)
Theorem static_resources_recorded (env : Env) (maxDepth : Z) (now : string) :
  exists st',
    crawl env (crawl_fuel 0 maxDepth) (startUrl env) 0 maxDepth (new_analyzer env)
      = Some st'
    /\ NoDup (staticResources st')
    /\ (forall v, In v (staticResources st') ->
          isStaticResource v = true
          /\ ~ In v (visitedUrls st')
          /\ map_get v (statusCodes st') = None
          /\ (exists d, (0 <= d <= maxDepth)%Z
                        /\ link_path env (startUrl env) d v))
    /\ (forall r, In r (r_staticResources (build_report env now st')) ->
          sr_status r = StatusUnknown).
Proof.
  destruct (crawl_ledger env (startUrl env) 0 maxDepth)
    as (st' & Hrun & _ & _ & _ & Hcodes).
  destruct (crawl_charted env maxDepth _ _ Hrun) as (Hvis & Hstat & Hnd).
  assert (Hfacts : forall v, In v (staticResources st') ->
            ~ In v (visitedUrls st') /\ map_get v (statusCodes st') = None).
  { intros v Hv. destruct (Hstat v Hv) as [_ Hs].
    assert (Hn : ~ In v (visitedUrls st')).
    { intros Hin. destruct (Hvis v Hin) as [_ Hc]. congruence. }
    split; [assumption |]. rewrite Hcodes. now apply map_get_absent. }
  exists st'. split; [assumption |]. split; [assumption |]. split.
  - intros v Hv. destruct (Hstat v Hv) as [Hnear Hs]. destruct (Hfacts v Hv).
    repeat split; assumption.
  - intros r Hr. simpl in Hr. apply in_map_iff in Hr.
    destruct Hr as (v & <- & Hv). simpl.
    destruct (Hfacts v Hv) as [_ ->]. reflexivity.
Qed.

(* ================================================================= *)
(** ** The URL classifier *)

Section Strings.

Lemma toLowerCase_app (a b : string) :
  toLowerCase (a ++ b) = (toLowerCase a ++ toLowerCase b)%string.
Proof. induction a as [| c a IH]; simpl; [reflexivity | now rewrite IH]. Qed.

Lemma lower_ascii_idempotent (c : ascii) : lower_ascii (lower_ascii c) = lower_ascii c.
Proof.
  unfold lower_ascii.
  destruct ((65 <=? nat_of_ascii c) && (nat_of_ascii c <=? 90))%nat eqn:E.
  - apply andb_prop in E. destruct E as [E1 E2].
    apply Nat.leb_le in E1. apply Nat.leb_le in E2.
    rewrite nat_ascii_embedding by lia.
    replace (nat_of_ascii c + 32 <=? 90)%nat with false
      by (symmetry; apply Nat.leb_gt; lia).
    now rewrite andb_false_r.
  - now rewrite E.
Qed.

Lemma toLowerCase_idempotent (s : string) : toLowerCase (toLowerCase s) = toLowerCase s.
Proof.
  induction s as [| c s IH]; simpl; [reflexivity |].
  now rewrite lower_ascii_idempotent, IH.
Qed.

Lemma string_length_app (a b : string) :
  String.length (a ++ b) = (String.length a + String.length b)%nat.
Proof. induction a as [| c a IH]; simpl; [reflexivity | now rewrite IH]. Qed.

Lemma str_drop_app (a b : string) : str_drop (String.length a) (a ++ b) = b.
Proof. induction a as [| c a IH]; simpl; [now destruct b | assumption]. Qed.

Lemma str_take_app (a b : string) : str_take (String.length a) (a ++ b) = a.
Proof.
  induction a as [| c a IH]; simpl; [now destruct b | now rewrite IH].
Qed.

Lemma endsWith_app (a b : string) : endsWith (a ++ b) b = true.
Proof.
  unfold endsWith. rewrite string_length_app.
  replace (String.length a + String.length b - String.length b)%nat
    with (String.length a) by lia.
  rewrite str_drop_app, String.eqb_refl, andb_true_r.
  apply Nat.leb_le. lia.
Qed.

Lemma startsWith_first (s p : string) (c : ascii) :
  startsWith s (String c p) = true -> exists t, s = String c t.
Proof.
  unfold startsWith. destruct s as [| d t]; simpl; [discriminate |].
  destruct (ascii_dec c d) as [-> | _]; [eauto | discriminate].
Qed.

End Strings.

(** X5.  A URL that ends with one of the sixteen extensions, in any
    letter case, is a static resource whatever comes before the
    extension; and the test does not depend on the letter case of the
    URL. *)
Theorem extension_makes_static (stem extension url : string) :
  In (toLowerCase extension) ignoreExtensions ->
  isStaticResource (stem ++ extension) = true
  /\ isStaticResource (toLowerCase url) = isStaticResource url.
Proof.
  intros Hin. unfold isStaticResource. split.
  - apply existsb_exists. exists (toLowerCase extension). split; [assumption |].
    rewrite toLowerCase_app. apply endsWith_app.
  - now rewrite toLowerCase_idempotent.
Qed.

Lemma extension_makes_static_witness :
  isStaticResource ("https://example.test/fonts/Inter" ++ ".WOFF2") = true
  /\ isStaticResource (toLowerCase "https://example.test/A.Pdf")
     = isStaticResource "https://example.test/A.Pdf".
Proof.
  apply (extension_makes_static "https://example.test/fonts/Inter" ".WOFF2"
           "https://example.test/A.Pdf").
  vm_compute. tauto.
Defined.

(** X6.  [normalizeUrl] hands back unchanged every link that starts
    with "http", without resolving it: it cannot fail on such a link, and
    normalizing its result again changes nothing. *)
Theorem normalizeUrl_keeps_absolute (env : Env) (link currentUrl otherUrl : string) :
  startsWith link "http" = true ->
  normalizeUrl env link currentUrl = Some link
  /\ (forall normalized,
        normalizeUrl env link currentUrl = Some normalized ->
        normalizeUrl env normalized otherUrl = Some normalized).
Proof.
  intros Hhttp.
  assert (Hpass : forall cur, normalizeUrl env link cur = Some link).
  { intros cur. unfold normalizeUrl. rewrite Hhttp.
    destruct (startsWith_first _ _ _ Hhttp) as [t ->]. reflexivity. }
  split; [apply Hpass |]. intros normalized Hn.
  rewrite Hpass in Hn. injection Hn as <-. apply Hpass.
Qed.

Lemma normalizeUrl_keeps_absolute_witness :
  normalizeUrl Sample.example_site "https://other.test/a b" Sample.home
    = Some "https://other.test/a b"
  /\ (forall normalized,
        normalizeUrl Sample.example_site "https://other.test/a b" Sample.home
          = Some normalized ->
        normalizeUrl Sample.example_site normalized "https://example.test/about"
          = Some normalized).
Proof.
  apply (normalizeUrl_keeps_absolute Sample.example_site "https://other.test/a b"
           Sample.home "https://example.test/about").
  reflexivity.
Defined.

(* ================================================================= *)
(** ** The links of one page *)

Section PageLinks.

Variable env : Env.

(** The link set holds what the two lists hold, once. *)
Definition sorted_out (count : nat) (acc : JSSet * list string * list string) : Prop :=
  let '(links, internal, external) := acc in
  NoDup links
  /\ (forall n, In n links <-> In n internal \/ In n external)
  /\ (length internal + length external <= count)%nat.

Lemma anchor_step_sorted_out (currentUrl : string) (href : option string)
    (count : nat) (acc : JSSet * list string * list string) :
  sorted_out count acc -> sorted_out (S count) (anchor_step env currentUrl acc href).
Proof.
  destruct acc as [[links internal] external]. intros (Hnd & Hin & Hlen).
  assert (Hsame : sorted_out (S count) (links, internal, external))
    by (repeat split; try apply Hin; auto).
  unfold anchor_step.
  destruct (truthy_string href) as [h |]; [| exact Hsame].
  destruct (startsWith h "#" || startsWith h "javascript:"
            || startsWith h "mailto:" || startsWith h "tel:"); [exact Hsame |].
  destruct (normalizeUrl env h currentUrl) as [n |]; [| exact Hsame].
  destruct (isInternalUrl env h); simpl; (split; [now apply set_add_NoDup |]);
    (split; [| rewrite length_app; simpl; lia]);
    intros m; rewrite set_add_In, Hin, !in_app_iff; simpl; intuition congruence.
Qed.

Lemma scan_sorted_out (currentUrl : string) (anchors : list (option string)) :
  forall count acc,
    sorted_out count acc ->
    sorted_out (length anchors + count)
      (fold_left (anchor_step env currentUrl) anchors acc).
Proof.
  induction anchors as [| href rest IH]; intros count acc H; simpl; [assumption |].
  replace (S (length rest + count)) with (length rest + S count)%nat by lia.
  apply IH. now apply anchor_step_sorted_out.
Qed.

End PageLinks.

(** X7.  [extractLinks] stores for the page a list of internal and a
    list of external links, and returns the set of the URLs of both:
    every returned link is in one of the two lists, every URL of the
    lists is returned, the returned set has no duplicate, and the two
    lists together are no longer than the anchors of the page. *)
Theorem extractLinks_sorts_every_link
    (env : Env) (page : Page) (currentUrl : string) (st : Analyzer) :
  exists internal external,
    map_get currentUrl (internalLinks (snd (extractLinks env page currentUrl st)))
      = Some internal
    /\ map_get currentUrl (externalLinks (snd (extractLinks env page currentUrl st)))
      = Some external
    /\ NoDup (fst (extractLinks env page currentUrl st))
    /\ (forall n, In n (fst (extractLinks env page currentUrl st))
                  <-> In n internal \/ In n external)
    /\ (length internal + length external <= length (page_anchors page))%nat.
Proof.
  assert (Hempty : sorted_out 0 ([], [], []))
    by (repeat split; simpl; try tauto; constructor).
  pose proof (scan_sorted_out env currentUrl (page_anchors page) 0 ([], [], [])
                Hempty) as H.
  unfold extractLinks. fold (scan_anchors env page currentUrl) in H.
  destruct (scan_anchors env page currentUrl) as [[links internal] external].
  exists internal, external. simpl.
  rewrite !map_get_set_same. rewrite Nat.add_0_r in H.
  destruct H as (Hnd & Hin & Hlen).
  repeat split; try apply Hin; assumption.
Qed.

Example home_page_links :
  fst (extractLinks Sample.example_site Sample.home_page Sample.home
         (new_analyzer Sample.example_site))
  = ["https://example.test/about"; "https://other.test/";
     "https://example.test/logo.png"; "https://example.test/team.html";
     "https://example.test/missing"; "https://example.test/down";
     "https://example.test/empty"; "https://example.test/created"].
Proof. vm_compute. reflexivity. Qed.

(* ================================================================= *)
(** ** Comparing the crawl with the sitemap *)

Section Compare.

(** One loop of [compareCrawlWithSitemap]: the elements of [l] that pass
    [keep] are added to the set [acc]. *)
Definition add_kept (keep : string -> bool) (l : list string) (acc : JSSet) : JSSet :=
  fold_left (fun acc u => if keep u then set_add u acc else acc) l acc.

Lemma add_kept_In (keep : string -> bool) (l : list string) :
  forall acc x,
    In x (add_kept keep l acc) <-> In x acc \/ (In x l /\ keep x = true).
Proof.
  unfold add_kept. induction l as [| u l IH]; intros acc x; simpl.
  - tauto.
  - rewrite IH. destruct (keep u) eqn:E.
    + rewrite set_add_In. intuition (subst; auto).
    + intuition (subst; congruence).
Qed.

Lemma add_kept_absorbed (keep : string -> bool) (l : list string) :
  forall acc,
    (forall x, In x l -> keep x = true -> In x acc) ->
    add_kept keep l acc = acc.
Proof.
  unfold add_kept. induction l as [| u l IH]; intros acc H; simpl; [reflexivity |].
  destruct (keep u) eqn:E.
  - unfold set_add.
    replace (set_has u acc) with true
      by (symmetry; apply set_has_In; apply H; [now left | assumption]).
    apply IH. intros x Hx. apply H. now right.
  - apply IH. intros x Hx. apply H. now right.
Qed.

Lemma add_kept_twice (keep : string -> bool) (l : list string) (acc : JSSet) :
  add_kept keep l (add_kept keep l acc) = add_kept keep l acc.
Proof.
  apply add_kept_absorbed. intros x Hx Hk. apply add_kept_In. auto.
Qed.

Lemma add_kept_filter (keep : string -> bool) (l : list string) :
  NoDup l -> add_kept keep l [] = filter keep l.
Proof.
  intros Hnd.
  assert (H : forall acc, (forall x, In x l -> ~ In x acc) ->
                          add_kept keep l acc = acc ++ filter keep l).
  { unfold add_kept. induction Hnd as [| u l Hu Hnd IH]; intros acc Hfresh; simpl.
    - now rewrite app_nil_r.
    - destruct (keep u) eqn:E.
      + rewrite set_add_fresh
          by (apply set_has_false; apply Hfresh; now left).
        rewrite IH.
        * now rewrite <- app_assoc.
        * intros x Hx Hin. apply in_app_iff in Hin.
          destruct Hin as [Hin | [<- | []]]; [| contradiction].
          apply (Hfresh x); [now right | assumption].
      + apply IH. intros x Hx. apply Hfresh. now right. }
  apply (H []). intros x _ [].
Qed.

Lemma compare_sets (st : Analyzer) :
  urlsNotInSitemap (compareCrawlWithSitemap st)
    = add_kept (fun u => negb (set_has u (sitemapUrls st))) (visitedUrls st)
        (urlsNotInSitemap st)
  /\ urlsInSitemapButNotCrawled (compareCrawlWithSitemap st)
    = add_kept (fun u => negb (set_has u (visitedUrls st))) (sitemapUrls st)
        (urlsInSitemapButNotCrawled st)
  /\ visitedUrls (compareCrawlWithSitemap st) = visitedUrls st
  /\ sitemapUrls (compareCrawlWithSitemap st) = sitemapUrls st.
Proof. repeat split. Qed.

End Compare.

(** X8.  [compareCrawlWithSitemap] adds to [urlsNotInSitemap] exactly
    the visited URLs that the sitemap does not list and to
    [urlsInSitemapButNotCrawled] exactly the listed URLs that were not
    visited, keeping what the two sets held; running it a second time
    changes nothing. *)
Theorem compareCrawlWithSitemap_differences (st : Analyzer) :
  (forall u, In u (urlsNotInSitemap (compareCrawlWithSitemap st)) <->
             In u (urlsNotInSitemap st)
             \/ (In u (visitedUrls st) /\ ~ In u (sitemapUrls st)))
  /\ (forall u, In u (urlsInSitemapButNotCrawled (compareCrawlWithSitemap st)) <->
                In u (urlsInSitemapButNotCrawled st)
                \/ (In u (sitemapUrls st) /\ ~ In u (visitedUrls st)))
  /\ compareCrawlWithSitemap (compareCrawlWithSitemap st)
     = compareCrawlWithSitemap st.
Proof.
  destruct (compare_sets st) as (HA & HB & _ & _). split; [| split].
  - intros u. rewrite HA, add_kept_In, negb_true_iff, set_has_false. tauto.
  - intros u. rewrite HB, add_kept_In, negb_true_iff, set_has_false. tauto.
  - clear HA HB. destruct st as [vis ? ? ? ? ? ? ? smap notIn notCrawled ? ? ? ? ? ?].
    unfold compareCrawlWithSitemap, set_urlsNotInSitemap,
      set_urlsInSitemapButNotCrawled. simpl. f_equal.
    + apply (add_kept_twice (fun u => negb (set_has u smap))).
    + apply (add_kept_twice (fun u => negb (set_has u vis))).
Qed.

(** The spec's own example: visited A, B, C against a sitemap B, C, D. *)
Example compare_three_against_three :
  let st :=
    compareCrawlWithSitemap
      (set_sitemapUrls ["B"; "C"; "D"]
         (set_visitedUrls ["A"; "B"; "C"] (new_analyzer Sample.bare_site))) in
  (urlsNotInSitemap st, urlsInSitemapButNotCrawled st) = (["A"], ["D"]).
Proof. reflexivity. Qed.

(* ================================================================= *)
(** ** What sitemap processing touches *)

(** The state without the sitemap URLs and without the trace. *)
Definition crawl_results (st : Analyzer) : Analyzer :=
  set_trace [] (set_sitemapUrls [] st).

Definition has_loc (entry : Entry) : bool :=
  match entry with
  | Some _ => true
  | None => false
  end.

Section SitemapFrame.

Variable env : Env.

Lemma add_locs_results (items : list Entry) :
  forall st,
    crawl_results (snd (add_locs items st)) = crawl_results st
    /\ (NoDup (sitemapUrls st) -> NoDup (sitemapUrls (snd (add_locs items st))))
    /\ incl (sitemapUrls st) (sitemapUrls (snd (add_locs items st)))
    /\ fst (add_locs items st) = forallb has_loc items.
Proof.
  induction items as [| [url |] rest IH]; intros st; simpl;
    try (repeat split; auto using incl_refl; fail).
  destruct (IH (set_sitemapUrls (set_add url (sitemapUrls st)) st))
    as (Hc & Hn & Hi & Hb).
  repeat split; [rewrite Hc; reflexivity | | | assumption].
  - intros Hnd. apply Hn. simpl. now apply set_add_NoDup.
  - eapply incl_tran; [apply set_add_incl | exact Hi].
Qed.

(** [kept st st']: from [st] to [st'] only [sitemapUrls] and the trace
    changed, and [sitemapUrls] kept its elements and stayed free of
    duplicates. *)
Definition kept (st st' : Analyzer) : Prop :=
  crawl_results st' = crawl_results st
  /\ (NoDup (sitemapUrls st) -> NoDup (sitemapUrls st'))
  /\ incl (sitemapUrls st) (sitemapUrls st').

Lemma kept_refl (st : Analyzer) : kept st st.
Proof. repeat split; auto using incl_refl. Qed.

Lemma kept_trans (st1 st2 st3 : Analyzer) :
  kept st1 st2 -> kept st2 st3 -> kept st1 st3.
Proof.
  intros (A & B & C) (D & E & F). repeat split; [congruence | auto |].
  eapply incl_tran; eauto.
Qed.

Lemma each_sitemap_kept (parse : string -> Analyzer -> option (bool * Analyzer)) :
  (forall xml st r st', parse xml st = Some (r, st') -> kept st st') ->
  forall sitemaps st st',
    each_sitemap env parse sitemaps st = Some st' -> kept st st'.
Proof.
  intros Hparse sitemaps.
  induction sitemaps as [| [sitemapUrl |] rest IH]; intros st st'; simpl.
  - intros [= <-]. apply kept_refl.
  - assert (Hlog : kept st (log (EvGet sitemapUrl) st))
      by (repeat split; auto using incl_refl).
    destruct (axios_get env sitemapUrl) as [status data | status | message].
    + destruct (parse data (log (EvGet sitemapUrl) st)) as [[r st1] |] eqn:Hp;
        [| discriminate].
      intros Hrest. apply kept_trans with (1 := Hlog).
      apply kept_trans with (st2 := st1); [eapply Hparse; eauto | now apply IH].
    + intros Hrest. apply kept_trans with (1 := Hlog). now apply IH.
    + intros Hrest. apply kept_trans with (1 := Hlog). now apply IH.
  - apply IH.
Qed.

Lemma parseSitemap_kept (fuel : nat) :
  forall xml st r st',
    parseSitemap env fuel xml st = Some (r, st') -> kept st st'.
Proof.
  induction fuel as [| fuel IH]; intros xml st r st'; [discriminate |]. simpl.
  destruct (parseString env xml) as [[[sitemaps |] | [items |] |] |].
  - destruct (each_sitemap env (parseSitemap env fuel) sitemaps st) as [st1 |] eqn:E;
      [| discriminate].
    intros [= <- <-]. exact (each_sitemap_kept _ IH _ _ _ E).
  - intros [= <- <-]. apply kept_refl.
  - simpl. destruct (add_locs_results items st) as (Hc & Hn & Hi & _).
    destruct (add_locs items st) as [b st1]. intros [= <- <-].
    repeat split; assumption.
  - intros [= <- <-]. apply kept_refl.
  - intros [= <- <-]. apply kept_refl.
  - intros [= <- <-]. apply kept_refl.
Qed.

End SitemapFrame.

(** X9.  Whenever [parseSitemap] returns, at any nesting of indexes and
    whichever of its fetches or documents fail, it has changed nothing of
    the analyzer but [sitemapUrls] (and the request log): the results of
    the crawl are as they were, and [sitemapUrls] has kept its elements
    and has no duplicate if it had none. *)
Theorem parseSitemap_touches_sitemapUrls_only
    (env : Env) (fuel : nat) (xml : string) (st st' : Analyzer) (resolved : bool) :
  parseSitemap env fuel xml st = Some (resolved, st') ->
  crawl_results st' = crawl_results st
  /\ (NoDup (sitemapUrls st) -> NoDup (sitemapUrls st'))
  /\ incl (sitemapUrls st) (sitemapUrls st').
Proof. apply parseSitemap_kept. Qed.

Lemma parseSitemap_touches_sitemapUrls_only_witness :
  crawl_results
    (set_sitemapUrls
       ["https://example.test/"; "https://example.test/about";
        "https://example.test/contact"]
       (new_analyzer Sample.example_site))
  = crawl_results (new_analyzer Sample.example_site)
  /\ (NoDup (sitemapUrls (new_analyzer Sample.example_site)) ->
      NoDup ["https://example.test/"; "https://example.test/about";
             "https://example.test/contact"])
  /\ incl (sitemapUrls (new_analyzer Sample.example_site))
       ["https://example.test/"; "https://example.test/about";
        "https://example.test/contact"].
Proof.
  apply (parseSitemap_touches_sitemapUrls_only Sample.example_site 1 "<pages>"
           (new_analyzer Sample.example_site)
           (set_sitemapUrls
              ["https://example.test/"; "https://example.test/about";
               "https://example.test/contact"]
              (new_analyzer Sample.example_site))
           true).
  vm_compute. reflexivity.
Defined.

(** X10.  [parseSitemap] on a document that is no sitemap index.  It
    rejects, and leaves the analyzer as it is, when the document cannot
    be parsed and when the result has neither a truthy [sitemapindex] nor
    a truthy [urlset] (another root element, or a [urlset] element with
    neither child nor attribute, which xml2js renders as the empty
    string).  On a [urlset] object without [url] entries it resolves and
    changes nothing.  On one with entries it resolves exactly when every
    entry has a [loc]; when one has none it rejects, and the URLs listed
    before that entry have been added all the same. *)
Theorem urlset_without_loc_rejects
    (env : Env) (fuel : nat) (xml : string) (st : Analyzer) :
  match parseString env xml with
  | None => parseSitemap env (S fuel) xml st = Some (false, st)
  | Some OtherRoot => parseSitemap env (S fuel) xml st = Some (false, st)
  | Some (Urlset None) => parseSitemap env (S fuel) xml st = Some (true, st)
  | Some (Urlset (Some items)) =>
      exists st',
        parseSitemap env (S fuel) xml st = Some (forallb has_loc items, st')
        /\ sitemapUrls st' = add_all (locs_until_gap items) (sitemapUrls st)
        /\ crawl_results st' = crawl_results st
  | Some (Sitemapindex None) => parseSitemap env (S fuel) xml st = Some (true, st)
  | Some (Sitemapindex (Some sitemaps)) =>
      parseSitemap env (S fuel) xml st
      = option_map (fun st' => (true, st'))
          (each_sitemap env (parseSitemap env fuel) sitemaps st)
  end.
Proof.
  simpl.
  destruct (parseString env xml) as [[[sitemaps |] | [items |] |] |];
    try reflexivity.
  exists (snd (add_locs items st)). simpl.
  destruct (add_locs_results items st) as (Hc & _ & _ & Hb).
  pose proof (add_locs_urls items st) as Hu.
  destruct (add_locs items st) as [b st1]. simpl in *. subst b. auto.
Qed.

(** A site whose sitemap has an entry without [loc] between two
    entries with one. *)
Definition gapped_site : Env :=
  Sample.site Sample.home
    [("https://example.test/sitemap.xml", Resolved 200 "<gapped>")] []
    [("<gapped>",
      Urlset (Some [Some "https://example.test/a"; None;
                    Some "https://example.test/b"]))].

Example gapped_sitemap_result :
  option_map (fun r => (fst r, sitemapUrls (snd r)))
    (parseSitemap gapped_site 1 "<gapped>" (new_analyzer gapped_site))
  = Some (false, ["https://example.test/a"]).
Proof. vm_compute. reflexivity. Qed.

(* ================================================================= *)
(** ** The whole analysis *)

(** The sitemap step of [analyze]: fetch, and parse what was fetched. *)
Definition sitemap_step (env : Env) (fuel : nat) (st : Analyzer) : option Analyzer :=
  let (sitemapXml, st) := fetchSitemap env st in
  match truthy_string sitemapXml with
  | Some xml =>
      match parseSitemap env fuel xml st with
      | Some (_, st') => Some st'
      | None => None
      end
  | None => Some st
  end.

(** The last steps of [analyze]: compare, report, PDF. *)
Definition finish (env : Env) (now : string) (issues : list string) (st : Analyzer)
  : Outcome Report * Analyzer :=
  match generateReport env now (compareCrawlWithSitemap st) with
  | (Thrown e, st) => (Thrown e, st)
  | (Returned report, st) =>
      (Returned (set_issues issues report), generatePdfReport env st)
  end.

(** The sitemap of the site, if it has one, nests at most [d] deep. *)
Definition sitemap_nests (env : Env) (d : nat) : Prop :=
  forall status data,
    axios_get env (baseUrl env ++ "/sitemap.xml")%string = Resolved status data ->
    nesting env d data.

Section Analysis.

Variable env : Env.

Lemma analyze_unfold (fuel : nat) (maxDepth : Z) (now : string) (st : Analyzer) :
  analyze env fuel maxDepth now st =
  match crawl env (crawl_fuel 0 maxDepth) (startUrl env) 0 maxDepth st with
  | None => None
  | Some st1 =>
      match sitemap_step env fuel st1 with
      | None => None
      | Some st3 => Some (finish env now (collect_issues st1) st3)
      end
  end.
Proof.
  unfold analyze, sitemap_step, finish.
  destruct (crawl env (crawl_fuel 0 maxDepth) (startUrl env) 0 maxDepth st)
    as [st1 |]; [| reflexivity].
  destruct (fetchSitemap env st1) as [sitemapXml st2].
  destruct (truthy_string sitemapXml) as [xml |].
  - destruct (parseSitemap env fuel xml st2) as [[r st3] |]; [| reflexivity].
    now destruct (generateReport env now (compareCrawlWithSitemap st3)) as [[r' | e] st4].
  - now destruct (generateReport env now (compareCrawlWithSitemap st2)) as [[r' | e] st4].
Qed.

Lemma truthy_string_Some (o : option string) (s : string) :
  truthy_string o = Some s -> o = Some s.
Proof. destruct o as [[| c t] |]; simpl; congruence. Qed.

Lemma sitemap_step_returns (d : nat) (st : Analyzer) :
  sitemap_nests env d ->
  exists st3,
    (forall fuel, (d < fuel)%nat -> sitemap_step env fuel st = Some st3)
    /\ kept st st3.
Proof.
  intros Hnest. unfold sitemap_step, fetchSitemap.
  set (sitemapUrl := (baseUrl env ++ "/sitemap.xml")%string).
  assert (Hlog : kept st (log (EvGet sitemapUrl) st))
    by (repeat split; auto using incl_refl).
  destruct (axios_get env sitemapUrl) as [status data | status | message] eqn:Hget;
    try (exists (log (EvGet sitemapUrl) st); split; [reflexivity | assumption]).
  destruct (truthy_string (Some data)) as [xml |] eqn:Hxml;
    [| exists (log (EvGet sitemapUrl) st); split; [reflexivity | assumption]].
  apply truthy_string_Some in Hxml. injection Hxml as <-.
  destruct (parseSitemap_flat env d data (log (EvGet sitemapUrl) st)
              (Hnest status data Hget)) as (r & st3 & Hrun & _).
  exists st3. split.
  - intros fuel Hfuel. now rewrite (Hrun fuel Hfuel).
  - apply kept_trans with (1 := Hlog).
    exact (parseSitemap_kept env (S d) _ _ _ _ (Hrun (S d) (Nat.lt_succ_diag_r d))).
Qed.

Lemma visit_page_sitemapUrls (url : string) (st : Analyzer) :
  sitemapUrls (fst (visit_page env url st)) = sitemapUrls st.
Proof.
  unfold visit_page.
  assert (Hf : sitemapUrls (snd (fetchPage env url (mark_visited url st)))
               = sitemapUrls st)
    by (unfold fetchPage; destruct (axios_get env url); reflexivity).
  destruct (fetchPage env url (mark_visited url st)) as [[html code] st1].
  simpl in Hf. destruct (negb (code =? 200)%Z || is_empty html); [exact Hf |].
  set (page := cheerio_load env html).
  assert (Ha : sitemapUrls (analyzePage env url page st1) = sitemapUrls st1).
  { unfold analyzePage, add_keywords.
    destruct (analyzePageContent env (page_content page) url) as [[pa |] | e];
      try reflexivity.
    split_ifs; reflexivity. }
  assert (Hm : forall s, sitemapUrls (extractMetadata env page url s) = sitemapUrls s)
    by (intros s; unfold extractMetadata; split_ifs; reflexivity).
  assert (Hl : forall s, sitemapUrls (snd (extractLinks env page url s)) = sitemapUrls s).
  { intros s. unfold extractLinks.
    destruct (scan_anchors env page url) as [[l i] e]. reflexivity. }
  specialize (Hl (extractMetadata env page url (analyzePage env url page st1))).
  destruct (extractLinks env page url _) as [links st4]. simpl in *.
  now rewrite Hl, Hm, Ha.
Qed.

(** After the crawl of [analyze] the visited set has no duplicate and
    the three sitemap sets are empty. *)
Lemma crawl_ready_for_sitemap (maxDepth : Z) :
  exists st1,
    crawl env (crawl_fuel 0 maxDepth) (startUrl env) 0 maxDepth (new_analyzer env)
      = Some st1
    /\ NoDup (visitedUrls st1)
    /\ sitemapUrls st1 = []
    /\ urlsNotInSitemap st1 = []
    /\ urlsInSitemapButNotCrawled st1 = [].
Proof.
  destruct (crawl_ledger env (startUrl env) 0 maxDepth) as (st1 & Hrun & _ & Hnd & _).
  exists st1. split; [assumption |]. split; [assumption |].
  assert (Hb : before_sitemap st1).
  { eapply crawl_before_sitemap; [| exact Hrun]. repeat split; constructor. }
  destruct Hb as (_ & _ & _ & HA & HB). repeat split; try assumption.
  apply (crawl_invariant env (fun s => sitemapUrls s = []) (fun _ _ => True) maxDepth)
    with (fuel := crawl_fuel 0 maxDepth) (url := startUrl env) (depth := 0%Z)
         (st := new_analyzer env); auto.
  - intros u s Hs. unfold shouldCrawl. destruct (isStaticResource u); exact Hs.
  - intros u dd s Hs _ _ _ _. now rewrite visit_page_sitemapUrls.
Qed.

Lemma generatePdfReport_fields (st : Analyzer) :
  set_trace (trace st) (generatePdfReport env st) = st.
Proof.
  unfold generatePdfReport. destruct (pdf_rendering_succeeds env); now destruct st.
Qed.

(** When the last steps return a report, it is the report built from the
    state after the comparison, with the issues collected before. *)
Lemma finish_fields (now : string) (found : list string) (st3 st : Analyzer)
    (report : Report) :
  finish env now found st3 = (Returned report, st) ->
  report = set_issues found (build_report env now (compareCrawlWithSitemap st3))
  /\ visitedUrls st = visitedUrls st3
  /\ sitemapUrls st = sitemapUrls st3.
Proof.
  unfold finish.
  destruct (generateReport_outcome env now (compareCrawlWithSitemap st3))
    as [[-> _] | [[e ->] _]]; [| discriminate].
  intros [= <- <-]. split; [reflexivity |].
  unfold generatePdfReport. destruct (pdf_rendering_succeeds env); split; reflexivity.
Qed.

(** The steps behind a report that [analyze] returns. *)
Lemma analyze_returned (fuel : nat) (maxDepth : Z) (now : string)
    (report : Report) (st : Analyzer) :
  analyze env fuel maxDepth now (new_analyzer env) = Some (Returned report, st) ->
  exists st1 st3,
    crawl env (crawl_fuel 0 maxDepth) (startUrl env) 0 maxDepth (new_analyzer env)
      = Some st1
    /\ sitemap_step env fuel st1 = Some st3
    /\ finish env now (collect_issues st1) st3 = (Returned report, st).
Proof.
  rewrite analyze_unfold.
  destruct (crawl env (crawl_fuel 0 maxDepth) (startUrl env) 0 maxDepth
              (new_analyzer env)) as [st1 |]; [| discriminate].
  destruct (sitemap_step env fuel st1) as [st3 |] eqn:Hstep; [| discriminate].
  intros H. exists st1, st3. split; [reflexivity |]. split; [assumption |].
  now injection H.
Qed.

(** With a sitemap that nests finitely deep, [analyze] settles: it
    returns a report or throws, the same for every bound above the
    depth. *)
Lemma analyze_settles (d : nat) (maxDepth : Z) (now : string) :
  sitemap_nests env d ->
  exists outcome st,
    forall fuel, (d < fuel)%nat ->
      analyze env fuel maxDepth now (new_analyzer env) = Some (outcome, st).
Proof.
  intros Hnest.
  destruct (crawl_ready_for_sitemap maxDepth) as (st1 & Hrun & _).
  destruct (sitemap_step_returns d st1 Hnest) as (st3 & Hstep & _).
  exists (fst (finish env now (collect_issues st1) st3)),
         (snd (finish env now (collect_issues st1) st3)).
  intros fuel Hfuel. rewrite analyze_unfold, Hrun, (Hstep fuel Hfuel).
  now destruct (finish env now (collect_issues st1) st3).
Qed.

Lemma sitemap_step_kept (fuel : nat) (st st3 : Analyzer) :
  sitemap_step env fuel st = Some st3 -> kept st st3.
Proof.
  unfold sitemap_step, fetchSitemap.
  set (sitemapUrl := (baseUrl env ++ "/sitemap.xml")%string).
  assert (Hlog : kept st (log (EvGet sitemapUrl) st))
    by (repeat split; auto using incl_refl).
  destruct (axios_get env sitemapUrl) as [status data | status | message];
    try (intros [= <-]; exact Hlog).
  destruct (truthy_string (Some data)) as [xml |]; [| intros [= <-]; exact Hlog].
  destruct (parseSitemap env fuel xml (log (EvGet sitemapUrl) st)) as [[r st'] |] eqn:E;
    [| discriminate].
  intros [= <-]. apply kept_trans with (1 := Hlog).
  exact (parseSitemap_kept env fuel _ _ _ _ E).
Qed.

End Analysis.

(** X11.  In every report that [analyze] returns on a new analyzer,
    [urlsNotInSitemap] is the list of the visited URLs that the sitemap
    does not list, in visit order, [urlsInSitemapButNotCrawled] is the
    list of the sitemap URLs that were not visited, in sitemap order, and
    the two counts are the sizes of the two sets. *)
Theorem analyze_reports_both_differences
    (env : Env) (fuel : nat) (maxDepth : Z) (now : string)
    (report : Report) (st : Analyzer) :
  analyze env fuel maxDepth now (new_analyzer env) = Some (Returned report, st) ->
  ss_urlsNotInSitemap (sitemapStats report)
  = filter (fun u => negb (set_has u (sitemapUrls st))) (visitedUrls st)
  /\ ss_urlsInSitemapButNotCrawled (sitemapStats report)
     = filter (fun u => negb (set_has u (visitedUrls st))) (sitemapUrls st)
  /\ totalUrlsCrawled (crawlStats report) = length (visitedUrls st)
  /\ totalUrlsInSitemap (sitemapStats report) = length (sitemapUrls st).
Proof.
  intros Hrun. apply analyze_returned in Hrun.
  destruct Hrun as (st1 & st3 & Hcrawl & Hstep & Hfinish).
  destruct (crawl_ready_for_sitemap env maxDepth)
    as (st1' & Hrun & Hnd & Hsm & HA & HB).
  rewrite Hcrawl in Hrun. injection Hrun as <-.
  destruct (sitemap_step_kept env fuel st1 st3 Hstep) as (Hkept & Hnd3 & _).
  assert (Hv : visitedUrls st3 = visitedUrls st1)
    by exact (f_equal visitedUrls Hkept).
  assert (HA3 : urlsNotInSitemap st3 = [])
    by (rewrite <- HA; exact (f_equal urlsNotInSitemap Hkept)).
  assert (HB3 : urlsInSitemapButNotCrawled st3 = [])
    by (rewrite <- HB; exact (f_equal urlsInSitemapButNotCrawled Hkept)).
  rewrite Hsm in Hnd3. specialize (Hnd3 (NoDup_nil _)).
  rewrite <- Hv in Hnd.
  destruct (compare_sets st3) as (EA & EB & _ & _).
  rewrite HA3, add_kept_filter in EA by assumption.
  rewrite HB3, add_kept_filter in EB by assumption.
  destruct (finish_fields env now (collect_issues st1) st3 st report Hfinish)
    as (-> & -> & ->).
  change (urlsNotInSitemap (compareCrawlWithSitemap st3)
          = filter (fun u => negb (set_has u (sitemapUrls st3))) (visitedUrls st3)
          /\ urlsInSitemapButNotCrawled (compareCrawlWithSitemap st3)
            = filter (fun u => negb (set_has u (visitedUrls st3))) (sitemapUrls st3)
          /\ length (visitedUrls (compareCrawlWithSitemap st3))
            = length (visitedUrls st3)
          /\ length (sitemapUrls (compareCrawlWithSitemap st3))
            = length (sitemapUrls st3)).
  rewrite EA, EB. repeat split.
Qed.

Lemma sample_sitemap_nests : sitemap_nests Sample.example_site 1.
Proof.
  intros status data Hget. vm_compute in Hget. injection Hget as <- <-.
  exact sample_index_nesting.
Defined.

Lemma analyze_reports_both_differences_witness :
  exists report st,
    analyze Sample.example_site 2 10 "2025-01-01T00:00:00.000Z"
      (new_analyzer Sample.example_site) = Some (Returned report, st)
    /\ ss_urlsNotInSitemap (sitemapStats report)
       = filter (fun u => negb (set_has u (sitemapUrls st))) (visitedUrls st)
    /\ ss_urlsInSitemapButNotCrawled (sitemapStats report)
       = filter (fun u => negb (set_has u (visitedUrls st))) (sitemapUrls st)
    /\ totalUrlsCrawled (crawlStats report) = length (visitedUrls st)
    /\ totalUrlsInSitemap (sitemapStats report) = length (sitemapUrls st).
Proof.
  eexists. eexists. split; [vm_compute; reflexivity |].
  apply (analyze_reports_both_differences Sample.example_site 2 10
           "2025-01-01T00:00:00.000Z").
  vm_compute. reflexivity.
Defined.

Example sample_report_differences :
  option_map
    (fun r => bind (fst r)
                (fun report =>
                   Returned (ss_urlsNotInSitemap (sitemapStats report),
                             ss_urlsInSitemapButNotCrawled (sitemapStats report))))
    (analyze Sample.example_site 2 1 "2025-01-01T00:00:00.000Z"
       (new_analyzer Sample.example_site))
  = Some (Returned (["https://example.test/team.html"; "https://example.test/missing";
           "https://example.test/down"; "https://example.test/empty";
           "https://example.test/created"],
          ["https://example.test/contact"; "https://example.test/blog"])).
Proof. vm_compute. reflexivity. Qed.

(* ================================================================= *)
(** ** SEOAIOptimizer: what the methods return *)

Section JsonCleaning.

Variable env : SEOAIOptimizer.Env.

Lemma indexOf_app (c : ascii) (a b : string) :
  indexOf c a = None -> indexOf c (a ++ String c b) = Some (String.length a).
Proof.
  induction a as [| d a IH]; simpl.
  - now rewrite Ascii.eqb_refl.
  - destruct (Ascii.eqb c d); [discriminate |].
    destruct (indexOf c a); [discriminate |]. intros _. now rewrite IH.
Qed.

Lemma lastIndexOf_app (c : ascii) (a b : string) :
  lastIndexOf c b = None -> lastIndexOf c (a ++ String c b) = Some (String.length a).
Proof.
  intros Hb. induction a as [| d a IH]; simpl.
  - now rewrite Hb, Ascii.eqb_refl.
  - now rewrite IH.
Qed.

Lemma try_catch_rethrow {A : Type} (m : Outcome A) :
  try_catch m (fun e => Thrown e) = m.
Proof. now destruct m. Qed.

End JsonCleaning.

(** X12.  [cleanAndParseJSON] hands to [JSON.parse] exactly the text
    from the first opening brace to the last closing brace: whatever
    stands before and after is dropped, and the result, value or error,
    is that of [JSON.parse] on the part kept. *)
Theorem cleanAndParseJSON_keeps_the_braces
    (env : SEOAIOptimizer.Env) (before inside after : string) :
  indexOf "{" before = None ->
  lastIndexOf "}" after = None ->
  SEOAIOptimizer.cleanAndParseJSON env
    (before ++ "{" ++ inside ++ "}" ++ after)
  = SEOAIOptimizer.JSON_parse env ("{" ++ inside ++ "}").
Proof.
  intros Hb Ha. unfold SEOAIOptimizer.cleanAndParseJSON.
  rewrite try_catch_rethrow.
  change (before ++ "{" ++ inside ++ "}" ++ after)%string
    with (before ++ String "{" (inside ++ String "}" after))%string.
  rewrite (indexOf_app "{" before _ Hb), str_drop_app.
  change (String "{" (inside ++ String "}" after))
    with (String "{" inside ++ String "}" after)%string.
  rewrite (lastIndexOf_app "}" (String "{" inside) after Ha).
  replace (String "{" inside ++ String "}" after)%string
    with ((String "{" inside ++ "}") ++ after)%string
    by (simpl; f_equal; induction inside as [| c t IH]; simpl;
        [reflexivity | now rewrite IH]).
  replace (String.length (String "{" inside) + 1)%nat
    with (String.length (String "{" inside ++ "}"))
    by (rewrite string_length_app; reflexivity).
  now rewrite str_take_app.
Qed.

Lemma cleanAndParseJSON_keeps_the_braces_witness :
  SEOAIOptimizer.cleanAndParseJSON (Sample.answering "")
    ("Of course! " ++ "{" ++ "" ++ "}" ++ " Anything else?")
  = SEOAIOptimizer.JSON_parse (Sample.answering "") ("{" ++ "" ++ "}").
Proof.
  apply (cleanAndParseJSON_keeps_the_braces (Sample.answering "")
           "Of course! " "" " Anything else?"); reflexivity.
Defined.

(** The value that [JSON.parse] gives for the answer to a prompt: there
    is one when the call returns a response with a text, and the part of
    the text between its first opening brace and its last closing brace
    parses. *)
Definition parsed_answer (env : SEOAIOptimizer.Env) (prompt : SEOAIOptimizer.Prompt)
  : option Json :=
  match SEOAIOptimizer.openai_create env prompt with
  | Returned (Some response) =>
      match SEOAIOptimizer.output_text response with
      | Some text =>
          match SEOAIOptimizer.between_braces text with
          | Some kept =>
              match SEOAIOptimizer.JSON_parse env kept with
              | Returned value => if is_empty text then None else Some value
              | Thrown _ => None
              end
          | None => None
          end
      | None => None
      end
  | _ => None
  end.

(** [answer.field || current], case by case: the value of the field
    when the answer is an object that has the field and the value is
    none of [null], [false], [0] and the empty string. *)
Definition field_or (answer : option Json) (field : string) (current : Json) : Json :=
  match answer with
  | Some (JObj fields) =>
      match map_get field fields with
      | None => current
      | Some JNull => current
      | Some (JBool false) => current
      | Some (JNum 0) => current
      | Some (JStr "") => current
      | Some value => value
      end
  | _ => current
  end.

(** The properties of the answer to [analyzePageContent]: those of the
    object it parses to, none otherwise. *)
Definition answer_properties (answer : option Json) : list (string * Json) :=
  match answer with
  | Some (JObj fields) => fields
  | _ => []
  end.

Section OptimizerValues.

Variable env : SEOAIOptimizer.Env.

Lemma or_else_cases (fields : list (string * Json)) (field : string) (current : Json) :
  or_else (map_get field fields) current = field_or (Some (JObj fields)) field current.
Proof.
  unfold or_else, field_or.
  destruct (map_get field fields) as [[| [] | [| n | n] | [| c t] | items | inner] |];
    reflexivity.
Qed.

(** The text of a response, when there is a usable one. *)
Lemma truthy_string_cases (o : option string) :
  match truthy_string o with
  | Some text => o = Some text /\ is_empty text = false
  | None => o = None \/ o = Some ""
  end.
Proof. destruct o as [[| c t] |]; simpl; auto. Qed.

Lemma parsed_answer_text (prompt : SEOAIOptimizer.Prompt)
    (response : SEOAIOptimizer.Response) (text : string) :
  SEOAIOptimizer.openai_create env prompt = Returned (Some response) ->
  SEOAIOptimizer.output_text response = Some text ->
  is_empty text = false ->
  match SEOAIOptimizer.cleanAndParseJSON env text with
  | Returned value => parsed_answer env prompt = Some value
  | Thrown _ => parsed_answer env prompt = None
  end.
Proof.
  intros Hc Ht He. unfold parsed_answer. rewrite Hc, Ht, He.
  pose proof (cleanAndParseJSON_between env text) as Hclean.
  destruct (SEOAIOptimizer.between_braces text) as [kept |].
  - rewrite Hclean. now destruct (SEOAIOptimizer.JSON_parse env kept).
  - destruct Hclean as [e ->]. reflexivity.
Qed.

Lemma parsed_answer_none (prompt : SEOAIOptimizer.Prompt) :
  match SEOAIOptimizer.openai_create env prompt with
  | Returned (Some response) =>
      truthy_string (SEOAIOptimizer.output_text response) = None
  | _ => True
  end ->
  parsed_answer env prompt = None.
Proof.
  unfold parsed_answer.
  destruct (SEOAIOptimizer.openai_create env prompt) as [[response |] | e]; auto.
  intros H. pose proof (truthy_string_cases (SEOAIOptimizer.output_text response)) as Hc.
  rewrite H in Hc. destruct Hc as [-> | ->]; [reflexivity |].
  destruct (SEOAIOptimizer.between_braces ""); [| reflexivity].
  now destruct (SEOAIOptimizer.JSON_parse env s).
Qed.

(** What the three methods return, in terms of the answer. *)
Lemma answer_or_current_value (prompt : SEOAIOptimizer.Prompt) (field : string)
    (current : Json) :
  SEOAIOptimizer.answer_or_current env prompt field current
  = Returned
      (if forallb printable (SEOAIOptimizer.prompt_keywords prompt)
       then field_or (parsed_answer env prompt) field current
       else current).
Proof.
  unfold SEOAIOptimizer.answer_or_current, SEOAIOptimizer.request.
  destruct (forallb printable (SEOAIOptimizer.prompt_keywords prompt));
    [| reflexivity].
  pose proof (parsed_answer_none prompt) as Hnone.
  pose proof (parsed_answer_text prompt) as Htext.
  destruct (SEOAIOptimizer.openai_create env prompt) as [[response |] | e]; simpl;
    try (rewrite Hnone by exact I; reflexivity).
  pose proof (truthy_string_cases (SEOAIOptimizer.output_text response)) as Hc.
  destruct (truthy_string (SEOAIOptimizer.output_text response)) as [text |];
    [| rewrite Hnone by reflexivity; reflexivity].
  destruct Hc as [Ht He]. specialize (Htext response text eq_refl Ht He).
  destruct (SEOAIOptimizer.cleanAndParseJSON env text) as [parsed | e];
    rewrite Htext; [| reflexivity].
  destruct parsed as [| b | z | t | items | fields]; try reflexivity.
  simpl. now rewrite or_else_cases.
Qed.

(** The second pass of [fill_required] leaves an array under every name
    it has gone through, and keeps the arrays it finds. *)
Lemma second_pass_arrays (names : list string) :
  forall properties name,
    In name names \/ SEOAIOptimizer.isArray (map_get name properties) = true ->
    SEOAIOptimizer.isArray
      (map_get name
         (fold_left
            (fun p field =>
               if SEOAIOptimizer.isArray (map_get field p) then p
               else map_set field (JArr []) p)
            names properties)) = true.
Proof.
  induction names as [| field rest IH]; intros properties name H; simpl.
  - destruct H as [[] | H]. exact H.
  - apply IH. destruct H as [[<- | Hin] | Harr]; [right | now left | right].
    + destruct (SEOAIOptimizer.isArray (map_get field properties)) eqn:E; [exact E |].
      now rewrite map_get_set_same.
    + destruct (SEOAIOptimizer.isArray (map_get field properties)) eqn:E;
        [exact Harr |].
      destruct (String.eqb_spec name field) as [-> | Hne]; [congruence |].
      now rewrite map_get_set_other.
Qed.

Lemma first_pass_keeps (names : list string) :
  forall properties name,
    ~ In name names ->
    map_get name (fold_left (fun p field => map_set field (JArr []) p) names properties)
    = map_get name properties.
Proof.
  induction names as [| field rest IH]; intros properties name Hn; simpl;
    [reflexivity |].
  rewrite IH by (simpl in Hn; tauto).
  apply map_get_set_other. simpl in Hn. intros ->. tauto.
Qed.

Lemma first_pass_sets (names : list string) :
  forall properties name,
    In name names ->
    map_get name (fold_left (fun p field => map_set field (JArr []) p) names properties)
    = Some (JArr []).
Proof.
  induction names as [| field rest IH]; intros properties name Hin; simpl;
    [contradiction |].
  destruct (in_dec string_dec name rest) as [Hrest | Hrest]; [now apply IH |].
  destruct Hin as [-> | Hin]; [| contradiction].
  rewrite first_pass_keeps by assumption. apply map_get_set_same.
Qed.

Lemma second_pass_keeps (names : list string) :
  forall properties name,
    (In name names -> SEOAIOptimizer.isArray (map_get name properties) = true) ->
    map_get name
      (fold_left
         (fun p field =>
            if SEOAIOptimizer.isArray (map_get field p) then p
            else map_set field (JArr []) p)
         names properties)
    = map_get name properties.
Proof.
  induction names as [| field rest IH]; intros properties name H; simpl;
    [reflexivity |].
  destruct (SEOAIOptimizer.isArray (map_get field properties)) eqn:E.
  - apply IH. intros Hin. apply H. now right.
  - assert (Hne : name <> field).
    { intros ->. rewrite H in E by now left. discriminate. }
    rewrite IH.
    + now apply map_get_set_other.
    + intros Hin. rewrite map_get_set_other by assumption. apply H. now right.
Qed.

Lemma second_pass_sets (names : list string) :
  forall properties name,
    In name names ->
    SEOAIOptimizer.isArray (map_get name properties) = false ->
    map_get name
      (fold_left
         (fun p field =>
            if SEOAIOptimizer.isArray (map_get field p) then p
            else map_set field (JArr []) p)
         names properties)
    = Some (JArr []).
Proof.
  induction names as [| field rest IH]; intros properties name Hin Hno; simpl;
    [contradiction |].
  destruct (String.eqb_spec name field) as [-> | Hne].
  - rewrite Hno. rewrite second_pass_keeps; [apply map_get_set_same |].
    intros _. now rewrite map_get_set_same.
  - destruct Hin as [-> | Hin]; [contradiction |].
    destruct (SEOAIOptimizer.isArray (map_get field properties)); apply IH;
      try assumption.
    now rewrite map_get_set_other.
Qed.

(** Every property of the object after [fill_required]: an array stays,
    one of the five fields that is missing or is no array becomes the
    empty array, and the other properties are left as they are. *)
Lemma fill_required_prop (properties : list (string * Json)) (name : string) :
  map_get name (SEOAIOptimizer.fill_required properties)
  = match map_get name properties with
    | Some (JArr items) => Some (JArr items)
    | other =>
        if existsb (String.eqb name) SEOAIOptimizer.requiredFields
        then Some (JArr [])
        else other
    end.
Proof.
  unfold SEOAIOptimizer.fill_required.
  set (missing := filter (fun field => SEOAIOptimizer.falsy (map_get field properties))
                    SEOAIOptimizer.requiredFields).
  set (filled := fold_left (fun p field => map_set field (JArr []) p) missing properties).
  assert (Hfilled : forall n, ~ In n missing ->
                      map_get n filled = map_get n properties)
    by (intros n Hn; now apply first_pass_keeps).
  assert (Hmissing : In name missing ->
                     In name SEOAIOptimizer.requiredFields
                     /\ SEOAIOptimizer.falsy (map_get name properties) = true)
    by (intros Hin; now apply filter_In in Hin).
  destruct (existsb (String.eqb name) SEOAIOptimizer.requiredFields) eqn:Hreq.
  - assert (Hin : In name SEOAIOptimizer.requiredFields).
    { apply existsb_exists in Hreq. destruct Hreq as (n & Hn & E).
      apply String.eqb_eq in E. now subst. }
    destruct (in_dec string_dec name missing) as [Hm | Hm].
    + assert (E : map_get name filled = Some (JArr []))
        by now apply first_pass_sets.
      rewrite second_pass_keeps by (intros _; now rewrite E).
      rewrite E. destruct (Hmissing Hm) as [_ Hf].
      destruct (map_get name properties) as [[| b | z | t | items | inner] |];
        try reflexivity. discriminate.
    + destruct (SEOAIOptimizer.isArray (map_get name properties)) eqn:Harr.
      * rewrite second_pass_keeps by (intros _; now rewrite Hfilled).
        rewrite Hfilled by assumption.
        destruct (map_get name properties) as [[| b | z | t | items | inner] |];
          try discriminate. reflexivity.
      * rewrite second_pass_sets by (try assumption; now rewrite Hfilled).
        destruct (map_get name properties) as [[| b | z | t | items | inner] |];
          try reflexivity. discriminate.
  - assert (Hnot : ~ In name SEOAIOptimizer.requiredFields).
    { intros Hin. apply Bool.not_true_iff_false in Hreq. apply Hreq.
      apply existsb_exists. exists name. split; [assumption | apply String.eqb_refl]. }
    rewrite second_pass_keeps by (intros Hin; contradiction).
    rewrite Hfilled by (intros Hm; apply Hmissing in Hm; tauto).
    now destruct (map_get name properties) as [[| b | z | t | items | inner] |].
Qed.

End OptimizerValues.

(** X13.  What [optimizeTitle], [optimizeDescription] and
    [generateKeywordSuggestions] return (they never throw).  Each returns
    the value of its field in the answer when the answer is an object
    that has the field with a value other than [null], [false], [0] and
    the empty string; and the value it was given in every other case: the
    field is missing or has one of these four values, the answer is no
    object or there is no answer that parses, or a keyword could not be
    joined into the prompt. *)
Theorem optimizer_returns_field_or_input
    (env : SEOAIOptimizer.Env) (title description industry : string)
    (keywords : list Json) (maxTitle maxDescription : Z) :
  SEOAIOptimizer.optimizeTitle env title keywords maxTitle
  = Returned
      (if forallb printable keywords
       then field_or
              (parsed_answer env (SEOAIOptimizer.TitlePrompt keywords maxTitle title))
              "optimizedTitle" (JStr title)
       else JStr title)
  /\ SEOAIOptimizer.optimizeDescription env description keywords maxDescription
     = Returned
         (if forallb printable keywords
          then field_or
                 (parsed_answer env
                    (SEOAIOptimizer.DescriptionPrompt keywords maxDescription
                       description))
                 "optimizedDescription" (JStr description)
          else JStr description)
  /\ SEOAIOptimizer.generateKeywordSuggestions env keywords industry
     = Returned
         (if forallb printable keywords
          then field_or
                 (parsed_answer env (SEOAIOptimizer.KeywordsPrompt industry keywords))
                 "suggestions" (JArr keywords)
          else JArr keywords).
Proof.
  repeat split; apply answer_or_current_value.
Qed.

(** An answer with a title is used, one with an empty title is not, and
    a keyword that cannot be joined keeps the request from being sent. *)
Example optimizeTitle_answers :
  SEOAIOptimizer.optimizeTitle (Sample.answering Sample.chatty_text)
    "Hydraulik" [JStr "hydraulik"] 60
  = Returned (JStr "Hydraulik Lublin - naprawa instalacji 24h")
  /\ SEOAIOptimizer.optimizeTitle
       (Sample.answering
          ("{" ++ Sample.q ++ "optimizedTitle" ++ Sample.q ++ ": "
           ++ Sample.q ++ Sample.q ++ "}"))
       "Hydraulik" [JStr "hydraulik"] 60
     = Returned (JStr "Hydraulik")
  /\ SEOAIOptimizer.optimizeTitle (Sample.answering Sample.chatty_text)
       "Hydraulik" [JObj [("toString", JNum 1)]] 60
     = Returned (JStr "Hydraulik").
Proof. repeat split; vm_compute; reflexivity. Qed.

(** X14.  [analyzePageContent] never throws, and every property of the
    object it returns is known from the answer: a property of the answer
    that is an array is kept; each of the five required fields that is
    missing from the answer or is not an array is the empty array; the
    other properties are those of the answer.  When there is no answer
    that parses to an object, the five fields are empty arrays and
    there is no other property. *)
Theorem analyzePageContent_returns_five_arrays
    (env : SEOAIOptimizer.Env) (content url : string) :
  exists analysis,
    SEOAIOptimizer.analyzePageContent env content url = Returned analysis
    /\ forall name,
         SEOAIOptimizer.analysis_prop analysis name
         = match
             map_get name
               (answer_properties
                  (parsed_answer env (SEOAIOptimizer.PagePrompt content url)))
           with
           | Some (JArr items) => Some (JArr items)
           | other =>
               if existsb (String.eqb name) SEOAIOptimizer.requiredFields
               then Some (JArr [])
               else other
           end.
Proof.
  assert (Hempty : forall name,
            SEOAIOptimizer.analysis_prop SEOAIOptimizer.empty_analysis name
            = if existsb (String.eqb name) SEOAIOptimizer.requiredFields
              then Some (JArr []) else None).
  { intros name. exact (fill_required_prop [] name). }
  unfold SEOAIOptimizer.analyzePageContent, SEOAIOptimizer.request. simpl forallb.
  cbv iota.
  pose proof (parsed_answer_none env (SEOAIOptimizer.PagePrompt content url)) as Hnone.
  pose proof (parsed_answer_text env (SEOAIOptimizer.PagePrompt content url)) as Htext.
  destruct (SEOAIOptimizer.openai_create env (SEOAIOptimizer.PagePrompt content url))
    as [[response |] | e]; simpl;
    try (rewrite Hnone by exact I; exists SEOAIOptimizer.empty_analysis;
         split; [reflexivity | exact Hempty]).
  pose proof (truthy_string_cases (SEOAIOptimizer.output_text response)) as Hc.
  destruct (truthy_string (SEOAIOptimizer.output_text response)) as [text |];
    [| rewrite Hnone by reflexivity; exists SEOAIOptimizer.empty_analysis;
       split; [reflexivity | exact Hempty]].
  destruct Hc as [Ht He]. specialize (Htext response text eq_refl Ht He).
  destruct (SEOAIOptimizer.cleanAndParseJSON env text) as [parsed | e];
    rewrite Htext;
    [| exists SEOAIOptimizer.empty_analysis; split; [reflexivity | exact Hempty]].
  destruct parsed as [| b | z | t | items | fields]; simpl;
    try (exists SEOAIOptimizer.empty_analysis; split; [reflexivity | exact Hempty]).
  - eexists. split; [reflexivity |]. intros name. simpl.
    exact (fill_required_prop [] name).
  - eexists. split; [reflexivity |]. intros name. simpl.
    exact (fill_required_prop fields name).
Qed.

(** An answer with one list, one field that is no array and one field
    of its own. *)
Example analyzePageContent_sample :
  SEOAIOptimizer.analyzePageContent
    (Sample.answering
       ("Here: {" ++ Sample.q ++ "mainKeywords" ++ Sample.q ++ ": ["
        ++ Sample.q ++ "hydraulik" ++ Sample.q ++ "], "
        ++ Sample.q ++ "relatedTopics" ++ Sample.q ++ ": "
        ++ Sample.q ++ "none" ++ Sample.q ++ ", "
        ++ Sample.q ++ "score" ++ Sample.q ++ ": 7}"))
    "<p>Hydraulik</p>" Sample.home
  = Returned
      (SEOAIOptimizer.AnalysisObject
         [("mainKeywords", JArr [JStr "hydraulik"]); ("relatedTopics", JArr []);
          ("score", JNum 7); ("longTailKeywords", JArr []);
          ("contentStructure", JArr []); ("seoSuggestions", JArr [])]).
Proof. vm_compute. reflexivity. Qed.

(** X15.  What [analyzeContent] returns (it never throws): [null] when
    there is no answer that parses, when the answer is [null] and when a
    keyword could not be joined into the prompt; otherwise the
    [suggestions] of the answer when it has them with a value other than
    [null], [false], [0] and the empty string, and an empty array when it
    has not. *)
Theorem analyzeContent_null_or_suggestions
    (env : SEOAIOptimizer.Env) (content : string) (keywords : list Json) :
  SEOAIOptimizer.analyzeContent env content keywords
  = Returned
      (if forallb printable keywords then
         match parsed_answer env (SEOAIOptimizer.ContentPrompt content keywords) with
         | None => None
         | Some JNull => None
         | Some answer => Some (field_or (Some answer) "suggestions" (JArr []))
         end
       else None).
Proof.
  unfold SEOAIOptimizer.analyzeContent, SEOAIOptimizer.request. simpl forallb.
  destruct (forallb printable keywords); [| reflexivity].
  pose proof (parsed_answer_none env (SEOAIOptimizer.ContentPrompt content keywords))
    as Hnone.
  pose proof (parsed_answer_text env (SEOAIOptimizer.ContentPrompt content keywords))
    as Htext.
  destruct (SEOAIOptimizer.openai_create env
              (SEOAIOptimizer.ContentPrompt content keywords))
    as [[response |] | e]; simpl;
    try (rewrite Hnone by exact I; reflexivity).
  pose proof (truthy_string_cases (SEOAIOptimizer.output_text response)) as Hc.
  destruct (truthy_string (SEOAIOptimizer.output_text response)) as [text |];
    [| rewrite Hnone by reflexivity; reflexivity].
  destruct Hc as [Ht He]. specialize (Htext response text eq_refl Ht He).
  destruct (SEOAIOptimizer.cleanAndParseJSON env text) as [parsed | e];
    rewrite Htext; [| reflexivity].
  destruct parsed as [| b | z | t | items | fields]; try reflexivity.
  simpl. now rewrite or_else_cases.
Qed.

Example analyzeContent_sample :
  SEOAIOptimizer.analyzeContent
    (Sample.answering
       ("{" ++ Sample.q ++ "suggestions" ++ Sample.q ++ ": ["
        ++ Sample.q ++ "serwis" ++ Sample.q ++ "]}"))
    "Hydraulik" [JStr "hydraulik"]
  = Returned (Some (JArr [JStr "serwis"]))
  /\ SEOAIOptimizer.analyzeContent (Sample.answering "{}") "Hydraulik"
       [JStr "hydraulik"]
     = Returned (Some (JArr []))
  /\ SEOAIOptimizer.analyzeContent (Sample.answering "no JSON here") "Hydraulik"
       [JStr "hydraulik"]
     = Returned None.
Proof. repeat split; vm_compute; reflexivity. Qed.

(* ================================================================= *)
(** ** The meta tags of a page *)

(** The object that [extractMetadata] builds from the meta elements. *)
Definition page_tags (page : Page) : MetaTags :=
  fold_left collect_meta (page_metas page) [].

(** The page has a title or a description. *)
Definition wants_suggestions (page : Page) : bool :=
  negb (is_empty (page_title page))
  || match truthy_string (page_description page) with
     | Some _ => true
     | None => false
     end.

Definition page_data (page : Page) (st : Analyzer) : SEOAIOptimizer.PageData :=
  SEOAIOptimizer.mkPageData (page_title page)
    (match truthy_string (page_description page) with
     | Some d => d
     | None => ""
     end)
    (keywords st).

Definition suggestions_for (env : Env) (page : Page) (st : Analyzer)
  : option AiSuggestions :=
  if wants_suggestions page then
    match optimizeMetaTags env (page_data page st) with
    | Returned optimizedData =>
        Some (mkAiSuggestions (SEOAIOptimizer.od_title optimizedData)
                (SEOAIOptimizer.od_description optimizedData)
                (SEOAIOptimizer.od_suggestions optimizedData))
    | Thrown _ => None
    end
  else None.

(** The object stored for a page: its meta tags, with the suggestions
    assigned to the property [aiSuggestions] when there are some. *)
Definition stored_tags (env : Env) (page : Page) (st : Analyzer) : MetaTags :=
  match suggestions_for env page st with
  | Some suggestions =>
      map_set "aiSuggestions" (MetaSuggestions suggestions) (page_tags page)
  | None => page_tags page
  end.

(** The values that a meta element can give: texts that are not empty. *)
Definition is_text (value : MetaValue) : Prop :=
  exists content, value = MetaText content /\ content <> "".

(** Case analysis on the tests of the goal, the map lookups and the
    call of the optimizer apart. *)
Ltac split_tests :=
  repeat match goal with
         | |- context [if ?c then _ else _] =>
             lazymatch c with
             | context [map_get] => fail
             | context [optimizeMetaTags] => fail
             | _ => destruct c eqn:?
             end
         | |- context [match ?x with _ => _ end] =>
             lazymatch x with
             | context [map_get] => fail
             | context [optimizeMetaTags] => fail
             | _ => destruct x eqn:?
             end
         end.

Section MetaTags.

Variable env : Env.

(** [extractMetadata] stores a new object for the page, made of its
    meta tags and of the suggestions of the optimizer, and leaves the
    objects of the other pages alone. *)
Lemma extractMetadata_metaTags (page : Page) (url : string) (st : Analyzer) :
  map_get url (pagesMetaTags (extractMetadata env page url st))
    = Some (stored_tags env page st)
  /\ (forall u, u <> url ->
        map_get u (pagesMetaTags (extractMetadata env page url st))
        = map_get u (pagesMetaTags st)).
Proof.
  unfold extractMetadata, stored_tags, suggestions_for, wants_suggestions, page_data,
    page_tags.
  split_tests; simpl; rewrite ?map_get_set_same.
  all: try (destruct (optimizeMetaTags env _); simpl; rewrite ?map_get_set_same).
  all: split; try reflexivity.
  all: intros u Hu; rewrite ?map_get_set_other by assumption; reflexivity.
Qed.

Lemma analyzePage_other_metaTags (url u : string) (page : Page) (st : Analyzer) :
  u <> url ->
  map_get u (pagesMetaTags (analyzePage env url page st))
  = map_get u (pagesMetaTags st).
Proof.
  intros Hne. unfold analyzePage, add_keywords.
  destruct (analyzePageContent env (page_content page) url) as [[pa |] | e];
    try reflexivity.
  unfold map_has.
  destruct (map_get url (pagesMetaTags st)) as [stored |] eqn:E; simpl.
  - rewrite E. split_tests; simpl; now rewrite map_get_set_other.
  - rewrite map_get_set_same. split_tests; simpl; now rewrite !map_get_set_other.
Qed.

(** With an analysis at hand, [analyzePage] stores it for the page. *)
Lemma analyzePage_stores_analysis (url : string) (page : Page) (st : Analyzer)
    (pageAnalysis : PageAnalysis) :
  analyzePageContent env (page_content page) url = Returned (Some pageAnalysis) ->
  exists metaTags,
    map_get url (pagesMetaTags (analyzePage env url page st)) = Some metaTags
    /\ contentAnalysis metaTags = Some (MetaAnalysis pageAnalysis).
Proof.
  intros Ha. unfold analyzePage, add_keywords, map_has, contentAnalysis. rewrite Ha.
  destruct (map_get url (pagesMetaTags st)) as [stored |] eqn:E; simpl.
  - rewrite E. eexists.
    split_tests; simpl; rewrite map_get_set_same; split;
      try reflexivity; apply map_get_set_same.
  - rewrite map_get_set_same. eexists.
    split_tests; simpl; rewrite map_get_set_same; split; reflexivity.
Qed.

Lemma map_get_In {V : Type} (k : string) (v : V) (m : JSMap V) :
  map_get k m = Some v -> In (k, v) m.
Proof.
  induction m as [| [k' v'] m IH]; simpl; [discriminate |].
  destruct (String.eqb_spec k k') as [-> | Hne].
  - intros [= ->]. now left.
  - intros H. right. now apply IH.
Qed.

(** Every property that the meta elements give is a text that is not
    empty. *)
Lemma page_tags_texts (page : Page) (name : string) (value : MetaValue) :
  map_get name (page_tags page) = Some value -> is_text value.
Proof.
  intros Hget. apply map_get_In in Hget.
  assert (H : Forall (fun entry : string * MetaValue => is_text (snd entry))
                (page_tags page)).
  { unfold page_tags.
    assert (Hfold : forall metas acc,
              Forall (fun entry : string * MetaValue => is_text (snd entry)) acc ->
              Forall (fun entry : string * MetaValue => is_text (snd entry))
                (fold_left collect_meta metas acc)).
    { induction metas as [| m metas IH]; intros acc Hacc; simpl; [assumption |].
      apply IH. unfold collect_meta.
      destruct (truthy_string (meta_key m)) as [key |]; [| assumption].
      destruct (truthy_string (meta_content m)) as [content |] eqn:Hc; [| assumption].
      destruct (String.eqb key "__proto__"); [assumption |].
      apply map_set_Forall; [assumption |]. exists content. split; [reflexivity |].
      exact (truthy_string_has_text _ _ Hc). }
    apply Hfold. constructor. }
  rewrite Forall_forall in H. exact (H _ Hget).
Qed.

(** The [contentAnalysis] of the object stored for a page is what its
    meta elements give. *)
Lemma stored_tags_contentAnalysis (page : Page) (st : Analyzer) :
  contentAnalysis (stored_tags env page st) = contentAnalysis (page_tags page).
Proof.
  unfold stored_tags, contentAnalysis.
  destruct (suggestions_for env page st); [| reflexivity].
  now apply map_get_set_other.
Qed.

Lemma visit_page_metaTags (url u : string) (st : Analyzer) (metaTags : MetaTags) :
  map_get u (pagesMetaTags (fst (visit_page env url st))) = Some metaTags ->
  (forall value, contentAnalysis metaTags = Some value -> is_text value)
  \/ map_get u (pagesMetaTags st) = Some metaTags.
Proof.
  unfold visit_page.
  assert (Hf : pagesMetaTags (snd (fetchPage env url (mark_visited url st)))
               = pagesMetaTags st)
    by (unfold fetchPage; destruct (axios_get env url); reflexivity).
  destruct (fetchPage env url (mark_visited url st)) as [[html code] st1].
  simpl in Hf. destruct (negb (code =? 200)%Z || is_empty html);
    [simpl; rewrite Hf; auto |].
  set (page := cheerio_load env html).
  set (st2 := analyzePage env url page st1).
  destruct (extractMetadata_metaTags page url st2) as [Hsame Hother].
  assert (Hl : pagesMetaTags (snd (extractLinks env page url
                                     (extractMetadata env page url st2)))
               = pagesMetaTags (extractMetadata env page url st2)).
  { unfold extractLinks. destruct (scan_anchors env page url) as [[l i] e].
    reflexivity. }
  destruct (extractLinks env page url (extractMetadata env page url st2))
    as [links st4]. simpl in *. rewrite Hl.
  destruct (String.eqb_spec u url) as [-> | Hne].
  - rewrite Hsame. intros [= <-]. left. intros value.
    rewrite stored_tags_contentAnalysis. apply page_tags_texts.
  - rewrite (Hother u Hne). unfold st2.
    rewrite (analyzePage_other_metaTags url u page st1 Hne), Hf. auto.
Qed.

End MetaTags.

Section OptimizerComposition.

Variable ai : SEOAIOptimizer.Env.

(** [optimizeMetaTags] returns what the three methods return; its
    [catch] branch is never taken. *)
Lemma optimizeMetaTags_returns (pageData : SEOAIOptimizer.PageData) :
  exists title description suggestions,
    SEOAIOptimizer.optimizeMetaTags ai pageData
      = Returned (SEOAIOptimizer.mkOptimizedData title description (Some suggestions))
    /\ SEOAIOptimizer.optimizeTitle ai (SEOAIOptimizer.pd_title pageData)
         (SEOAIOptimizer.pd_keywords pageData) 60 = Returned title
    /\ SEOAIOptimizer.optimizeDescription ai (SEOAIOptimizer.pd_description pageData)
         (SEOAIOptimizer.pd_keywords pageData) 160 = Returned description
    /\ SEOAIOptimizer.generateKeywordSuggestions ai
         (SEOAIOptimizer.pd_keywords pageData) "hydraulika" = Returned suggestions.
Proof.
  unfold SEOAIOptimizer.optimizeMetaTags, SEOAIOptimizer.optimizeTitle,
    SEOAIOptimizer.optimizeDescription, SEOAIOptimizer.generateKeywordSuggestions.
  rewrite !answer_or_current_value. simpl. eauto 10.
Qed.

End OptimizerComposition.

(** X16.  [optimizeMetaTags] never throws and always returns a title, a
    description and suggestions, those of the three methods (its [catch]
    branch is never taken).  With it as optimizer, [extractMetadata]
    stores one new object for the page.  Its properties are those that
    the meta elements of the page give, but for [aiSuggestions]: for a
    page that has a title or a description that property holds the three
    suggestions (whatever a meta element of that name gave), and for a
    page that has neither it is what the meta elements give too. *)
Theorem extractMetadata_stores_suggestions
    (env : Env) (ai : SEOAIOptimizer.Env) (page : Page) (url : string)
    (st : Analyzer) :
  optimizeMetaTags env = SEOAIOptimizer.optimizeMetaTags ai ->
  exists stored,
    map_get url (pagesMetaTags (extractMetadata env page url st)) = Some stored
    /\ (forall name, name <> "aiSuggestions" ->
          map_get name stored = map_get name (page_tags page))
    /\ (wants_suggestions page = false ->
        map_get "aiSuggestions" stored = map_get "aiSuggestions" (page_tags page))
    /\ (wants_suggestions page = true ->
        exists title description suggestions,
          SEOAIOptimizer.optimizeTitle ai (page_title page) (keywords st) 60
            = Returned title
          /\ SEOAIOptimizer.optimizeDescription ai
               (SEOAIOptimizer.pd_description (page_data page st)) (keywords st) 160
             = Returned description
          /\ SEOAIOptimizer.generateKeywordSuggestions ai (keywords st) "hydraulika"
             = Returned suggestions
          /\ map_get "aiSuggestions" stored
             = Some (MetaSuggestions
                       (mkAiSuggestions title description (Some suggestions)))).
Proof.
  intros Hai. destruct (extractMetadata_metaTags env page url st) as [Hsame _].
  exists (stored_tags env page st). split; [assumption |].
  unfold stored_tags, suggestions_for. rewrite Hai.
  destruct (optimizeMetaTags_returns ai (page_data page st))
    as (t & d & k & Hrun & Ht & Hd & Hk).
  rewrite Hrun. simpl in *.
  destruct (wants_suggestions page); repeat split; try discriminate; try reflexivity.
  - intros name Hname. now apply map_get_set_other.
  - intros _. exists t, d, k. repeat split; try assumption. apply map_get_set_same.
Qed.

(** A page whose meta elements are named as the two properties that the
    AI steps assign. *)
Definition tagged_page : Page :=
  mkPage "Hydraulik Lublin" None
    [mkMeta (Some "viewport") None (Some "width=device-width");
     mkMeta (Some "aiSuggestions") None (Some "none");
     mkMeta (Some "contentAnalysis") None (Some "done");
     mkMeta (Some "__proto__") None (Some "hidden")]
    "Hydraulik" [] "{}".

Definition tagged_site : Env :=
  Sample.site Sample.home [("https://example.test/", Resolved 200 "<tagged>")]
    [("<tagged>", tagged_page)] [].

Lemma extractMetadata_stores_suggestions_witness :
  exists stored,
    map_get Sample.home
      (pagesMetaTags
         (extractMetadata tagged_site tagged_page Sample.home
            (new_analyzer tagged_site))) = Some stored
    /\ (forall name, name <> "aiSuggestions" ->
          map_get name stored = map_get name (page_tags tagged_page))
    /\ (wants_suggestions tagged_page = false ->
        map_get "aiSuggestions" stored = map_get "aiSuggestions" (page_tags tagged_page))
    /\ (wants_suggestions tagged_page = true ->
        exists title description suggestions,
          SEOAIOptimizer.optimizeTitle Sample.offline (page_title tagged_page)
            (keywords (new_analyzer tagged_site)) 60
            = Returned title
          /\ SEOAIOptimizer.optimizeDescription Sample.offline
               (SEOAIOptimizer.pd_description
                  (page_data tagged_page (new_analyzer tagged_site)))
               (keywords (new_analyzer tagged_site)) 160
             = Returned description
          /\ SEOAIOptimizer.generateKeywordSuggestions Sample.offline
               (keywords (new_analyzer tagged_site)) "hydraulika"
             = Returned suggestions
          /\ map_get "aiSuggestions" stored
             = Some (MetaSuggestions
                       (mkAiSuggestions title description (Some suggestions)))).
Proof.
  apply (extractMetadata_stores_suggestions tagged_site Sample.offline
           tagged_page Sample.home (new_analyzer tagged_site)).
  reflexivity.
Defined.

(** The object stored for the tagged page: the text of the meta element
    named [aiSuggestions] has given way to the suggestions, the one named
    [contentAnalysis] is there, and the one named [__proto__] has left no
    property. *)
Example tagged_page_stored :
  map_get Sample.home
    (pagesMetaTags
       (extractMetadata tagged_site tagged_page Sample.home
          (new_analyzer tagged_site)))
  = Some [("viewport", MetaText "width=device-width");
          ("aiSuggestions",
           MetaSuggestions
             (mkAiSuggestions (JStr "Hydraulik Lublin") (JStr "")
                (Some (JArr [JStr "hydraulik"; JStr "lublin"]))));
          ("contentAnalysis", MetaText "done")].
Proof. vm_compute. reflexivity. Qed.

(** X17.  [analyzePage] stores the analysis of a page in
    [pagesMetaTags], but in [crawl] it runs before [extractMetadata],
    which stores a new object for the page: after a run from a new
    analyzer the analysis is in no page record of the report.  The only
    [contentAnalysis] that a page record can carry is the text of a meta
    element of that name, and on such a record the template of the HTML
    report throws: [generateReport] writes [seo-report.json] and throws. *)
Theorem content_analysis_does_not_reach_the_report
    (env : Env) (url : string) (depth maxDepth : Z) (now : string) :
  exists st',
    crawl env (crawl_fuel depth maxDepth) url depth maxDepth (new_analyzer env)
      = Some st'
    /\ (forall record value,
          In record (pageMeta (build_report env now st')) ->
          contentAnalysis (pm_metaTags record) = Some value ->
          is_text value
          /\ exists e,
               generateReport env now st'
               = (Thrown e, log (EvWriteFile "seo-report.json") st')).
Proof.
  destruct (crawl_from_new env
              (fun s => forall u mt value,
                          map_get u (pagesMetaTags s) = Some mt ->
                          contentAnalysis mt = Some value -> is_text value))
    with (url := url) (depth := depth) (maxDepth := maxDepth)
    as (st' & Hrun & Hinv).
  - intros u mt value. discriminate.
  - intros u s Hs. unfold shouldCrawl. destruct (isStaticResource u); exact Hs.
  - intros u s Hs _ _ v mt value Hget.
    destruct (visit_page_metaTags env u v s mt Hget) as [Htext | Hold];
      [apply Htext | now apply (Hs v)].
  - exists st'. split; [assumption |]. intros record value Hin Hvalue.
    assert (Htext : is_text value).
    { simpl in Hin. apply in_map_iff in Hin. destruct Hin as (u & <- & _).
      simpl in Hvalue.
      destruct (map_get u (pagesMetaTags st')) as [mt |] eqn:E;
        [now apply (Hinv u mt) | discriminate]. }
    split; [assumption |].
    destruct (generateReport_outcome env now st') as [[_ Hall] | [He _]];
      [| assumption].
    exfalso. apply (Hall record Hin). right. left.
    destruct Htext as (content & -> & Hne).
    exists (MetaText content), "mainKeywords". repeat split; simpl; auto.
    + now destruct content.
    + intros (items & [=] & _).
Qed.

(** On the sample site [analyzePage] alone does store an analysis. *)
Example analyzePage_alone_stores_analysis :
  option_map contentAnalysis
    (map_get Sample.home
       (pagesMetaTags
          (analyzePage Sample.example_site Sample.home Sample.home_page
             (new_analyzer Sample.example_site))))
  = Some (Some (MetaAnalysis Sample.no_analysis)).
Proof. reflexivity. Qed.

(** On the site of the tagged page [analyze] rejects: the JSON report
    is written, the HTML report and the PDF are not. *)
Example analyze_rejects_on_the_tagged_page :
  option_map (fun result => (fst result, trace (snd result)))
    (analyze tagged_site 1 10 "2025-01-01T00:00:00.000Z" (new_analyzer tagged_site))
  = Some (Thrown "TypeError: Cannot read properties of undefined (reading 'map')",
          [EvWriteFile "seo-report.json";
           EvGet "https://example.test/sitemap.xml";
           EvGet "https://example.test/"; EvVisit "https://example.test/"]).
Proof. vm_compute. reflexivity. Qed.

(* ================================================================= *)
(** ** SEOAnalyzer: analyzeKeywords *)

(** The keyword is a string whose lower-case form occurs in the
    lower-cased text. *)
Definition occurs_in (env : Env) (text : string) (keyword : Json) : bool :=
  match keyword with
  | JStr k => includes (lowerCase env text) (lowerCase env k)
  | _ => false
  end.

Section Keywords.

Variable env : Env.

Lemma sort_keywords (text : string) (l : list Json) :
  forallb is_string l = true ->
  forall found missing,
    fold_left (sort_keyword env (lowerCase env text)) l (Returned (found, missing))
    = Returned (found ++ filter (occurs_in env text) l,
                missing ++ filter (fun k => negb (occurs_in env text k)) l).
Proof.
  induction l as [| k l IH]; intros Hall found missing; simpl.
  - now rewrite !app_nil_r.
  - simpl in Hall. apply andb_true_iff in Hall. destruct Hall as [Hk Hl].
    destruct k; try discriminate. simpl.
    destruct (includes (lowerCase env text) (lowerCase env s)); simpl;
      rewrite (IH Hl), <- app_assoc; reflexivity.
Qed.

Lemma filter_lengths {A : Type} (p : A -> bool) (l : list A) :
  (length (filter p l) + length (filter (fun k => negb (p k)) l) = length l)%nat.
Proof.
  induction l as [| k l IH]; simpl; [reflexivity |].
  destruct (p k); simpl; lia.
Qed.

End Keywords.

(** X18.  For a text that is not empty, [analyzeKeywords] throws when
    one of the keywords of the analyzer is not a string (the AI can give
    such keywords); when all are strings it sorts every keyword into
    exactly one of [found] and [missing], in the order of the keywords:
    into [found] when the lower-cased text contains the lower-cased
    keyword.  For the empty text both lists are empty, whatever the
    keywords are. *)
Theorem analyzeKeywords_sorts_keywords (env : Env) (text : string) (st : Analyzer) :
  text <> "" ->
  (forallb is_string (keywords st) = true ->
   analyzeKeywords env text st
   = Returned (filter (occurs_in env text) (keywords st),
               filter (fun k => negb (occurs_in env text k)) (keywords st))
   /\ (length (filter (occurs_in env text) (keywords st))
       + length (filter (fun k => negb (occurs_in env text k)) (keywords st))
       = length (keywords st))%nat)
  /\ (forallb is_string (keywords st) = false ->
      exists e, analyzeKeywords env text st = Thrown e)
  /\ analyzeKeywords env "" st = Returned ([], []).
Proof.
  intros Hne.
  assert (He : is_empty text = false) by (destruct text; [contradiction | reflexivity]).
  unfold analyzeKeywords at 1 2. rewrite He. split; [| split; [| reflexivity]].
  - intros Hall. split; [| apply filter_lengths].
    exact (sort_keywords env text (keywords st) Hall [] []).
  - intros Hall. exact (sort_keywords_other env _ _ Hall _).
Qed.

Lemma analyzeKeywords_sorts_keywords_witness :
  (forallb is_string (keywords (new_analyzer Sample.example_site)) = true ->
   analyzeKeywords Sample.example_site "Hydraulik w Lublinie"
     (new_analyzer Sample.example_site)
   = Returned (filter (occurs_in Sample.example_site "Hydraulik w Lublinie")
                 (keywords (new_analyzer Sample.example_site)),
               filter (fun k => negb (occurs_in Sample.example_site
                                        "Hydraulik w Lublinie" k))
                 (keywords (new_analyzer Sample.example_site)))
   /\ (length (filter (occurs_in Sample.example_site "Hydraulik w Lublinie")
                 (keywords (new_analyzer Sample.example_site)))
       + length (filter (fun k => negb (occurs_in Sample.example_site
                                          "Hydraulik w Lublinie" k))
                   (keywords (new_analyzer Sample.example_site)))
       = length (keywords (new_analyzer Sample.example_site)))%nat)
  /\ (forallb is_string (keywords (new_analyzer Sample.example_site)) = false ->
      exists e,
        analyzeKeywords Sample.example_site "Hydraulik w Lublinie"
          (new_analyzer Sample.example_site) = Thrown e)
  /\ analyzeKeywords Sample.example_site "" (new_analyzer Sample.example_site)
     = Returned ([], []).
Proof.
  apply (analyzeKeywords_sorts_keywords Sample.example_site "Hydraulik w Lublinie"
           (new_analyzer Sample.example_site)).
  discriminate.
Defined.

Example analyzeKeywords_sample :
  analyzeKeywords Sample.example_site "Hydraulik w Lublinie"
    (new_analyzer Sample.example_site)
  = Returned ([JStr "hydraulik"; JStr "lublin"], [])
  /\ analyzeKeywords Sample.example_site "Hydraulik w Lublinie"
       (set_keywords [JStr "hydraulik"; JNum 24] (new_analyzer Sample.example_site))
     = Thrown "TypeError: keyword.toLowerCase is not a function".
Proof. split; vm_compute; reflexivity. Qed.

(* ================================================================= *)
(** ** The totals of the report *)

Section LinkTotals.

Variable env : Env.

(** As [crawl_from_new], for a run that is known to have returned. *)
Lemma crawl_keeps (I : Analyzer -> Prop) :
  I (new_analyzer env) ->
  (forall url st, I st -> I (snd (shouldCrawl url st))) ->
  (forall url st,
      I st -> set_has url (visitedUrls st) = false ->
      isStaticResource url = false -> I (fst (visit_page env url st))) ->
  forall fuel url depth maxDepth st',
    crawl env fuel url depth maxDepth (new_analyzer env) = Some st' -> I st'.
Proof.
  intros Hnew Hstatic Hvisit fuel url depth maxDepth st'.
  apply (crawl_invariant env I (fun _ _ => True) maxDepth); auto.
Qed.

Lemma map_get_not_key {V : Type} (k : string) (m : JSMap V) :
  ~ In k (map fst m) -> map_get k m = None.
Proof.
  induction m as [| [k' v] m IH]; simpl; [reflexivity |]. intros Hn.
  destruct (String.eqb_spec k k') as [-> | Hne]; [tauto |]. apply IH. tauto.
Qed.

(** What one visit does to the two link maps. *)
Lemma visit_page_link_maps (url : string) (st : Analyzer) :
  if gives_page env url
  then exists internal external,
         internalLinks (fst (visit_page env url st))
           = map_set url internal (internalLinks st)
         /\ externalLinks (fst (visit_page env url st))
           = map_set url external (externalLinks st)
  else internalLinks (fst (visit_page env url st)) = internalLinks st
       /\ externalLinks (fst (visit_page env url st)) = externalLinks st.
Proof.
  unfold visit_page, fetchPage, gives_page.
  destruct (axios_get env url) as [status data | status | message]; simpl;
    rewrite ?orb_true_r; try (split; reflexivity).
  destruct (status =? 200)%Z; simpl; [| split; reflexivity].
  destruct (is_empty data); simpl; [split; reflexivity |].
  set (page := cheerio_load env data).
  set (st1 := set_statusCodes _ _).
  destruct (analyzePage_links env url page st1) as [Ai Ae].
  destruct (extractMetadata_links env page url (analyzePage env url page st1))
    as [Mi Me].
  unfold extractLinks.
  destruct (scan_anchors env page url) as [[links internal] external]. simpl.
  exists internal, external. rewrite Mi, Me, Ai, Ae. split; reflexivity.
Qed.

(** The keys of the two link maps are the visited URLs that gave a
    page, in visit order. *)
Definition link_maps_keyed (st : Analyzer) : Prop :=
  NoDup (visitedUrls st)
  /\ map fst (internalLinks st) = filter (gives_page env) (visitedUrls st)
  /\ map fst (externalLinks st) = filter (gives_page env) (visitedUrls st).

Lemma keyed_insert {V : Type} (url : string) (v : V) (m : JSMap V)
    (visited : list string) :
  ~ In url visited ->
  map fst m = filter (gives_page env) visited ->
  gives_page env url = true ->
  map fst (map_set url v m) = filter (gives_page env) (visited ++ [url]).
Proof.
  intros Hnew Hkeys Hgives. rewrite map_set_fresh.
  - rewrite map_app, filter_app, Hkeys. simpl. now rewrite Hgives.
  - apply map_get_not_key. rewrite Hkeys. intros Hin.
    apply filter_In in Hin. tauto.
Qed.

Lemma link_maps_keyed_visit (url : string) (st : Analyzer) :
  link_maps_keyed st -> set_has url (visitedUrls st) = false ->
  link_maps_keyed (fst (visit_page env url st)).
Proof.
  intros (Hnd & Hi & He) Hnew.
  destruct (visit_page_traversal env url st) as (Hv & _ & _).
  pose proof (visit_page_link_maps url st) as Hmaps.
  unfold link_maps_keyed. rewrite Hv, (set_add_fresh _ _ Hnew).
  apply set_has_false in Hnew. split.
  - apply NoDup_app; auto.
    + repeat constructor. simpl. tauto.
    + intros a Ha [<- | []]. contradiction.
  - destruct (gives_page env url) eqn:Hg.
    + destruct Hmaps as (i & e & -> & ->).
      split; now apply keyed_insert.
    + destruct Hmaps as [-> ->]. rewrite filter_app. simpl. rewrite Hg.
      now rewrite app_nil_r.
Qed.

(** The sizes of the lists of a map whose keys are the elements of [l]
    that pass [p] add up to the size of all its lists. *)
Lemma counts_add_up (p : string -> bool) (l : list string) :
  NoDup l ->
  forall m : JSMap (list string),
    map fst m = filter p l ->
    list_sum (map (fun u => length (or_nil (map_get u m))) l)
    = length (concat (map snd m)).
Proof.
  intros Hnd. induction Hnd as [| u l Hu Hnd IH]; intros m Hkeys; simpl in *.
  - now destruct m.
  - destruct (p u) eqn:Hp.
    + destruct m as [| [k v] m]; [discriminate |]. simpl in Hkeys.
      injection Hkeys as -> Hkeys. simpl. rewrite String.eqb_refl. simpl.
      rewrite length_app. f_equal. rewrite <- (IH m Hkeys).
      f_equal. apply map_ext_in. intros a Ha.
      destruct (String.eqb_spec a u) as [-> | _]; [contradiction | reflexivity].
    + rewrite (IH m Hkeys). rewrite map_get_not_key; [reflexivity |].
      rewrite Hkeys. intros Hin. apply filter_In in Hin. tauto.
Qed.

End LinkTotals.

(** X19.  In the report of a run from a new analyzer the total of
    internal links is the sum of the internal link counts of the page
    records, and likewise for the external links; a page that was not
    fetched with success counts for zero. *)
Theorem link_totals_are_sums_of_page_counts
    (env : Env) (url : string) (depth maxDepth : Z) (now : string) :
  exists st',
    crawl env (crawl_fuel depth maxDepth) url depth maxDepth (new_analyzer env)
      = Some st'
    /\ list_sum (map pm_internalLinksCount (pageMeta (build_report env now st')))
       = totalInternalLinks (crawlStats (build_report env now st'))
    /\ list_sum (map pm_externalLinksCount (pageMeta (build_report env now st')))
       = totalExternalLinks (crawlStats (build_report env now st'))
    /\ (forall record,
          In record (pageMeta (build_report env now st')) ->
          gives_page env (pm_url record) = false ->
          pm_internalLinksCount record = 0%nat
          /\ pm_externalLinksCount record = 0%nat).
Proof.
  destruct (crawl_from_new env (link_maps_keyed env))
    with (url := url) (depth := depth) (maxDepth := maxDepth)
    as (st' & Hrun & Hnd & Hi & He).
  - repeat split. constructor.
  - intros u s Hs. unfold shouldCrawl. destruct (isStaticResource u); exact Hs.
  - intros u s Hs Hnew _. now apply link_maps_keyed_visit.
  - exists st'. split; [assumption |]. simpl. rewrite !map_map. simpl.
    split; [exact (counts_add_up _ _ Hnd _ Hi) |].
    split; [exact (counts_add_up _ _ Hnd _ He) |].
    intros record Hin Hg. apply in_map_iff in Hin.
    destruct Hin as (u & <- & Hu). simpl in *.
    rewrite !map_get_not_key; [split; reflexivity | |].
    + rewrite He. intros Hin. apply filter_In in Hin. destruct Hin. congruence.
    + rewrite Hi. intros Hin. apply filter_In in Hin. destruct Hin. congruence.
Qed.

Example sample_link_totals :
  option_map
    (fun st =>
       (map pm_internalLinksCount
          (pageMeta (build_report Sample.example_site "" st)),
        totalInternalLinks (crawlStats (build_report Sample.example_site "" st))))
    (crawl Sample.example_site 12 Sample.home 0 10
       (new_analyzer Sample.example_site))
  = Some ([7; 1; 1; 0; 0; 0; 0; 0]%nat, 9%nat).
Proof. vm_compute. reflexivity. Qed.

(* ================================================================= *)
(** ** The issues and the length warnings *)

Definition title_out_of_range (entry : string * string) : bool :=
  ((str_length (snd entry) <? 30) || (60 <? str_length (snd entry)))%nat.

Definition description_out_of_range (entry : string * string) : bool :=
  ((str_length (snd entry) <? 120) || (160 <? str_length (snd entry)))%nat.

Definition with_length (entry : string * string) : string * nat :=
  (fst entry, str_length (snd entry)).

(** The line of the issues list for an entry of
    [urlsWithInvalidTitleLength], and for one of
    [urlsWithInvalidDescriptionLength]. *)
Definition title_line (warning : string * nat) : string :=
  ("Nieprawidłowa długość tytułu (" ++ nat_to_string (snd warning)
     ++ " znaków) na stronie: " ++ fst warning)%string.

Definition description_line (warning : string * nat) : string :=
  ("Nieprawidłowa długość meta opisu (" ++ nat_to_string (snd warning)
     ++ " znaków) na stronie: " ++ fst warning)%string.

Definition broken_line (count : nat) : list string :=
  if (0 <? count)%nat
  then ["Znaleziono " ++ nat_to_string count ++ " uszkodzonych linków"]%string
  else [].

(** The four maps of titles, descriptions and their warnings. *)
Definition texts (st : Analyzer)
  : JSMap string * JSMap nat * JSMap string * JSMap nat :=
  (pagesTitles st, pagesTitlesWarnings st,
   pagesDescriptions st, pagesDescriptionsWarnings st).

Section Warnings.

Variable env : Env.

Lemma extractMetadata_updates_texts (page : Page) (url : string) (st : Analyzer) :
  texts (extractMetadata env page url st)
  = (if is_empty (page_title page) then pagesTitles st
     else map_set url (page_title page) (pagesTitles st),
     if is_empty (page_title page) then pagesTitlesWarnings st
     else if title_out_of_range (url, page_title page)
          then map_set url (str_length (page_title page)) (pagesTitlesWarnings st)
          else pagesTitlesWarnings st,
     match truthy_string (page_description page) with
     | Some d => map_set url d (pagesDescriptions st)
     | None => pagesDescriptions st
     end,
     match truthy_string (page_description page) with
     | Some d =>
         if description_out_of_range (url, d)
         then map_set url (str_length d) (pagesDescriptionsWarnings st)
         else pagesDescriptionsWarnings st
     | None => pagesDescriptionsWarnings st
     end).
Proof.
  unfold extractMetadata, texts, title_out_of_range, description_out_of_range.
  simpl. split_ifs; reflexivity.
Qed.

(** The texts a visit adds: the title and the description of the page,
    if it gave one and has them. *)
Definition title_found (url : string) : list (string * string) :=
  match axios_get env url with
  | Resolved status data =>
      if negb (status =? 200)%Z || is_empty data then []
      else if is_empty (page_title (cheerio_load env data)) then []
           else [(url, page_title (cheerio_load env data))]
  | _ => []
  end.

Definition description_found (url : string) : list (string * string) :=
  match axios_get env url with
  | Resolved status data =>
      if negb (status =? 200)%Z || is_empty data then []
      else match truthy_string (page_description (cheerio_load env data)) with
           | Some d => [(url, d)]
           | None => []
           end
  | _ => []
  end.

(** The warnings are the out-of-range entries of the texts, and the
    texts are those of visited URLs, one each, in visit order. *)
Definition texts_in_step (st : Analyzer) : Prop :=
  pagesTitles st = flat_map title_found (visitedUrls st)
  /\ pagesTitlesWarnings st
     = map with_length (filter title_out_of_range (pagesTitles st))
  /\ pagesDescriptions st = flat_map description_found (visitedUrls st)
  /\ pagesDescriptionsWarnings st
     = map with_length (filter description_out_of_range (pagesDescriptions st)).

Lemma found_keys (found : string -> list (string * string)) (visited : list string)
    (url : string) :
  (forall u k, In k (map fst (found u)) -> k = u) ->
  ~ In url visited -> ~ In url (map fst (flat_map found visited)).
Proof.
  intros Hkey Hnew Hin. apply in_map_iff in Hin. destruct Hin as ([k v] & <- & Hin).
  apply in_flat_map in Hin. destruct Hin as (u & Hu & Hkv).
  assert (k = u) by (apply (Hkey u); apply in_map_iff; exists (k, v); auto).
  simpl in Hnew. congruence.
Qed.

Lemma title_found_key (u k : string) : In k (map fst (title_found u)) -> k = u.
Proof.
  unfold title_found. destruct (axios_get env u); simpl; try tauto.
  split_ifs; simpl; intuition.
Qed.

Lemma description_found_key (u k : string) :
  In k (map fst (description_found u)) -> k = u.
Proof.
  unfold description_found. destruct (axios_get env u); simpl; try tauto.
  split_ifs; simpl; intuition.
Qed.

Lemma warning_keys (out : string * string -> bool) (m : JSMap string) (url : string) :
  ~ In url (map fst m) -> ~ In url (map fst (map with_length (filter out m))).
Proof.
  intros Hnew Hin. apply Hnew. rewrite map_map in Hin. simpl in Hin.
  apply in_map_iff in Hin. destruct Hin as (e & <- & He).
  apply filter_In in He. apply in_map. tauto.
Qed.

Lemma visit_page_texts (url : string) (st : Analyzer) :
  texts (fst (visit_page env url st))
  = match axios_get env url with
    | Resolved status data =>
        if negb (status =? 200)%Z || is_empty data then texts st
        else texts (extractMetadata env (cheerio_load env data) url st)
    | _ => texts st
    end.
Proof.
  unfold visit_page, fetchPage.
  destruct (axios_get env url) as [status data | status | message]; simpl;
    rewrite ?orb_true_r; try reflexivity.
  destruct (negb (status =? 200)%Z || is_empty data); [reflexivity |].
  set (page := cheerio_load env data).
  set (st1 := set_statusCodes _ _).
  assert (Ha : texts (analyzePage env url page st1) = texts st).
  { unfold analyzePage, add_keywords.
    destruct (analyzePageContent env (page_content page) url) as [[pa |] | e];
      try reflexivity.
    split_ifs; reflexivity. }
  assert (Hl : forall s, texts (snd (extractLinks env page url s)) = texts s).
  { intros s. unfold extractLinks.
    destruct (scan_anchors env page url) as [[l i] e]. reflexivity. }
  specialize (Hl (extractMetadata env page url (analyzePage env url page st1))).
  destruct (extractLinks env page url _) as [links st4]. simpl in *. rewrite Hl.
  rewrite !extractMetadata_updates_texts.
  unfold texts in Ha. injection Ha as -> -> -> ->. reflexivity.
Qed.

Lemma texts_in_step_visit (url : string) (st : Analyzer) :
  texts_in_step st -> set_has url (visitedUrls st) = false ->
  texts_in_step (fst (visit_page env url st)).
Proof.
  intros (Ht & Htw & Hd & Hdw) Hnew.
  destruct (visit_page_traversal env url st) as (Hv & _ & _).
  pose proof (visit_page_texts url st) as Htexts.
  unfold texts_in_step. rewrite Hv, (set_add_fresh _ _ Hnew).
  apply set_has_false in Hnew.
  assert (Hkt : ~ In url (map fst (pagesTitles st)))
    by (rewrite Ht; apply found_keys; [apply title_found_key | assumption]).
  assert (Hkd : ~ In url (map fst (pagesDescriptions st)))
    by (rewrite Hd; apply found_keys; [apply description_found_key | assumption]).
  assert (Hktw : ~ In url (map fst (pagesTitlesWarnings st)))
    by (rewrite Htw; now apply warning_keys).
  assert (Hkdw : ~ In url (map fst (pagesDescriptionsWarnings st)))
    by (rewrite Hdw; now apply warning_keys).
  rewrite !flat_map_app. simpl. rewrite !app_nil_r.
  unfold title_found, description_found.
  destruct (axios_get env url) as [status data | status | message];
    unfold texts in Htexts at 1; try (injection Htexts as -> -> -> ->;
      rewrite !app_nil_r; repeat split; assumption).
  destruct (negb (status =? 200)%Z || is_empty data);
    [injection Htexts as -> -> -> ->; rewrite !app_nil_r; repeat split; assumption |].
  rewrite extractMetadata_updates_texts in Htexts.
  injection Htexts as -> -> -> ->.
  set (page := cheerio_load env data).
  repeat split.
  - destruct (is_empty (page_title page)); [now rewrite app_nil_r |].
    rewrite map_set_fresh by now apply map_get_not_key. now rewrite Ht.
  - destruct (is_empty (page_title page)); [assumption |].
    rewrite (map_set_fresh url (page_title page))
      by now apply map_get_not_key.
    rewrite filter_app, map_app. simpl.
    destruct (title_out_of_range (url, page_title page)); simpl.
    + rewrite map_set_fresh by now apply map_get_not_key. now rewrite Htw.
    + now rewrite app_nil_r.
  - destruct (truthy_string (page_description page)) as [d' |];
      [| now rewrite app_nil_r].
    rewrite map_set_fresh by now apply map_get_not_key. now rewrite Hd.
  - destruct (truthy_string (page_description page)) as [d' |]; [| assumption].
    rewrite (map_set_fresh url d') by now apply map_get_not_key.
    rewrite filter_app, map_app. simpl.
    destruct (description_out_of_range (url, d')); simpl.
    + rewrite map_set_fresh by now apply map_get_not_key. now rewrite Hdw.
    + now rewrite app_nil_r.
Qed.

Lemma crawl_texts_in_step (fuel : nat) (url : string) (depth maxDepth : Z)
    (st' : Analyzer) :
  crawl env fuel url depth maxDepth (new_analyzer env) = Some st' ->
  texts_in_step st'.
Proof.
  apply (crawl_keeps env texts_in_step).
  - repeat split.
  - intros u s Hs. unfold shouldCrawl. destruct (isStaticResource u); exact Hs.
  - intros u s Hs Hnew _. now apply texts_in_step_visit.
Qed.

Lemma title_lines (m : JSMap string) :
  flat_map title_length_issue m
  = map title_line (map with_length (filter title_out_of_range m)).
Proof.
  induction m as [| [u t] m IH]; simpl; [reflexivity |].
  unfold title_out_of_range at 1. simpl.
  destruct ((str_length t <? 30) || (60 <? str_length t))%nat; simpl;
    now rewrite IH.
Qed.

Lemma description_lines (m : JSMap string) :
  flat_map description_length_issue m
  = map description_line (map with_length (filter description_out_of_range m)).
Proof.
  induction m as [| [u t] m IH]; simpl; [reflexivity |].
  unfold description_out_of_range at 1. simpl.
  destruct ((str_length t <? 120) || (160 <? str_length t))%nat; simpl;
    now rewrite IH.
Qed.

End Warnings.

(** X20.  In every report that [analyze] returns on a new analyzer the
    issues are: one line for each entry of [urlsWithInvalidTitleLength],
    then one line for each entry of [urlsWithInvalidDescriptionLength],
    then the line with the number of broken links when there is one;
    nothing else. *)
Theorem issues_are_the_length_warnings
    (env : Env) (fuel : nat) (maxDepth : Z) (now : string)
    (report : Report) (st : Analyzer) :
  analyze env fuel maxDepth now (new_analyzer env) = Some (Returned report, st) ->
  issues report
  = map title_line (urlsWithInvalidTitleLength (crawlStats report))
    ++ map description_line (urlsWithInvalidDescriptionLength (crawlStats report))
    ++ broken_line (cs_brokenLinks (crawlStats report)).
Proof.
  intros Hrun. apply analyze_returned in Hrun.
  destruct Hrun as (st1 & st3 & Hrun & Hstep & Hfinish).
  destruct (sitemap_step_kept env fuel st1 st3 Hstep) as (Hkept & _).
  destruct (finish_fields env now (collect_issues st1) st3 st report Hfinish)
    as (-> & _ & _).
  change (collect_issues st1
          = map title_line (pagesTitlesWarnings st3)
            ++ map description_line (pagesDescriptionsWarnings st3)
            ++ broken_line (length (brokenLinks st3))).
  replace (pagesTitlesWarnings st3) with (pagesTitlesWarnings st1)
    by (symmetry; exact (f_equal pagesTitlesWarnings Hkept)).
  replace (pagesDescriptionsWarnings st3) with (pagesDescriptionsWarnings st1)
    by (symmetry; exact (f_equal pagesDescriptionsWarnings Hkept)).
  replace (brokenLinks st3) with (brokenLinks st1)
    by (symmetry; exact (f_equal brokenLinks Hkept)).
  assert (Hb : before_sitemap st1).
  { eapply crawl_before_sitemap; [| exact Hrun]. repeat split; constructor. }
  destruct (crawl_texts_in_step env _ _ _ _ _ Hrun) as (_ & -> & _ & ->).
  rewrite (collect_issues_before_sitemap st1 Hb), title_lines, description_lines.
  reflexivity.
Qed.

Lemma issues_are_the_length_warnings_witness :
  exists report st,
    analyze Sample.example_site 2 10 "2025-01-01T00:00:00.000Z"
      (new_analyzer Sample.example_site) = Some (Returned report, st)
    /\ issues report
       = map title_line (urlsWithInvalidTitleLength (crawlStats report))
         ++ map description_line
              (urlsWithInvalidDescriptionLength (crawlStats report))
         ++ broken_line (cs_brokenLinks (crawlStats report)).
Proof.
  eexists. eexists. split; [vm_compute; reflexivity |].
  eapply (issues_are_the_length_warnings Sample.example_site 2 10
            "2025-01-01T00:00:00.000Z").
  vm_compute. reflexivity.
Defined.

(** The issues of the sample site. *)
Example sample_issues :
  option_map (fun result => bind (fst result) (fun report => Returned (issues report)))
    (analyze Sample.example_site 2 10 "2025-01-01T00:00:00.000Z"
       (new_analyzer Sample.example_site))
  = Some (Returned
            ["Nieprawidłowa długość tytułu (4 znaków) na stronie: https://example.test/";
             "Nieprawidłowa długość meta opisu (11 znaków) na stronie: https://example.test/about";
             "Znaleziono 2 uszkodzonych linków"]).
Proof. vm_compute. reflexivity. Qed.

(** X21.  After a run from a new analyzer, [pagesTitles] holds exactly
    the titles of the visited URLs that gave a page with a title that is
    not empty, and the report lists under [urlsWithoutTitle] every other
    visited URL: a URL whose fetch failed is listed there like a page
    that has no title.  The same holds of the descriptions. *)
Theorem pages_without_title_include_failed_fetches
    (env : Env) (url : string) (depth maxDepth : Z) (now : string) :
  exists st',
    crawl env (crawl_fuel depth maxDepth) url depth maxDepth (new_analyzer env)
      = Some st'
    /\ pagesTitles st' = flat_map (title_found env) (visitedUrls st')
    /\ pagesDescriptions st' = flat_map (description_found env) (visitedUrls st')
    /\ (forall u,
          In u (urlsWithoutTitle (crawlStats (build_report env now st'))) <->
          In u (visitedUrls st') /\ title_found env u = [])
    /\ (forall u,
          In u (urlsWithoutDescription (crawlStats (build_report env now st'))) <->
          In u (visitedUrls st') /\ description_found env u = []).
Proof.
  destruct (crawl_ledger env url depth maxDepth) as (st' & Hrun & _ & Hnd & _).
  destruct (crawl_texts_in_step env _ _ _ _ _ Hrun) as (Ht & _ & Hd & _).
  exists st'. split; [assumption |]. split; [assumption |]. split; [assumption |].
  assert (Hhas : forall (found : string -> list (string * string)) u,
             (forall v k, In k (map fst (found v)) -> k = v) ->
             In u (visitedUrls st') ->
             (map_has u (flat_map found (visitedUrls st')) = false <-> found u = [])).
  { intros found u Hkey Hu. unfold map_has. split.
    - intros Hnone. destruct (found u) as [| [k v] rest] eqn:E; [reflexivity |].
      assert (k = u) by (apply (Hkey u); rewrite E; now left). subst k.
      assert (Hin : In u (map fst (flat_map found (visitedUrls st')))).
      { apply in_map_iff. exists (u, v). split; [reflexivity |].
        apply in_flat_map. exists u. split; [assumption |]. rewrite E. now left. }
      destruct (map_get u (flat_map found (visitedUrls st'))) eqn:G;
        [discriminate |].
      exfalso. clear - Hin G. induction (flat_map found (visitedUrls st'))
        as [| [k' v'] m IH]; [contradiction |]. simpl in *.
      destruct (String.eqb_spec u k') as [-> | Hne]; [discriminate |].
      destruct Hin as [Heq | Hin]; [congruence | now apply IH].
    - intros Hnil. rewrite map_get_not_key; [reflexivity |].
      intros Hin. apply in_map_iff in Hin. destruct Hin as ([k v] & <- & Hin).
      apply in_flat_map in Hin. destruct Hin as (w & Hw & Hkv).
      assert (k = w) by (apply (Hkey w); apply in_map_iff; exists (k, v); auto).
      simpl in *. subst w. rewrite Hnil in Hkv. contradiction. }
  split; intros u; simpl; rewrite filter_In, negb_true_iff.
  - rewrite Ht. split; intros [Hu H]; (split; [assumption |]);
      now apply (Hhas (title_found env) u (title_found_key env) Hu).
  - rewrite Hd. split; intros [Hu H]; (split; [assumption |]);
      now apply (Hhas (description_found env) u (description_found_key env) Hu).
Qed.

Example failed_fetch_listed_without_title :
  option_map
    (fun st =>
       urlsWithoutTitle (crawlStats (build_report Sample.unreachable_site "" st)))
    (crawl Sample.unreachable_site 12 Sample.home 0 10
       (new_analyzer Sample.unreachable_site))
  = Some [Sample.home].
Proof. vm_compute. reflexivity. Qed.

(* ================================================================= *)
(** ** Anchors that are followed and anchors that are not *)

(** The anchor has an [href] that is not empty, is not an anchor,
    script, mail or phone link, and that [normalizeUrl] resolves. *)
Definition followed (env : Env) (currentUrl : string) (href : option string) : bool :=
  match truthy_string href with
  | None => false
  | Some h =>
      negb (startsWith h "#" || startsWith h "javascript:"
            || startsWith h "mailto:" || startsWith h "tel:")
      && match normalizeUrl env h currentUrl with
         | Some _ => true
         | None => false
         end
  end.

Section Anchors.

Variable env : Env.

Lemma anchor_step_not_followed (currentUrl : string) (href : option string)
    (acc : JSSet * list string * list string) :
  followed env currentUrl href = false ->
  anchor_step env currentUrl acc href = acc.
Proof.
  unfold followed, anchor_step. destruct acc as [[links internal] external].
  destruct (truthy_string href) as [h |]; [| reflexivity].
  destruct (startsWith h "#" || startsWith h "javascript:"
            || startsWith h "mailto:" || startsWith h "tel:"); [reflexivity |].
  destruct (normalizeUrl env h currentUrl); [discriminate | reflexivity].
Qed.

Lemma anchor_step_followed (currentUrl : string) (href : option string)
    (acc : JSSet * list string * list string) :
  followed env currentUrl href = true ->
  (length (snd (fst (anchor_step env currentUrl acc href)))
   + length (snd (anchor_step env currentUrl acc href))
   = S (length (snd (fst acc)) + length (snd acc)))%nat.
Proof.
  unfold followed, anchor_step. destruct acc as [[links internal] external].
  destruct (truthy_string href) as [h |]; [| discriminate].
  destruct (startsWith h "#" || startsWith h "javascript:"
            || startsWith h "mailto:" || startsWith h "tel:"); [discriminate |].
  destruct (normalizeUrl env h currentUrl); [| discriminate].
  intros _. destruct (isInternalUrl env h); simpl; rewrite length_app; simpl; lia.
Qed.

Lemma scan_followed_only (currentUrl : string) (anchors : list (option string)) :
  forall acc,
    fold_left (anchor_step env currentUrl) anchors acc
    = fold_left (anchor_step env currentUrl)
        (filter (followed env currentUrl) anchors) acc
    /\ (length (snd (fst (fold_left (anchor_step env currentUrl) anchors acc)))
        + length (snd (fold_left (anchor_step env currentUrl) anchors acc))
        = length (filter (followed env currentUrl) anchors)
          + (length (snd (fst acc)) + length (snd acc)))%nat.
Proof.
  induction anchors as [| href rest IH]; intros acc; simpl; [split; reflexivity |].
  destruct (followed env currentUrl href) eqn:E; simpl.
  - destruct (IH (anchor_step env currentUrl acc href)) as [H1 H2].
    split; [assumption |]. rewrite H2, (anchor_step_followed _ _ _ E). lia.
  - rewrite (anchor_step_not_followed _ _ _ E). apply IH.
Qed.

End Anchors.

(** X22.  The anchors of a page that have no usable [href] (none or an
    empty one, an anchor, script, mail or phone link, or one that URL
    resolution refuses) leave no trace and do not disturb the others:
    scanning the page gives what scanning its other anchors gives, and
    the two link lists together have exactly one entry for each of those
    other anchors. *)
Theorem unusable_anchors_are_skipped (env : Env) (page : Page) (currentUrl : string) :
  scan_anchors env page currentUrl
  = fold_left (anchor_step env currentUrl)
      (filter (followed env currentUrl) (page_anchors page)) ([], [], [])
  /\ (length (snd (fst (scan_anchors env page currentUrl)))
      + length (snd (scan_anchors env page currentUrl))
      = length (filter (followed env currentUrl) (page_anchors page)))%nat.
Proof.
  unfold scan_anchors.
  destruct (scan_followed_only env currentUrl (page_anchors page) ([], [], []))
    as [H1 H2].
  split; [assumption |]. rewrite H2. simpl. lia.
Qed.

(** A page with a link that URL resolution refuses between two links it
    accepts. *)
Example unresolvable_link_is_skipped :
  scan_anchors Sample.example_site
    (mkPage "" None [] "" [Some "/a"; Some "//[bad"; Some "mailto:x@y"; Some "/b"] "")
    Sample.home
  = (["https://example.test/a"; "https://example.test/b"],
     ["https://example.test/a"; "https://example.test/b"], []).
Proof. vm_compute. reflexivity. Qed.

(* ================================================================= *)
(** ** The type of a static resource in the report *)

Section ResourceType.

Lemma lower_ascii_dot (c : ascii) : Ascii.eqb "." (lower_ascii c) = Ascii.eqb "." c.
Proof.
  unfold lower_ascii.
  destruct ((65 <=? nat_of_ascii c) && (nat_of_ascii c <=? 90))%nat eqn:E;
    [| reflexivity].
  apply andb_prop in E. destruct E as [E1 E2].
  apply Nat.leb_le in E1. apply Nat.leb_le in E2.
  assert (Hdot : nat_of_ascii "." = 46%nat) by reflexivity.
  transitivity false; [| symmetry]; apply Ascii.eqb_neq; intros H.
  - apply (f_equal nat_of_ascii) in H. rewrite nat_ascii_embedding in H by lia.
    rewrite Hdot in H. lia.
  - rewrite <- H, Hdot in E1. lia.
Qed.

Lemma lastIndexOf_dot_lower (s : string) :
  lastIndexOf "." (toLowerCase s) = lastIndexOf "." s.
Proof.
  induction s as [| c s IH]; [reflexivity |].
  cbn [lastIndexOf toLowerCase]. now rewrite IH, lower_ascii_dot.
Qed.

Lemma after_last_dot_app (stem rest : string) :
  lastIndexOf "." rest = None ->
  after_last_dot (stem ++ String "." rest) = rest.
Proof.
  intros H. unfold after_last_dot.
  rewrite (lastIndexOf_app "." stem rest H), Nat.add_1_r. clear H.
  induction stem as [| c stem IH]; simpl; [now destruct rest | exact IH].
Qed.

End ResourceType.

(** X23.  For a URL made of any stem, a dot and one of the sixteen
    extensions in any letter case, the type that the report gives to the
    static resource is that extension in lower case, without the dot. *)
Theorem static_resource_type_is_extension (stem extension : string) :
  In (toLowerCase (String "." extension)) ignoreExtensions ->
  isStaticResource (stem ++ String "." extension) = true
  /\ toLowerCase (after_last_dot (stem ++ String "." extension))
     = toLowerCase extension.
Proof.
  intros Hin. split.
  - apply existsb_exists. exists (toLowerCase (String "." extension)).
    split; [assumption |]. rewrite toLowerCase_app. apply endsWith_app.
  - rewrite after_last_dot_app; [reflexivity |].
    rewrite <- lastIndexOf_dot_lower. simpl in Hin.
    repeat (destruct Hin as [Hin | Hin];
            [injection Hin as Hin; rewrite <- Hin; reflexivity |]).
    contradiction.
Qed.

Lemma static_resource_type_is_extension_witness :
  isStaticResource ("https://example.test/img/photo.final" ++ String "." "JPeG") = true
  /\ toLowerCase
       (after_last_dot ("https://example.test/img/photo.final" ++ String "." "JPeG"))
     = toLowerCase "JPeG".
Proof.
  apply (static_resource_type_is_extension "https://example.test/img/photo.final"
           "JPeG").
  vm_compute. tauto.
Defined.

(* ================================================================= *)
(** ** A site without a sitemap *)

(** The request for the sitemap is rejected, or gives an empty body. *)
Definition no_sitemap (env : Env) : Prop :=
  match axios_get env (baseUrl env ++ "/sitemap.xml")%string with
  | Resolved _ data => data = ""
  | _ => True
  end.

Lemma filter_all (l : list string) : filter (fun u => negb (set_has u [])) l = l.
Proof. induction l as [| u l IH]; simpl; [reflexivity | f_equal; exact IH]. Qed.

(** X24.  When the sitemap of the site cannot be fetched, or is empty,
    no sitemap is parsed: what [analyze] does on a new analyzer is the
    same for every bound on the nesting of sitemaps, and in every report
    it returns the sitemap is empty and every visited URL is listed as
    not in the sitemap. *)
Theorem analyze_without_sitemap
    (env : Env) (fuel : nat) (maxDepth : Z) (now : string)
    (report : Report) (st : Analyzer) :
  no_sitemap env ->
  analyze env fuel maxDepth now (new_analyzer env) = Some (Returned report, st) ->
  (forall fuel',
     analyze env fuel' maxDepth now (new_analyzer env) = Some (Returned report, st))
  /\ sitemapUrls st = []
  /\ totalUrlsInSitemap (sitemapStats report) = 0%nat
  /\ ss_urlsInSitemapButNotCrawled (sitemapStats report) = []
  /\ ss_urlsNotInSitemap (sitemapStats report) = visitedUrls st.
Proof.
  intros Hno Hreturned.
  destruct (crawl_ready_for_sitemap env maxDepth)
    as (st1 & Hrun & Hnd & Hsm & HA & HB).
  set (st3 := log (EvGet (baseUrl env ++ "/sitemap.xml")%string) st1).
  assert (Hstep : forall fuel, sitemap_step env fuel st1 = Some st3).
  { intros fuel'. unfold sitemap_step, fetchSitemap, no_sitemap in *.
    destruct (axios_get env (baseUrl env ++ "/sitemap.xml")%string)
      as [status data | status | message]; try reflexivity.
    subst data. reflexivity. }
  assert (Hfinish : finish env now (collect_issues st1) st3 = (Returned report, st)).
  { rewrite analyze_unfold, Hrun, Hstep in Hreturned. now injection Hreturned. }
  split.
  - intros fuel'. now rewrite analyze_unfold, Hrun, Hstep, Hfinish.
  - destruct (finish_fields env now (collect_issues st1) st3 st report Hfinish)
      as (-> & -> & ->).
    destruct (compare_sets st3) as (EA & EB & _ & _).
    change (sitemapUrls st3) with (sitemapUrls st1) in *.
    change (visitedUrls st3) with (visitedUrls st1) in *.
    change (urlsNotInSitemap st3) with (urlsNotInSitemap st1) in EA.
    change (urlsInSitemapButNotCrawled st3)
      with (urlsInSitemapButNotCrawled st1) in EB.
    rewrite Hsm, HA, add_kept_filter, filter_all in EA by assumption.
    rewrite Hsm, HB in EB.
    change (add_kept (fun u => negb (set_has u (visitedUrls st1))) [] [])
      with (@nil string) in EB.
    change (sitemapUrls st1 = []
            /\ length (sitemapUrls (compareCrawlWithSitemap st3)) = 0%nat
            /\ urlsInSitemapButNotCrawled (compareCrawlWithSitemap st3) = []
            /\ urlsNotInSitemap (compareCrawlWithSitemap st3) = visitedUrls st1).
    rewrite EA, EB. change (sitemapUrls (compareCrawlWithSitemap st3))
      with (sitemapUrls st1). rewrite Hsm. repeat split.
Qed.

Lemma analyze_without_sitemap_witness :
  exists report st,
    analyze Sample.bare_site 0 10 "2025-01-01T00:00:00.000Z"
      (new_analyzer Sample.bare_site) = Some (Returned report, st)
    /\ (forall fuel',
          analyze Sample.bare_site fuel' 10 "2025-01-01T00:00:00.000Z"
            (new_analyzer Sample.bare_site) = Some (Returned report, st))
    /\ sitemapUrls st = []
    /\ totalUrlsInSitemap (sitemapStats report) = 0%nat
    /\ ss_urlsInSitemapButNotCrawled (sitemapStats report) = []
    /\ ss_urlsNotInSitemap (sitemapStats report) = visitedUrls st.
Proof.
  eexists. eexists. split; [vm_compute; reflexivity |].
  apply (analyze_without_sitemap Sample.bare_site 0 10 "2025-01-01T00:00:00.000Z").
  - exact I.
  - vm_compute. reflexivity.
Defined.
